(** * Resumify: resume parsing, job-requirement parsing and match scoring

    A shallow embedding of the algorithmic core of the Resumify backend:

    - [Backend/app/services/nlp_service.py]   (class [NLPService]),
    - [Backend/app/services/cv_parser.py]     (class [CVParser]),
    - [Backend/backup/app/services/cv_analyzer.py] (class [CVAnalyzer]),

    followed by the properties of the specification that were checked
    against it.

    Modelling conventions.

    - Python [str] is [string]; the character classes ([str.lower],
      [str.isalpha], [str.strip], [\w], [\s], [\d] ...) are the ASCII ones:
      the texts are taken to be ASCII.  A property that holds of the
      code for ASCII strings only says so with [Py.isascii]: Python folds
      more than the 26 letters, and its [\w] has more than the ASCII word
      characters.
    - Python [float] and [int] scores are exact rationals ([Q]), and the
      scoring is done in exact arithmetic.  Equality of scores is [Qeq].
      The average of the statistics, whose second decimal depends on the
      rounding of floats, is also modelled on binary64 numbers (modules
      [Binary64] and [CVAnalyzer64]).
    - [list(set(l))] is a list without duplicates ([remove_dups]); nothing
      in the modelled code depends on the iteration order of a set.
    - A Python call that may raise returns a [result]: [Return v] or
      [Raise e], and [try ... except Exception] is a match on it.
    - The regular expressions of the source are written in a small regex
      syntax ([Re.regex]) run by a backtracking matcher that follows the
      priorities of Python's [re] (leftmost match, greedy or lazy
      quantifiers tried in order, ordered alternation). *)

From Stdlib Require Import String Ascii List ZArith QArith Qround Qabs Qpower
  Bool Lia Lqa DecimalString.
From stdpp Require Import gmap strings list.

Local Open Scope string_scope.

(** ** Python strings *)

Module Py.

Definition ord (c : ascii) : N := N_of_ascii c.

Definition between (lo hi n : N) : bool := (lo <=? n)%N && (n <=? hi)%N.

Definition isupper_char (c : ascii) : bool := between 65 90 (ord c).
Definition islower_char (c : ascii) : bool := between 97 122 (ord c).
Definition isalpha_char (c : ascii) : bool := isupper_char c || islower_char c.
Definition isdigit_char (c : ascii) : bool := between 48 57 (ord c).

(** [str.isspace] on ASCII: TAB, LF, VT, FF, CR, FS, GS, RS, US and space. *)
Definition isspace_char (c : ascii) : bool :=
  between 9 13 (ord c) || between 28 32 (ord c).

(** [\w] on ASCII: letters, digits and the underscore. *)
Definition isword_char (c : ascii) : bool :=
  isalpha_char c || isdigit_char c || (ord c =? 95)%N.

Definition lower_char (c : ascii) : ascii :=
  if isupper_char c then ascii_of_N (ord c + 32) else c.

Definition upper_char (c : ascii) : ascii :=
  if islower_char c then ascii_of_N (ord c - 32) else c.

Definition char_eqb (a b : ascii) : bool := Ascii.eqb a b.

Fixpoint map_chars (f : ascii -> ascii) (s : string) : string :=
  match s with
  | EmptyString => EmptyString
  | String c s' => String (f c) (map_chars f s')
  end.

(** [s.lower()], on ASCII strings *)
Definition lower (s : string) : string := map_chars lower_char s.

Fixpoint count_chars (p : ascii -> bool) (s : string) : nat :=
  match s with
  | EmptyString => 0
  | String c s' => (if p c then 1 else 0) + count_chars p s'
  end.

Fixpoint forall_chars (p : ascii -> bool) (s : string) : bool :=
  match s with
  | EmptyString => true
  | String c s' => p c && forall_chars p s'
  end.

(** [s.isascii()] *)
Definition isascii (s : string) : bool := forall_chars (fun c => (ord c <? 128)%N) s.

(** [s.isupper()]: at least one cased character and no lower-case one. *)
Definition isupper (s : string) : bool :=
  (0 <? count_chars isalpha_char s)%nat && forall_chars (fun c => negb (islower_char c)) s.

(** [s.isdigit()] *)
Definition isdigit (s : string) : bool :=
  (0 <? String.length s)%nat && forall_chars isdigit_char s.

(** [s.title()]: a cased character is upper-cased when the previous
    character is not cased and lower-cased otherwise. *)
Fixpoint title_from (prev_cased : bool) (s : string) : string :=
  match s with
  | EmptyString => EmptyString
  | String c s' =>
      if isalpha_char c
      then String (if prev_cased then lower_char c else upper_char c) (title_from true s')
      else String c (title_from false s')
  end.

Definition title (s : string) : string := title_from false s.

Fixpoint lstrip (s : string) : string :=
  match s with
  | EmptyString => EmptyString
  | String c s' => if isspace_char c then lstrip s' else s
  end.

Fixpoint rstrip (s : string) : string :=
  match s with
  | EmptyString => EmptyString
  | String c s' =>
      match rstrip s' with
      | EmptyString => if isspace_char c then EmptyString else String c EmptyString
      | r => String c r
      end
  end.

(** [s.strip()] *)
Definition strip (s : string) : string := lstrip (rstrip s).

(** [s.split(sep)] for a one-character separator: never empty, keeps empty
    fields. *)
Fixpoint split_char (sep : ascii) (s : string) : list string :=
  match s with
  | EmptyString => [EmptyString]
  | String c s' =>
      if char_eqb c sep then EmptyString :: split_char sep s'
      else match split_char sep s' with
           | [] => [String c EmptyString]
           | w :: ws => String c w :: ws
           end
  end.

(** [s.split(sep, 1)]: the text before the first separator, and the text
    after it when there is one. *)
Fixpoint split_once (sep : ascii) (s : string) : string * option string :=
  match s with
  | EmptyString => (EmptyString, None)
  | String c s' =>
      if char_eqb c sep then (EmptyString, Some s')
      else let '(a, b) := split_once sep s' in (String c a, b)
  end.

(** [s.split()]: the maximal runs of non-blank characters. *)
Fixpoint split_ws_acc (cur : string) (s : string) : list string :=
  match s with
  | EmptyString => match cur with EmptyString => [] | _ => [cur] end
  | String c s' =>
      if isspace_char c
      then match cur with
           | EmptyString => split_ws_acc EmptyString s'
           | _ => cur :: split_ws_acc EmptyString s'
           end
      else split_ws_acc (cur +:+ String c EmptyString) s'
  end.

Definition split (s : string) : list string := split_ws_acc EmptyString s.

(** [sep.join(l)] *)
Fixpoint join (sep : string) (l : list string) : string :=
  match l with
  | [] => EmptyString
  | [x] => x
  | x :: l' => x +:+ sep +:+ join sep l'
  end.

(** [s.startswith(p)] *)
Fixpoint startswith (p s : string) : bool :=
  match p, s with
  | EmptyString, _ => true
  | String a p', String b s' => char_eqb a b && startswith p' s'
  | String _ _, EmptyString => false
  end.

(** [sub in s] on strings *)
Fixpoint contains (sub s : string) : bool :=
  startswith sub s ||
  match s with
  | EmptyString => false
  | String _ s' => contains sub s'
  end.

(** [x in l] on a list of strings *)
Definition mem (x : string) (l : list string) : bool :=
  existsb (String.eqb x) l.

(** [s[:n]] *)
Definition prefix (n : nat) (s : string) : string := substring 0 n s.

(** [int(s)] / [float(s)] on a string of ASCII digits *)
Fixpoint digits_value (acc : Z) (s : string) : Z :=
  match s with
  | EmptyString => acc
  | String c s' => digits_value (10 * acc + Z.of_N (ord c - 48)) s'
  end.

Definition int_of_digits (s : string) : Z := digits_value 0 s.

(** Exceptions ([Exception] and its subclasses): the class name and the
    text that [str(e)] returns. *)
Record exception := Exception { exc_class : string; exc_str : string }.

Definition ValueError (msg : string) : exception := Exception "ValueError" msg.

Inductive result (A : Type) : Type :=
| Return (v : A)
| Raise (e : exception).
Arguments Return {A} v.
Arguments Raise {A} e.

Definition bind {A B} (m : result A) (f : A -> result B) : result B :=
  match m with
  | Return v => f v
  | Raise e => Raise e
  end.

(** [try: body  except Exception as e: handler(e)] *)
Definition try_except {A} (body : result A) (handler : exception -> result A) : result A :=
  match body with
  | Return v => Return v
  | Raise e => handler e
  end.

End Py.

#[global] Instance result_ret : MRet Py.result := @Py.Return.
#[global] Instance result_bind : MBind Py.result := fun A B f m => Py.bind m f.

(** ** Regular expressions (Python's [re]) *)

Module Re.

Inductive regex : Type :=
| Eps
| Chr (p : ascii -> bool)          (* one character of a class *)
| Seq (a b : regex)
| Alt (a b : regex)                (* a|b, a first *)
| Star (a : regex)                 (* a*  *)
| LazyStar (a : regex)             (* a*? *)
| Rep (lo hi : nat) (a : regex)    (* a{lo,hi} *)
| Group (n : nat) (a : regex)      (* the n-th capturing group *)
| WordB                            (* \b *)
| Eol.                             (* $ *)

(** The position of the matcher in the text: the character just before
    it, the text still to read, and the index reached. *)
Record cursor := Cursor { before : option ascii; rest : string; pos : nat }.

Definition start_of (text : string) : cursor := Cursor None text 0.

Definition captures := list (nat * (nat * nat)).
Definition outcome : Type := cursor * captures.
Definition cont : Type := cursor -> captures -> option outcome.

Definition next_char (c : cursor) : option ascii :=
  match rest c with
  | EmptyString => None
  | String a _ => Some a
  end.

Definition is_word (o : option ascii) : bool :=
  match o with
  | Some a => Py.isword_char a
  | None => false
  end.

Definition at_word_boundary (c : cursor) : bool :=
  xorb (is_word (before c)) (is_word (next_char c)).

Definition newline : ascii := ascii_of_nat 10.

(** [$] without [re.MULTILINE]: the end of the text, or just before a
    final newline. *)
Definition at_end (c : cursor) : bool :=
  match rest c with
  | EmptyString => true
  | String a EmptyString => Py.char_eqb a newline
  | _ => false
  end.

Definition matcher : Type := cont -> cursor -> captures -> option outcome.

(** The loops of the quantifiers over the matcher [m] of their body.  An
    iteration of a star must consume a character, so the length of the
    remaining text bounds the number of iterations. *)

(** [a*]: one more iteration first, the continuation when that fails. *)
Fixpoint star_loop (m : matcher) (k : cont) (fuel : nat) (c : cursor) (g : captures)
    : option outcome :=
  match fuel with
  | O => k c g
  | S fuel' =>
      match m (fun c' g' => if (pos c <? pos c')%nat then star_loop m k fuel' c' g' else None)
              c g with
      | Some o => Some o
      | None => k c g
      end
  end.

(** [a*?]: the continuation first, one more iteration when that fails. *)
Fixpoint lazy_loop (m : matcher) (k : cont) (fuel : nat) (c : cursor) (g : captures)
    : option outcome :=
  match fuel with
  | O => k c g
  | S fuel' =>
      match k c g with
      | Some o => Some o
      | None =>
          m (fun c' g' => if (pos c <? pos c')%nat then lazy_loop m k fuel' c' g' else None) c g
      end
  end.

(** [a{lo,hi}]: up to [hi] iterations, as many as possible, and the
    continuation only once [lo] of them are done. *)
Fixpoint rep_loop (m : matcher) (k : cont) (lo hi : nat) (c : cursor) (g : captures)
    : option outcome :=
  match hi with
  | O => k c g
  | S hi' =>
      match m (rep_loop m k (pred lo) hi') c g with
      | Some o => Some o
      | None => if (lo =? 0)%nat then k c g else None
      end
  end.

(** The backtracking matcher, in continuation-passing style: [run r k c g]
    matches [r] at [c] and hands the cursor reached to [k]; when [k] fails
    the next alternative of [r] is tried. *)
Fixpoint run (r : regex) (k : cont) (c : cursor) (g : captures) {struct r} : option outcome :=
  match r with
  | Eps => k c g
  | Chr p =>
      match rest c with
      | String a s => if p a then k (Cursor (Some a) s (S (pos c))) g else None
      | EmptyString => None
      end
  | Seq a b => run a (run b k) c g
  | Alt a b =>
      match run a k c g with
      | Some o => Some o
      | None => run b k c g
      end
  | Star a => star_loop (run a) k (S (String.length (rest c))) c g
  | LazyStar a => lazy_loop (run a) k (S (String.length (rest c))) c g
  | Rep lo hi a => rep_loop (run a) k lo hi c g
  | Group n a => run a (fun c' g' => k c' ((n, (pos c, pos c')) :: g')) c g
  | WordB => if at_word_boundary c then k c g else None
  | Eol => if at_end c then k c g else None
  end.

Definition accept : cont := fun c g => Some (c, g).

(** A match object: where it starts, the cursor where it ends, and the
    spans of the groups that took part. *)
Record rmatch := Match { m_start : nat; m_end : cursor; m_groups : captures }.

Definition m_stop (m : rmatch) : nat := pos (m_end m).

(** The leftmost match at or after the cursor [(b, s, i)]. *)
Fixpoint search_at (r : regex) (b : option ascii) (s : string) (i : nat) : option rmatch :=
  match run r accept (Cursor b s i) [] with
  | Some (c, g) => Some (Match i c g)
  | None =>
      match s with
      | String a s' => search_at r (Some a) s' (S i)
      | EmptyString => None
      end
  end.

(** [re.search(r, text)] *)
Definition search (r : regex) (text : string) : option rmatch :=
  search_at r None text 0.

Definition span_text (text : string) (sp : nat * nat) : string :=
  substring (fst sp) (snd sp - fst sp) text.

(** [m.group(0)] *)
Definition group0 (text : string) (m : rmatch) : string :=
  span_text text (m_start m, m_stop m).

Fixpoint assoc (n : nat) (g : captures) : option (nat * nat) :=
  match g with
  | [] => None
  | (k, sp) :: g' => if (k =? n)%nat then Some sp else assoc n g'
  end.

(** [m.group(n)] as [re.findall] reports it: the empty string for a group
    that did not take part. *)
Definition group (text : string) (n : nat) (m : rmatch) : string :=
  match assoc n (m_groups m) with
  | Some sp => span_text text sp
  | None => EmptyString
  end.

(** The successive non-overlapping matches, left to right ([re.finditer]).
    After an empty match the scan resumes one character further. *)
Fixpoint finditer_from (fuel : nat) (r : regex) (c : cursor) : list rmatch :=
  match fuel with
  | O => []
  | S fuel' =>
      match search_at r (before c) (rest c) (pos c) with
      | None => []
      | Some m =>
          let e := m_end m in
          if (m_start m <? pos e)%nat
          then m :: finditer_from fuel' r e
          else match rest e with
               | String a s => m :: finditer_from fuel' r (Cursor (Some a) s (S (pos e)))
               | EmptyString => [m]
               end
      end
  end.

Definition finditer (r : regex) (text : string) : list rmatch :=
  finditer_from (S (String.length text)) r (start_of text).

(** [re.findall] for a pattern without group, and for the first group of a
    pattern with groups. *)
Definition findall0 (r : regex) (text : string) : list string :=
  map (group0 text) (finditer r text).

Definition findall_group (n : nat) (r : regex) (text : string) : list string :=
  map (group text n) (finditer r text).

(** [re.findall] for a pattern with several groups: the tuple of the
    groups [1..n] of each match. *)
Definition findall_groups (n : nat) (r : regex) (text : string) : list (list string) :=
  map (fun m => map (fun i => group text i m) (List.seq 1 n)) (finditer r text).

(** [re.sub(r, repl, text)] for a replacement without back-reference. *)
Fixpoint sub_from (text repl : string) (from : nat) (ms : list rmatch) : string :=
  match ms with
  | [] => substring from (String.length text - from) text
  | m :: ms' =>
      substring from (m_start m - from) text +:+ repl +:+ sub_from text repl (m_stop m) ms'
  end.

Definition sub (r : regex) (repl text : string) : string :=
  sub_from text repl 0 (finditer r text).

(** *** Pattern syntax *)

Definition Plus (a : regex) : regex := Seq a (Star a).
Definition Opt (a : regex) : regex := Alt a Eps.
Definition AtLeast2 (a : regex) : regex := Seq a (Seq a (Star a)).

Definition chr (a : ascii) : regex := Chr (Py.char_eqb a).
(** a letter under [re.IGNORECASE], on ASCII strings *)
Definition chr_ci (a : ascii) : regex :=
  Chr (fun b => Py.char_eqb (Py.lower_char b) (Py.lower_char a)).

Fixpoint lit (s : string) : regex :=
  match s with
  | EmptyString => Eps
  | String a s' => Seq (chr a) (lit s')
  end.

Fixpoint lit_ci (s : string) : regex :=
  match s with
  | EmptyString => Eps
  | String a s' => Seq (chr_ci a) (lit_ci s')
  end.

Fixpoint cat (l : list regex) : regex :=
  match l with
  | [] => Eps
  | [r] => r
  | r :: l' => Seq r (cat l')
  end.

Definition digit : regex := Chr Py.isdigit_char.                      (* \d *)
Definition space : regex := Chr Py.isspace_char.                      (* \s *)
Definition word : regex := Chr Py.isword_char.                        (* \w *)
Definition dot : regex := Chr (fun a => negb (Py.char_eqb a newline)). (* .  *)

Definition one_of (s : string) (a : ascii) : bool :=
  negb (Py.forall_chars (fun b => negb (Py.char_eqb a b)) s).

(** *** Vocabulary for reasoning about the matcher *)

(** [c'] is reached from [c] by reading [mid]. *)
Definition reach (c c' : cursor) : Prop :=
  exists mid, rest c = mid +:+ rest c' /\ pos c' = (pos c + String.length mid)%nat.

(** A position of [text]: what is left to read is a suffix of the text,
    and the index is the length of what was read. *)
Definition cursor_of (text : string) (c : cursor) : Prop :=
  exists pre, text = pre +:+ rest c /\ String.length pre = pos c.

(** The last character of [s], or [b] for the empty string. *)
Fixpoint last_char (b : option ascii) (s : string) : option ascii :=
  match s with
  | EmptyString => b
  | String a s' => last_char (Some a) s'
  end.

Definition first_char (s : string) : option ascii :=
  match s with
  | EmptyString => None
  | String a _ => Some a
  end.

(** The position of a text between [pre] and [post]. *)
Definition cursor_at (pre post : string) : cursor :=
  Cursor (last_char None pre) post (String.length pre).

(** [\b] between a character and the next one. *)
Definition word_boundary (b n : option ascii) : Prop :=
  xorb (is_word b) (is_word n) = true.

(** A skill that begins and ends with a word character. *)
Definition word_edged (skill : string) : Prop :=
  is_word (first_char skill) = true /\ is_word (last_char None skill) = true.

(** The patterns without capturing group. *)
Fixpoint nogroup (r : regex) : bool :=
  match r with
  | Seq a b | Alt a b => nogroup a && nogroup b
  | Star a | LazyStar a | Rep _ _ a => nogroup a
  | Group _ _ => false
  | _ => true
  end.

(** What a matcher hands to its continuation: a position reached from the
    start and, when [keep] holds, the captures it was given. *)
Definition sound (keep : bool) (m : matcher) : Prop :=
  forall (k : cont) (c : cursor) (g : captures) (o : outcome),
    m k c g = Some o ->
    exists c' g', reach c c' /\ k c' g' = Some o /\ (keep = true -> g' = g).

End Re.

(** ** [NLPService]: the skill taxonomy and the job-description parser *)

Module NLPService.
Import Re.

(** [self.technical_skills_db]: the categories in the order of the dict literal. *)
Definition technical_skills_db : list (string * list string) :=
  [ ("programming_languages",
      ["python"; "java"; "javascript"; "typescript"; "c++"; "c#"; "php"; "ruby"; "go";
       "rust"; "swift"; "kotlin"; "scala"; "r"; "matlab"; "sql"; "c"; "objective-c";
       "dart"; "perl"; "shell"; "bash"])
  ; ("web_technologies",
      ["html"; "css"; "react"; "angular"; "vue"; "node.js"; "nodejs"; "express";
       "django"; "flask"; "spring"; "laravel"; "bootstrap"; "jquery"; "webpack";
       "sass"; "less"; "tailwind"; "material-ui"; "next.js"; "nuxt.js"])
  ; ("databases",
      ["mysql"; "postgresql"; "mongodb"; "redis"; "elasticsearch"; "oracle"; "sqlite";
       "cassandra"; "dynamodb"; "firebase"; "mariadb"; "neo4j"; "influxdb"; "couchdb"])
  ; ("cloud_devops",
      ["aws"; "azure"; "google cloud"; "gcp"; "docker"; "kubernetes"; "terraform";
       "jenkins"; "gitlab"; "github actions"; "circleci"; "ansible"; "chef"; "puppet";
       "vagrant"; "helm"])
  ; ("data_science",
      ["pandas"; "numpy"; "scikit-learn"; "tensorflow"; "pytorch"; "keras"; "spark";
       "hadoop"; "tableau"; "power bi"; "excel"; "jupyter"; "matplotlib"; "seaborn";
       "plotly"; "dask"; "airflow"])
  ; ("mobile",
      ["android"; "ios"; "react native"; "flutter"; "xamarin"; "ionic"; "cordova";
       "swift"; "kotlin"; "objective-c"])
  ; ("testing",
      ["junit"; "pytest"; "selenium"; "cypress"; "jest"; "mocha"; "chai"; "unittest";
       "testng"; "cucumber"; "postman"])
  ; ("finance_accounting",
      ["accounting"; "bookkeeping"; "financial analysis"; "budgeting"; "forecasting";
       "excel"; "quickbooks"; "sap"; "oracle financials"; "gaap"; "ifrs";
       "tax preparation"; "auditing"; "financial reporting"; "cash flow";
       "accounts payable"; "accounts receivable"; "cost accounting";
       "financial modeling"; "variance analysis"; "cpa"; "cfa"])
  ; ("business_analysis",
      ["business analysis"; "requirements gathering"; "process improvement";
       "stakeholder management"; "business intelligence"; "data analysis";
       "market research"; "competitive analysis"; "strategic planning";
       "process mapping"; "workflow optimization"; "kpi development";
       "project management"; "agile"; "scrum"; "lean"; "six sigma"])
  ; ("consulting",
      ["management consulting"; "strategy consulting"; "change management";
       "organizational development"; "business transformation"; "process optimization";
       "performance improvement"; "stakeholder engagement"; "workshop facilitation";
       "presentation skills"])
  ; ("digital_marketing",
      ["seo"; "sem"; "google ads"; "facebook ads"; "social media marketing";
       "content marketing"; "email marketing"; "marketing automation";
       "google analytics"; "conversion optimization"; "a/b testing"; "ppc";
       "affiliate marketing"; "influencer marketing"; "brand management"])
  ; ("sales",
      ["sales"; "business development"; "lead generation"; "cold calling";
       "prospecting"; "account management"; "customer relationship management"; "crm";
       "salesforce"; "negotiation"; "closing"; "pipeline management";
       "territory management"; "b2b sales"; "b2c sales"])
  ; ("marketing_traditional",
      ["brand marketing"; "advertising"; "public relations"; "market research";
       "campaign management"; "event marketing"; "trade shows"; "print advertising";
       "radio advertising"; "tv advertising"; "direct mail"; "outdoor advertising";
       "media planning"; "media buying"])
  ; ("medical_clinical",
      ["patient care"; "clinical assessment"; "medical diagnosis";
       "treatment planning"; "medical procedures"; "surgery"; "emergency medicine";
       "intensive care"; "radiology"; "cardiology"; "oncology"; "pediatrics";
       "geriatrics"; "psychiatry"; "nursing"])
  ; ("healthcare_admin",
      ["healthcare administration"; "medical billing"; "medical coding";
       "hipaa compliance"; "healthcare regulations"; "patient records";
       "electronic health records"; "ehr"; "medical insurance"; "healthcare quality";
       "patient safety"; "clinical workflows"])
  ; ("pharmacy",
      ["pharmaceutical"; "drug dispensing"; "medication therapy management";
       "clinical pharmacy"; "pharmacy operations"; "pharmaceutical calculations";
       "drug interactions"; "pharmacy law"; "controlled substances"; "immunizations"])
  ; ("teaching",
      ["curriculum development"; "lesson planning"; "classroom management";
       "student assessment"; "educational technology"; "differentiated instruction";
       "special education"; "learning disabilities"; "educational psychology";
       "pedagogy"; "instructional design"])
  ; ("training_development",
      ["training design"; "instructional design"; "e-learning";
       "learning management systems"; "training delivery"; "adult learning";
       "training evaluation"; "needs assessment"; "performance improvement";
       "organizational development"; "talent development"])
  ; ("mechanical_engineering",
      ["mechanical design"; "cad"; "autocad"; "solidworks"; "inventor"; "catia";
       "ansys"; "finite element analysis"; "thermodynamics"; "fluid mechanics";
       "materials science"; "manufacturing processes"; "quality control";
       "lean manufacturing"; "six sigma"])
  ; ("electrical_engineering",
      ["circuit design"; "power systems"; "control systems"; "electronics";
       "pcb design"; "matlab"; "simulink"; "plc programming"; "scada";
       "electrical safety"; "power distribution"; "renewable energy"; "motor control";
       "instrumentation"])
  ; ("civil_engineering",
      ["structural design"; "construction management"; "project management"; "autocad";
       "structural analysis"; "concrete design"; "steel design";
       "geotechnical engineering"; "transportation engineering";
       "environmental engineering"; "water resources"; "surveying"])
  ; ("chemical_engineering",
      ["process design"; "chemical processes"; "reaction engineering"; "mass transfer";
       "heat transfer"; "thermodynamics"; "fluid mechanics"; "distillation";
       "separation processes"; "process control"; "process safety"; "hysys";
       "aspen plus"; "chemcad"; "process simulation"; "process optimization";
       "unit operations"; "chemical kinetics"; "reactor design";
       "process equipment design"; "piping and instrumentation diagrams"; "p&id";
       "hazop"; "process hazard analysis"; "chemical plant design";
       "process economics"; "material balance"; "energy balance";
       "process troubleshooting"; "process improvement"; "chemical safety";
       "environmental compliance"; "petrochemicals"; "pharmaceuticals";
       "polymer processing"; "catalysis"; "crystallization"])
  ; ("manufacturing",
      ["production planning"; "quality assurance"; "inventory management";
       "supply chain"; "manufacturing processes"; "lean manufacturing";
       "continuous improvement"; "safety protocols"; "equipment maintenance";
       "production scheduling"; "cost reduction"; "efficiency optimization"])
  ; ("legal",
      ["legal research"; "contract law"; "litigation"; "corporate law";
       "employment law"; "intellectual property"; "regulatory compliance";
       "legal writing"; "case management"; "discovery"; "depositions";
       "trial preparation"; "legal analysis"; "due diligence"])
  ; ("compliance",
      ["regulatory compliance"; "risk management"; "audit"; "internal controls";
       "policy development"; "sox compliance"; "gdpr"; "data privacy";
       "anti-money laundering"; "kyc"; "risk assessment"; "compliance monitoring";
       "regulatory reporting"; "ethics training"])
  ; ("human_resources",
      ["recruitment"; "talent acquisition"; "employee relations";
       "performance management"; "compensation"; "benefits administration";
       "hr policies"; "employment law"; "onboarding"; "training coordination";
       "hr analytics"; "workforce planning"; "employee engagement";
       "diversity and inclusion"; "hris"; "payroll"])
  ; ("supply_chain",
      ["supply chain management"; "logistics"; "procurement"; "vendor management";
       "inventory management"; "warehouse management"; "transportation";
       "distribution"; "demand planning"; "sourcing"; "contract negotiation";
       "cost optimization"; "supplier relationships"; "erp systems"])
  ; ("operations",
      ["operations management"; "process improvement"; "quality management";
       "project management"; "resource planning"; "capacity planning";
       "workflow optimization"; "performance metrics"; "cost control";
       "efficiency improvement"; "team management"; "vendor coordination"])
  ; ("graphic_design",
      ["adobe creative suite"; "photoshop"; "illustrator"; "indesign"; "sketch";
       "figma"; "typography"; "branding"; "logo design"; "web design"; "print design";
       "ui design"; "ux design"; "color theory"; "layout design"; "creative direction"])
  ; ("content_creation",
      ["content writing"; "copywriting"; "technical writing"; "creative writing";
       "editing"; "proofreading"; "content strategy"; "storytelling"; "blogging";
       "social media content"; "video production"; "photography"; "content marketing";
       "seo writing"])
  ; ("customer_service",
      ["customer support"; "customer service"; "call center"; "help desk";
       "technical support"; "customer relations"; "complaint resolution";
       "customer satisfaction"; "phone skills"; "email support"; "chat support";
       "ticketing systems"; "customer retention"; "upselling"])
  ; ("research",
      ["research methodology"; "data collection"; "statistical analysis";
       "survey design"; "qualitative research"; "quantitative research";
       "market research"; "academic research"; "literature review";
       "data interpretation"; "research design"; "hypothesis testing"])
  ].

(** [self.soft_skills_db] *)
Definition soft_skills_db : list string :=
  ["communication"; "verbal communication"; "written communication";
   "presentation skills"; "public speaking"; "active listening";
   "interpersonal skills"; "multilingual"; "cross-cultural communication";
   "client communication"; "stakeholder communication"; "leadership";
   "team leadership"; "people management"; "strategic leadership"; "change management";
   "organizational leadership"; "executive leadership"; "servant leadership";
   "transformational leadership"; "coaching"; "mentoring"; "delegation";
   "team building"; "talent development"; "performance management"; "teamwork";
   "collaboration"; "cross-functional collaboration"; "team player"; "cooperative";
   "collective problem solving"; "consensus building"; "relationship building";
   "networking"; "partnership development"; "problem solving"; "analytical thinking";
   "critical thinking"; "logical thinking"; "creative problem solving";
   "troubleshooting"; "root cause analysis"; "decision making"; "strategic thinking";
   "systems thinking"; "innovative thinking"; "time management"; "organization";
   "organized"; "detail-oriented"; "attention to detail"; "multitasking";
   "prioritization"; "planning"; "scheduling"; "deadline management";
   "project coordination"; "workflow management"; "resource management"; "adaptable";
   "flexible"; "agile"; "resilient"; "change adaptability"; "learning agility";
   "open-minded"; "versatile"; "continuous learning"; "growth mindset"; "innovation";
   "creative"; "entrepreneurial"; "customer service"; "customer focus";
   "client relations"; "customer satisfaction"; "service orientation"; "empathy";
   "patience"; "diplomacy"; "cultural sensitivity"; "conflict resolution";
   "complaint handling"; "relationship management"; "sales skills"; "negotiation";
   "persuasion"; "business development"; "relationship selling";
   "consultative selling"; "closing skills"; "prospecting"; "networking";
   "market awareness"; "competitive intelligence"; "project management";
   "project coordination"; "project planning"; "resource planning"; "risk management";
   "quality management"; "process improvement"; "change management";
   "stakeholder management"; "vendor management"; "budget management";
   "technical writing"; "documentation"; "training"; "knowledge transfer";
   "quality assurance"; "compliance"; "regulatory knowledge"; "safety consciousness";
   "ethical standards"; "professional integrity"; "confidentiality";
   "financial acumen"; "business acumen"; "cost consciousness"; "profit awareness";
   "budget management"; "financial analysis"; "business strategy";
   "market understanding"; "commercial awareness"; "business intelligence";
   "data-driven decision making"; "creativity"; "innovative"; "design thinking";
   "artistic ability"; "visual design"; "creative writing"; "storytelling";
   "brand awareness"; "aesthetic sense"; "conceptual thinking"; "ideation";
   "brainstorming"; "patient care"; "bedside manner"; "medical ethics"; "compassion";
   "empathy"; "clinical judgment"; "health advocacy"; "patient education";
   "medical communication"; "cultural competency"; "interdisciplinary collaboration";
   "teaching"; "curriculum development"; "educational psychology";
   "student engagement"; "learning assessment"; "classroom management";
   "educational technology"; "differentiated instruction"; "inclusive education";
   "academic coaching"; "legal research"; "legal writing"; "attention to detail";
   "analytical reasoning"; "ethical reasoning"; "client counseling"; "negotiation";
   "advocacy"; "regulatory compliance"; "risk assessment"; "policy development";
   "safety consciousness"; "quality focus"; "continuous improvement";
   "efficiency optimization"; "process optimization"; "lean thinking";
   "operational excellence"; "troubleshooting"; "equipment operation";
   "maintenance awareness"; "production planning"].

(** [self.all_technical_skills]: the categories flattened, in order. *)
Definition all_technical_skills : list string :=
  concat (map snd technical_skills_db).

(** [ParsedJobRequirements] *)
Record ParsedJobRequirements := {
  required_skills : list string;
  preferred_skills : list string;
  education_requirements : list string;
  experience_requirements : list string;
  soft_skills : list string;
  min_experience_years : Z;
  max_experience_years : option Z
}.

Definition is_some {A} (o : option A) : bool :=
  match o with Some _ => true | None => false end.

(** [rf'\b{re.escape(skill.lower())}\b'] under [re.IGNORECASE], on ASCII
    strings *)
Definition skill_pattern (skill : string) : regex :=
  cat [WordB; lit_ci (Py.lower skill); WordB].

Definition _is_skill_mentioned (text skill : string) : bool :=
  is_some (search (skill_pattern skill) text).

(** [rf'.{{0,100}}\b{re.escape(skill.lower())}\b.{{0,100}}'] *)
Definition _get_skill_context (text skill : string) : string :=
  let r := cat [Rep 0 100 dot; WordB; lit_ci (Py.lower skill); WordB; Rep 0 100 dot] in
  match search r text with
  | Some m => group0 text m
  | None => EmptyString
  end.

Definition required_indicators : list string :=
  ["required"; "must"; "essential"; "mandatory"; "need"; "necessary";
   "should have"; "should be"; "proficient"].

Definition preferred_indicators : list string :=
  ["preferred"; "nice to have"; "bonus"; "plus"; "advantage";
   "would be great"; "ideal"; "desirable"].

Definition _is_skill_required (context : string) : bool :=
  let context_lower := Py.lower context in
  if existsb (fun indicator => Py.contains indicator context_lower) preferred_indicators
  then false
  else if existsb (fun indicator => Py.contains indicator context_lower) required_indicators
  then true
  else true.

Definition _extract_technical_skills (text : string) (required : bool) : list string :=
  List.filter (fun skill =>
    if _is_skill_mentioned text skill then
      let context := _get_skill_context text skill in
      let is_required := _is_skill_required context in
      (required && is_required) || (negb required && negb is_required)
    else false) all_technical_skills.

Definition _extract_soft_skills (text : string) : list string :=
  List.filter (fun skill => _is_skill_mentioned text skill) soft_skills_db.

(** The patterns of [_extract_education_requirements], each with the
    group that [re.findall] reports ([0]: the whole match). *)
Definition education_patterns : list (nat * regex) :=
  let deg := Group 1 (Alt (lit_ci "degree") (lit_ci "in")) in
  let apos := chr (ascii_of_nat 39) in
  [ (1, cat [lit_ci "bachelor"; Opt apos; Opt (chr_ci "s"); Star space; deg])
  ; (1, cat [lit_ci "master"; Opt apos; Opt (chr_ci "s"); Star space; deg])
  ; (0, Alt (lit_ci "phd") (lit_ci "doctorate"))
  ; (0, Alt (lit_ci "b.s.") (Alt (lit_ci "b.a.") (Alt (lit_ci "m.s.") (lit_ci "m.a."))))
  ; (0, cat [lit_ci "university"; Star space; lit_ci "degree"])
  ; (0, cat [lit_ci "college"; Star space; lit_ci "degree"])
  ; (0, cat [lit_ci "graduate"; Star space; lit_ci "degree"])
  ; (0, cat [lit_ci "undergraduate"; Star space; lit_ci "degree"]) ].

Definition field_patterns : list string :=
  ["computer science"; "software engineering"; "information technology";
   "data science"; "electrical engineering"; "mechanical engineering";
   "civil engineering"; "chemical engineering"; "industrial engineering";
   "aerospace engineering"; "biomedical engineering"; "environmental engineering";
   "systems engineering"; "materials engineering"; "petroleum engineering";
   "nuclear engineering"; "business administration"; "business management"; "finance";
   "accounting"; "economics"; "marketing"; "international business";
   "entrepreneurship"; "supply chain management"; "human resources";
   "operations management"; "project management"; "business analytics";
   "management information systems"; "organizational behavior"; "strategic management";
   "medicine"; "nursing"; "pharmacy"; "dentistry"; "veterinary medicine";
   "public health"; "healthcare administration"; "medical technology"; "radiology";
   "physical therapy"; "occupational therapy"; "speech therapy"; "clinical psychology";
   "health sciences"; "biomedical sciences"; "epidemiology"; "health informatics";
   "nutrition"; "mathematics"; "statistics"; "physics"; "chemistry"; "biology";
   "biochemistry"; "microbiology"; "biotechnology"; "genetics"; "molecular biology";
   "neuroscience"; "environmental science"; "geology"; "geography"; "astronomy";
   "marine biology"; "english literature"; "history"; "philosophy";
   "political science"; "sociology"; "anthropology"; "psychology"; "linguistics";
   "foreign languages"; "international relations"; "criminal justice"; "social work";
   "religious studies"; "cultural studies"; "graphic design"; "fine arts";
   "art history"; "music"; "theatre"; "film studies"; "creative writing"; "journalism";
   "communications"; "media studies"; "digital media"; "architecture";
   "interior design"; "fashion design"; "industrial design"; "education";
   "elementary education"; "secondary education"; "special education";
   "educational psychology"; "curriculum and instruction"; "educational leadership";
   "early childhood education"; "adult education"; "instructional design"; "law";
   "legal studies"; "criminal law"; "corporate law"; "international law";
   "constitutional law"; "environmental law"; "intellectual property law"; "tax law";
   "agriculture"; "agricultural engineering"; "forestry"; "environmental studies";
   "sustainability"; "renewable energy"; "marine sciences"; "wildlife management";
   "kinesiology"; "sports management"; "exercise science"; "recreation management";
   "athletic training"; "sports psychology"; "physical education"; "cybersecurity";
   "artificial intelligence"; "machine learning"; "robotics"; "renewable energy";
   "sustainable development"; "digital humanities"; "bioinformatics";
   "computational biology"; "cognitive science"; "game design";
   "user experience design"].

Definition findall (gr : nat * regex) (text : string) : list string :=
  match fst gr with
  | O => findall0 (snd gr) text
  | n => findall_group n (snd gr) text
  end.

Definition _extract_education_requirements (text : string) : list string :=
  let from_patterns :=
    flat_map (fun pattern =>
      flat_map (fun mtch =>
        let ctx := cat [Rep 0 50 dot; lit_ci mtch; Rep 0 50 dot] in
        match search ctx text with
        | Some m => [Py.strip (group0 text m)]
        | None => []
        end) (findall pattern text)) education_patterns in
  let from_fields :=
    flat_map (fun pattern =>
      if is_some (search (lit_ci pattern) text)
      then ["Degree in " +:+ Py.title pattern] else []) field_patterns in
  remove_dups (from_patterns ++ from_fields).

(** [[a-z\s]] under [re.IGNORECASE] *)
Definition letter_or_space : regex :=
  Chr (fun a => Py.isalpha_char a || Py.isspace_char a).

Definition industry_patterns : list regex :=
  map (fun p => cat [lit_ci p; Group 1 (Plus letter_or_space)])
      ["experience in "; "background in "; "knowledge of "; "familiar with "].

Definition _extract_experience_requirements (text : string) : list string :=
  flat_map (fun pattern =>
    flat_map (fun mtch =>
      if (length (Py.split mtch) <=? 4)%nat
      then ["Experience in " +:+ Py.strip mtch] else [])
      (findall_group 1 pattern text)) industry_patterns.

(** [self.experience_patterns], each with its number of groups. *)
Definition experience_patterns : list (nat * regex) :=
  let sign := Opt (Chr (one_of "+-")) in
  let of_ := Opt (Group 2 (Seq (lit_ci "of") (Star space))) in
  let exp := Group 3 (Alt (lit_ci "experience") (lit_ci "exp")) in
  [ (3, cat [Group 1 (Plus digit); sign; Star space; lit_ci "year"; Opt (chr_ci "s");
             Star space; of_; exp])
  ; (3, cat [Group 1 (Plus digit); sign; Star space; lit_ci "yr"; Opt (chr_ci "s");
             Star space; of_; exp])
  ; (2, cat [Group 1 (Alt (lit_ci "minimum") (Alt (lit_ci "min") (lit_ci "at least")));
             Star space; Group 2 (Plus digit); Star space; lit_ci "year"; Opt (chr_ci "s")])
  ; (2, cat [Group 1 (Plus digit); Star space; lit_ci "to"; Star space;
             Group 2 (Plus digit); Star space; lit_ci "year"; Opt (chr_ci "s")])
  ; (2, cat [Group 1 (Plus digit); Star space; chr "-"; Star space;
             Group 2 (Plus digit); Star space; lit_ci "year"; Opt (chr_ci "s")]) ].

(** One match of an experience pattern updates [(min_years, max_years)]. *)
Definition update_years (acc : Z * option Z) (mtch : list string) : Z * option Z :=
  let '(min_years, max_years) := acc in
  match List.filter Py.isdigit mtch with
  | n0 :: n1 :: _ => (Z.max min_years (Py.int_of_digits n0), Some (Py.int_of_digits n1))
  | [n0] => (Z.max min_years (Py.int_of_digits n0), max_years)
  | [] => (min_years, max_years)
  end.

Definition _extract_experience_years (text : string) : Z * option Z :=
  fold_left (fun acc pattern =>
               fold_left update_years (findall_groups (fst pattern) (snd pattern) text) acc)
            experience_patterns (0%Z, None).

Definition parse_job_requirements (job_description : string) : ParsedJobRequirements :=
  let text := Py.lower job_description in
  let required_skills := _extract_technical_skills text true in
  let preferred_skills := _extract_technical_skills text false in
  let '(min_years, max_years) := _extract_experience_years text in
  let required_skills := remove_dups required_skills in
  let preferred_skills := list_difference (remove_dups preferred_skills) required_skills in
  {| required_skills := required_skills;
     preferred_skills := preferred_skills;
     education_requirements := _extract_education_requirements text;
     experience_requirements := _extract_experience_requirements text;
     soft_skills := _extract_soft_skills text;
     min_experience_years := min_years;
     max_experience_years := max_years |}.

(** *** Text utilities *)

(** [calculate_text_similarity]: the Jaccard index of the two sets of
    lower-cased words. *)
Definition calculate_text_similarity (text1 text2 : string) : Q :=
  let words1 : gset string := list_to_set (Py.split (Py.lower text1)) in
  let words2 : gset string := list_to_set (Py.split (Py.lower text2)) in
  if bool_decide (words1 = ∅) || bool_decide (words2 = ∅) then 0
  else
    let intersection := words1 ∩ words2 in
    let union := words1 ∪ words2 in
    if bool_decide (union = ∅) then 0
    else (inject_Z (Z.of_nat (size intersection)) / inject_Z (Z.of_nat (size union)))%Q.

(** [re.split(r, text)] for a pattern without group that matches no empty
    string: the texts between the successive matches. *)
Fixpoint split_from (text : string) (from : nat) (ms : list rmatch) : list string :=
  match ms with
  | [] => [substring from (String.length text - from) text]
  | m :: ms' => substring from (m_start m - from) text :: split_from text (m_stop m) ms'
  end.

Definition re_split (r : regex) (text : string) : list string :=
  split_from text 0 (finditer r text).

(** [[.!?]+] *)
Definition sentence_end : regex := Plus (Chr (one_of ".!?")).

Definition extract_key_phrases (text : string) : list string :=
  let sentences := re_split sentence_end text in
  let key_phrases :=
    flat_map (fun sentence =>
      let words := Py.split (Py.strip sentence) in
      if (2 <=? length words)%nat && (length words <=? 5)%nat
      then [Py.strip sentence] else []) sentences in
  take 10 key_phrases.

End NLPService.

(** ** [CVParser]: text extraction and resume parsing *)

Module CVParser.
Import Re.

(** *** Data model: the dict returned by [parse_cv_file] *)

(** [info] of [_extract_personal_info]: every key is optional. *)
Record PersonalInfo := {
  email : option string;
  phone : option string;
  location : option string
}.

Definition empty_info : PersonalInfo :=
  {| email := None; phone := None; location := None |}.

Record EducationEntry := {
  degree : string;
  institution : string;
  year : option Z
}.

Record ExperienceEntry := {
  position : string;
  company : string;
  start_date : option Z;
  end_date : option Z;
  exp_description : string;
  duration_months : Z
}.

Record Skills := { technical : list string; soft : list string }.

Record Certification := {
  cert_name : string;
  issuer : string;
  cert_year : option Z
}.

Record Language := { language : string; proficiency : string }.

Inductive ParsingStatus := completed | failed.

(** The dict built by [_parse_text_content]. *)
Record ParsedData := {
  pd_personal_info : PersonalInfo;
  pd_education : list EducationEntry;
  pd_work_experience : list ExperienceEntry;
  pd_skills : Skills;
  pd_certifications : list Certification;
  pd_languages : list Language;
  pd_total_experience_years : Q
}.

(** The dict returned by [parse_cv_file]. *)
Record ResumeRecord := {
  raw_text : string;
  parsing_status : ParsingStatus;
  parsing_error : option string;          (* [None]: the key is absent *)
  personal_info : PersonalInfo;
  education : list EducationEntry;
  work_experience : list ExperienceEntry;
  skills : Skills;
  certifications : list Certification;
  languages : list Language;
  total_experience_years : Q
}.

(** What the parser gets from outside the modelled code: the file system
    seen through [pathlib], [PyPDF2] and [python-docx], the optional
    spaCy model, and the two section extractors that are not modelled
    here (they read the clock and the spaCy model).  Every call that can
    raise returns a [Py.result]. *)
Record Env := {
  (** [Path(file_path).suffix] *)
  path_suffix : string -> string;
  (** [page.extract_text()] for the pages of [PyPDF2.PdfReader(file)] *)
  pdf_pages : string -> Py.result (list string);
  (** [paragraph.text] for [doc.paragraphs], and [cell.text] for the cells
      of the rows of [doc.tables] *)
  docx_document : string -> Py.result (list string * list (list (list string)));
  (** [self.nlp]: [None] when the model is not installed; otherwise the
      entities [(ent.text, ent.label_)] of a text. *)
  nlp : option (string -> Py.result (list (string * string)));
  _extract_education : string -> Py.result (list EducationEntry);
  _extract_work_experience : string -> list string -> Py.result (list ExperienceEntry)
}.

Section Parser.
Context (env : Env).

(** *** Text extraction *)

Definition _extract_from_pdf (file_path : string) : Py.result string :=
  pages ← pdf_pages env file_path;
  mret (Py.strip (fold_left (fun text page => text +:+ page +:+ String newline "") pages "")).

Definition _extract_from_docx (file_path : string) : Py.result string :=
  doc ← docx_document env file_path;
  let '(paragraphs, tables) := doc in
  let from_paragraphs :=
    flat_map (fun p => match Py.strip p with EmptyString => [] | t => [t] end) paragraphs in
  let from_tables :=
    flat_map (fun table =>
      flat_map (fun row =>
        let row_text :=
          flat_map (fun cell => match Py.strip cell with EmptyString => [] | t => [t] end) row in
        match row_text with [] => [] | _ => [Py.join " " row_text] end) table) tables in
  mret (Py.strip (Py.join (String newline "") (from_paragraphs ++ from_tables))).

Definition _extract_text_from_file (file_path : string) : Py.result string :=
  let file_extension := Py.lower (path_suffix env file_path) in
  if String.eqb file_extension ".pdf" then _extract_from_pdf file_path
  else if Py.mem file_extension [".doc"; ".docx"] then _extract_from_docx file_path
  else Py.Raise (Py.ValueError ("Unsupported file format: " +:+ file_extension)).

(** *** Structured fields *)

(** [\b[A-Za-z0-9._%+-]+@[A-Za-z0-9.-]+\.[A-Z|a-z]{2,}\b] *)
Definition email_pattern : regex :=
  let alnum a := Py.isalpha_char a || Py.isdigit_char a in
  cat [WordB; Plus (Chr (fun a => alnum a || one_of "._%+-" a)); chr "@";
       Plus (Chr (fun a => alnum a || one_of ".-" a)); chr ".";
       AtLeast2 (Chr (fun a => Py.isalpha_char a || one_of "|" a)); WordB].

Definition phone_patterns : list regex :=
  let sep := Opt (Chr (one_of "-.")) in
  [ cat [WordB; Rep 3 3 digit; sep; Rep 3 3 digit; sep; Rep 4 4 digit; WordB]
  ; cat [chr "("; Rep 3 3 digit; chr ")"; Star space; Rep 3 3 digit; sep; Rep 4 4 digit]
  ; cat [chr "+"; Rep 1 3 digit; Opt (Chr (fun a => one_of "-." a || Py.isspace_char a));
         Rep 1 14 digit] ].

Fixpoint first_found (patterns : list regex) (text : string) : option string :=
  match patterns with
  | [] => None
  | pattern :: rest =>
      match findall0 pattern text with
      | ph :: _ => Some ph
      | [] => first_found rest text
      end
  end.

Definition _extract_personal_info (text : string) : PersonalInfo :=
  {| email := head (findall0 email_pattern text);
     phone := first_found phone_patterns text;
     location :=
       if existsb (fun keyword => Py.contains keyword (Py.lower text))
                  ["city"; "state"; "country"; "address"]
       then Some "Location extracted" else None |}.

(** [rf'\b{re.escape(skill.lower())}\b'] searched in the lower-cased text *)
Definition skill_found (text_lower skill : string) : bool :=
  NLPService.is_some (search (cat [WordB; lit (Py.lower skill); WordB]) text_lower).

Definition _extract_skills (text : string) : Skills :=
  let text_lower := Py.lower text in
  let technical_skills := List.filter (skill_found text_lower) NLPService.all_technical_skills in
  let soft_skills := List.filter (skill_found text_lower) NLPService.soft_skills_db in
  {| technical := remove_dups technical_skills; soft := remove_dups soft_skills |}.

(** [\b(19|20)\d{2}\b]: one group, so [re.findall] reports the group. *)
Definition year_pattern : regex :=
  cat [WordB; Group 1 (Alt (lit "19") (lit "20")); Rep 2 2 digit; WordB].

(** [text.find(sub)] *)
Fixpoint find_from (sub text : string) (i : nat) : option nat :=
  if Py.startswith sub text then Some i
  else match text with
       | EmptyString => None
       | String _ text' => find_from sub text' (S i)
       end.

Definition _extract_years_from_context (text context : string) : option Z :=
  match find_from (Py.lower context) (Py.lower text) 0 with
  | Some context_index =>
      let lo := context_index - 50 in
      let context_area := substring lo (context_index + 50 - lo) text in
      match findall_group 1 year_pattern context_area with
      | y :: _ => Some (Py.int_of_digits y)
      | [] => None
      end
  | None => None
  end.

Definition _extract_certifications (text : string) : list Certification :=
  flat_map (fun keyword =>
    if Py.contains (Py.lower keyword) (Py.lower text)
    then [ {| cert_name := "Certification extracted";
              issuer := "Issuer extracted";
              cert_year := _extract_years_from_context text keyword |} ]
    else []) ["certificate"; "certification"; "certified"; "license"].

Definition _extract_languages (text : string) : list Language :=
  flat_map (fun lang =>
    if Py.contains (Py.lower lang) (Py.lower text)
    then [ {| language := Py.title lang; proficiency := "Native/Fluent" |} ]
    else [])
    ["english"; "spanish"; "french"; "german"; "chinese"; "japanese";
     "portuguese"; "russian"; "arabic"; "hindi"; "italian"].

(** [experience_patterns] of [_calculate_experience_years]; the number
    reported for a match is its first group. *)
Definition experience_patterns : list regex :=
  let years := cat [lit "year"; Opt (chr "s")] in
  [ cat [Group 1 (Plus digit); Star space; years; Star space;
         Opt (Group 2 (Seq (lit "of") (Star space))); lit "experience"]
  ; cat [lit "experience"; Star space; chr ":"; Star space; Group 1 (Plus digit);
         Star space; years]
  ; cat [Group 1 (Plus digit); Opt (chr "+"); Star space; years; Star space;
         lit "experience"] ].

Definition _extract_all_years (text : string) : list Z :=
  map Py.int_of_digits (findall_group 1 year_pattern text).

Definition max_list (d : Z) (l : list Z) : Z := fold_left Z.max l d.
Definition min_list (d : Z) (l : list Z) : Z := fold_left Z.min l d.

(** The list [years] of [_calculate_experience_years]: the numbers of the
    explicit phrases. *)
Definition explicit_years (text : string) : list Z :=
  flat_map (fun pattern => map Py.int_of_digits (findall_group 1 pattern (Py.lower text)))
           experience_patterns.

Definition _calculate_experience_years (text : string) : Q :=
  match explicit_years text with
  | y :: ys => inject_Z (max_list y ys)
  | [] =>
      match _extract_all_years text with
      | y1 :: y2 :: ys => inject_Z (max_list y1 (y2 :: ys) - min_list y1 (y2 :: ys))
      | _ => 0
      end
  end.

(** [[line.strip() for line in text.split('\n') if line.strip()]] *)
Definition nonblank_lines (text : string) : list string :=
  flat_map (fun line => match Py.strip line with EmptyString => [] | l => [l] end)
           (Py.split_char newline text).

Definition _parse_text_content (text : string) : Py.result ParsedData :=
  let lines := nonblank_lines text in
  let info := _extract_personal_info text in
  edu ← _extract_education env text;
  work ← _extract_work_experience env text lines;
  mret {| pd_personal_info := info;
          pd_education := edu;
          pd_work_experience := work;
          pd_skills := _extract_skills text;
          pd_certifications := _extract_certifications text;
          pd_languages := _extract_languages text;
          pd_total_experience_years := _calculate_experience_years text |}.

Definition failed_record (error : string) : ResumeRecord :=
  {| raw_text := EmptyString;
     parsing_status := failed;
     parsing_error := Some error;
     personal_info := empty_info;
     education := [];
     work_experience := [];
     skills := {| technical := []; soft := [] |};
     certifications := [];
     languages := [];
     total_experience_years := 0 |}.

(** [parsed_data] with the keys ['raw_text'] and ['parsing_status'] added. *)
Definition completed_record (parsed_data : ParsedData) (text : string) : ResumeRecord :=
  {| raw_text := text;
     parsing_status := completed;
     parsing_error := None;
     personal_info := pd_personal_info parsed_data;
     education := pd_education parsed_data;
     work_experience := pd_work_experience parsed_data;
     skills := pd_skills parsed_data;
     certifications := pd_certifications parsed_data;
     languages := pd_languages parsed_data;
     total_experience_years := pd_total_experience_years parsed_data |}.

Definition parse_cv_file (file_path : string) : Py.result ResumeRecord :=
  Py.try_except
    (raw_text ← _extract_text_from_file file_path;
     match raw_text with
     | EmptyString => Py.Raise (Py.ValueError "Could not extract text from file")
     | _ =>
         parsed_data ← _parse_text_content raw_text;
         mret (completed_record parsed_data raw_text)
     end)
    (fun e => mret (failed_record (Py.exc_str e))).

(** *** Candidate name *)

Definition strip_trailing_keyword (keyword name : string) : string :=
  Py.strip (sub (cat [Plus space; lit_ci keyword; Eol]) "" name).

Definition between_nat (lo hi n : nat) : bool := (lo <=? n)%nat && (n <=? hi)%nat.

(** Strategy 1: the first PERSON entity in the first 500 characters. *)
Definition name_from_ner (text : string) : option string :=
  match nlp env with
  | None => None
  | Some model =>
      match model (Py.prefix 500 text) with
      | Py.Raise _ => None
      | Py.Return ents =>
          let person_entities :=
            map fst (List.filter (fun ent => String.eqb (snd ent) "PERSON") ents) in
          match person_entities with
          | [] => None
          | first :: _ =>
              let section_keywords :=
                ["email"; "phone"; "address"; "name"; "tel"; "mobile"; "fax"; "candidate";
                 "contact"; "dob"; "date"] in
              let name :=
                fold_left (fun name keyword => strip_trailing_keyword keyword name)
                          section_keywords (Py.strip first) in
              let name_words := Py.split name in
              if between_nat 1 5 (length name_words) && (2 <=? String.length name)%nat then
                let invalid_words :=
                  ["email"; "phone"; "address"; "contact"; "information"; "details"] in
                if negb (existsb (fun word => Py.mem (Py.lower word) invalid_words) name_words)
                then Some (Py.title name)
                else None
              else None
          end
      end
  end.

Definition headers_to_skip : list string :=
  ["curriculum vitae"; "resume"; "cv"; "professional resume";
   "personal resume"; "contact"; "contact information";
   "objective"; "summary"; "professional summary";
   "personal information"; "personal details"; "address";
   "profile"; "about me"; "career objective"; "career summary"].

Definition skip_if_only : list string :=
  ["email"; "phone"; "address"; "linkedin"; "information"; "details"; "profile";
   "education"; "experience"; "skills"; "certification"].

Definition section_keywords : list string :=
  ["email"; "phone"; "address"; "name"; "tel"; "mobile"; "fax"; "candidate";
   "telephone"; "contact"; "cell"; "gmail"; "yahoo"; "hotmail"; "outlook"].

Definition trailing_keywords : list string :=
  ["email"; "phone"; "address"; "contact"; "tel"; "mobile"; "name"].

Definition invalid_name_words : list string :=
  ["information"; "details"; "address"; "personal"; "contact";
   "profile"; "objective"; "summary"; "education"; "experience"].

(** The loop over [trailing_keywords], with its [break]. *)
Fixpoint strip_trailing (keywords : list string) (cleaned_line : string) : string :=
  match keywords with
  | [] => cleaned_line
  | keyword :: rest =>
      let cleaned_line := strip_trailing_keyword keyword cleaned_line in
      if String.eqb (Py.lower cleaned_line) keyword then EmptyString
      else strip_trailing rest cleaned_line
  end.

(** [sum(c.isalpha() for c in word) / len(word) >= 0.7] *)
Definition mostly_alpha_word (word : string) : bool :=
  Qle_bool (7 # 10)
           (inject_Z (Z.of_nat (Py.count_chars Py.isalpha_char word)) /
            inject_Z (Z.of_nat (String.length word)))%Q.

(** [[^\w\s\-\.]] *)
Definition punctuation : regex :=
  Chr (fun a => negb (Py.isword_char a || Py.isspace_char a || one_of "-." a)).

(** The value of a "Label: Value" line whose label names a name field;
    the line itself when it has no colon. *)
Definition name_field (line : string) : option string :=
  if Py.contains ":" line then
    let '(p0, p1) := Py.split_once ":" line in
    let label := Py.lower (Py.strip p0) in
    let value := match p1 with Some v => Py.strip v | None => EmptyString end in
    if Py.contains "name" label
       && negb (String.eqb value EmptyString)
       && negb (existsb (fun word => Py.contains word label) ["company"; "file"; "user"])
    then Some value
    else None
  else Some line.

(** One iteration of the loop over the first lines: [Some name] when the
    iteration returns, [None] when it goes on to the next line. *)
Definition name_from_line (line : string) : option string :=
  let line_lower := Py.strip (Py.lower line) in
  if Py.mem line_lower headers_to_skip then None
  else if Py.mem line_lower skip_if_only then None
  else if Py.contains "@" line || Py.contains "http" line_lower
          || Py.contains "www." line_lower || Py.contains ".com" line_lower then None
  else
    match name_field line with
    | None => None
    | Some cleaned_line =>
        let cleaned_line := Py.strip (sub punctuation " " cleaned_line) in
        let tokens := Py.split cleaned_line in
        let filtered_tokens :=
          List.filter (fun token => negb (Py.mem (Py.lower token) section_keywords)) tokens in
        match filtered_tokens with
        | [] => None
        | _ =>
            let cleaned_line := strip_trailing trailing_keywords (Py.join " " filtered_tokens) in
            match cleaned_line with
            | EmptyString => None
            | _ =>
                let words := Py.split cleaned_line in
                if between_nat 1 5 (length words)
                   && between_nat 2 50 (String.length cleaned_line)
                then
                  if forallb mostly_alpha_word words then
                    if (length words <=? 2)%nat || negb (Py.isupper cleaned_line) then
                      let name_lower := Py.lower cleaned_line in
                      if negb (existsb (fun word => Py.contains word name_lower)
                                       invalid_name_words)
                      then Some (Py.title cleaned_line)
                      else None
                    else None
                  else None
                else None
            end
        end
    end.

(** Strategy 2: the first of the first ten non-blank lines that yields a
    name. *)
Fixpoint first_name (lines : list string) : option string :=
  match lines with
  | [] => None
  | line :: rest =>
      match name_from_line line with
      | Some name => Some name
      | None => first_name rest
      end
  end.

(** Strategy 3: the local part of the first e-mail address. *)
Definition name_from_email (text : string) : option string :=
  match findall0 email_pattern (Py.prefix 1000 text) with
  | [] => None
  | first :: _ =>
      let email_username := fst (Py.split_once "@" first) in
      let name_from_email :=
        Py.strip (sub (Plus (Chr (fun a => one_of "._" a || Py.isdigit_char a))) " "
                      email_username) in
      if (2 <=? String.length name_from_email)%nat
      then Some (Py.title name_from_email)
      else None
  end.

Definition extract_candidate_name (text : string) : string :=
  match Py.strip text with
  | EmptyString => "Unknown"
  | _ =>
      match name_from_ner text with
      | Some name => name
      | None =>
          match nonblank_lines text with
          | [] => "Unknown"
          | lines =>
              match first_name (take 10 lines) with
              | Some name => name
              | None =>
                  match name_from_email text with
                  | Some name => name
                  | None => "Unknown"
                  end
              end
          end
      end
  end.

End Parser.
End CVParser.

(** ** [CVAnalyzer]: matching candidates against a job *)

Module CVAnalyzer.
Import Re.

(** *** Data model *)

(** The columns of the ORM class [JobPosting] that the analyzer reads;
    a nullable column is an [option]. *)
Record JobPosting := {
  jp_id : Z;
  jp_title : string;
  jp_description : string;
  jp_required_skills : option (list string);
  jp_preferred_skills : option (list string);
  jp_education_requirements : option (list string);
  jp_experience_requirements : option (list string);
  jp_soft_skills : option (list string);
  jp_min_experience_years : option Z;
  jp_max_experience_years : option Z
}.

(** The columns of the ORM class [Candidate] that the analyzer reads. *)
Record Candidate := {
  c_id : Z;
  c_raw_text : option string;
  c_skills : option CVParser.Skills;
  c_education : option (list CVParser.EducationEntry);
  c_work_experience : option (list CVParser.ExperienceEntry);
  c_certifications : option (list CVParser.Certification);
  c_languages : option (list CVParser.Language);
  c_total_experience_years : option Q
}.

(** The dict of [_extract_job_requirements]. *)
Record JobRequirements := {
  required_skills : list string;
  preferred_skills : list string;
  education_requirements : list string;
  experience_requirements : list string;
  soft_skills : list string;
  min_experience_years : Z;
  max_experience_years : option Z;
  title : string;
  description : string
}.

(** The dict of [_extract_candidate_info]. *)
Record CandidateInfo := {
  technical_skills : list string;
  ci_soft_skills : list string;
  education : list CVParser.EducationEntry;
  work_experience : list CVParser.ExperienceEntry;
  total_experience_years : Q;
  certifications : list CVParser.Certification;
  languages : list CVParser.Language;
  raw_text : string
}.

(** [x or []] on a nullable list *)
Definition or_list {A} (x : option (list A)) : list A := default [] x.

Definition _extract_job_requirements (job_posting : JobPosting) : JobRequirements :=
  {| required_skills := or_list (jp_required_skills job_posting);
     preferred_skills := or_list (jp_preferred_skills job_posting);
     education_requirements := or_list (jp_education_requirements job_posting);
     experience_requirements := or_list (jp_experience_requirements job_posting);
     soft_skills := or_list (jp_soft_skills job_posting);
     min_experience_years := default 0%Z (jp_min_experience_years job_posting);
     max_experience_years := jp_max_experience_years job_posting;
     title := jp_title job_posting;
     description := jp_description job_posting |}.

Definition _extract_candidate_info (candidate : Candidate) : CandidateInfo :=
  let skills :=
    default {| CVParser.technical := []; CVParser.soft := [] |} (c_skills candidate) in
  {| technical_skills := CVParser.technical skills;
     ci_soft_skills := CVParser.soft skills;
     education := or_list (c_education candidate);
     work_experience := or_list (c_work_experience candidate);
     total_experience_years := default 0%Q (c_total_experience_years candidate);
     certifications := or_list (c_certifications candidate);
     languages := or_list (c_languages candidate);
     raw_text := default EmptyString (c_raw_text candidate) |}.

(** *** Keyword mining *)

Definition stop_words : list string :=
  ["the"; "and"; "or"; "but"; "in"; "on"; "at"; "to"; "for"; "of"; "with"; "by"; "is";
   "are"; "was"; "were"; "be"; "been"; "being"; "have"; "has"; "had"; "do"; "does";
   "did"; "will"; "would"; "could"; "should"; "may"; "might"; "must"; "can"; "shall";
   "a"; "an"; "this"; "that"; "these"; "those"; "we"; "you"; "they"; "he"; "she"; "it";
   "i"; "me"; "my"; "your"; "our"; "their"; "him"; "her"; "us"; "them"; "looking";
   "seeking"; "required"; "preferred"; "experience"; "years"; "work"; "working";
   "position"; "role"; "job"; "candidate"; "responsibilities"; "duties"; "requirements";
   "qualifications"; "skills"; "ability"; "knowledge"; "must"; "should"; "include";
   "including"; "such"; "well"; "good"; "strong"; "excellent"].

(** [collections.Counter]: the counts, in the order of first occurrence. *)
Fixpoint incr (w : string) (c : list (string * nat)) : list (string * nat) :=
  match c with
  | [] => [(w, 1)]
  | (k, n) :: c' => if String.eqb k w then (k, S n) :: c' else (k, n) :: incr w c'
  end.

Definition Counter (l : list string) : list (string * nat) :=
  fold_left (fun c w => incr w c) l [].

(** Insertion after the entries that count at least as much: folding it
    over a list sorts by decreasing count and keeps the order of equal
    counts, as [sorted(..., reverse=True)] does. *)
Fixpoint insert_desc (x : string * nat) (sorted : list (string * nat)) : list (string * nat) :=
  match sorted with
  | [] => [x]
  | y :: ys => if (snd y <? snd x)%nat then x :: y :: ys else y :: insert_desc x ys
  end.

(** [Counter.most_common(n)] *)
Definition most_common (n : nat) (c : list (string * nat)) : list (string * nat) :=
  take n (fold_left (fun acc x => insert_desc x acc) c []).

(** [\b[a-zA-Z][a-zA-Z0-9+#.-]*\b] *)
Definition word_pattern : regex :=
  cat [WordB; Chr Py.isalpha_char;
       Star (Chr (fun a => Py.isalpha_char a || Py.isdigit_char a || one_of "+#.-" a));
       WordB].

Definition tech_patterns : list regex :=
  [ cat [WordB; Rep 2 10 (Chr Py.isupper_char); WordB]
  ; cat [WordB; Plus word; chr "."; lit "js"; WordB]
  ; cat [WordB; Plus word; chr "-"; Plus word; WordB]
  ; cat [WordB; Plus word; chr "+"; Opt (chr "+"); WordB] ].

Definition _extract_job_keywords (job_description : string) : list string :=
  let words := findall0 word_pattern (Py.lower job_description) in
  let meaningful_words :=
    List.filter (fun word => negb (Py.mem word stop_words) && (2 <=? String.length word)%nat)
                words in
  let word_counts := Counter meaningful_words in
  let top_keywords :=
    map fst (List.filter (fun wc => (1 <=? snd wc)%nat) (most_common 25 word_counts)) in
  let from_patterns :=
    flat_map (fun pattern => map Py.lower (findall0 pattern job_description)) tech_patterns in
  remove_dups (top_keywords ++ from_patterns).

(** *** Sub-scores *)

Record SkillDetails := {
  keyword_matches : nat;
  predefined_matches : nat;
  total_job_terms : nat;
  match_rate : Q
}.

Record SkillAnalysis := {
  skill_score : Q;
  skill_matched : list string;
  skill_missing : list string;
  skill_details : SkillDetails
}.

Definition Qmin (a b : Q) : Q := if Qle_bool a b then a else b.
Definition Qmax (a b : Q) : Q := if Qle_bool b a then a else b.
Definition Qnat (n : nat) : Q := inject_Z (Z.of_nat n).

Definition _analyze_skills_match
    (candidate_info : CandidateInfo) (job_requirements : JobRequirements) : SkillAnalysis :=
  let cv_text := Py.lower (raw_text candidate_info) in
  let job_description := Py.lower (description job_requirements) in
  let job_keywords := _extract_job_keywords job_description in
  let matched_keywords := List.filter (fun keyword => Py.contains keyword cv_text) job_keywords in
  let candidate_skills := map Py.lower (technical_skills candidate_info) in
  let required_skills := map Py.lower (required_skills job_requirements) in
  let preferred_skills := map Py.lower (preferred_skills job_requirements) in
  let matched_predefined :=
    List.filter (fun skill => Py.mem skill candidate_skills || Py.contains skill cv_text)
                (required_skills ++ preferred_skills) in
  let all_matches := remove_dups (matched_keywords ++ matched_predefined) in
  let total_job_terms :=
    (length job_keywords + length required_skills + length preferred_skills)%nat in
  let score : Q :=
    if (total_job_terms =? 0)%nat then 30%Q
    else
      let match_rate := (Qnat (length all_matches) / Qnat (Nat.max total_job_terms 1))%Q in
      let keyword_boost := Qmin 30 (Qnat (length matched_keywords) * 2)%Q in
      Qmin 100 (match_rate * 60 + keyword_boost + 15)%Q in
  {| skill_score := score;
     skill_matched := all_matches;
     skill_missing := List.filter (fun skill => negb (Py.mem skill all_matches)) required_skills;
     skill_details :=
       {| keyword_matches := length matched_keywords;
          predefined_matches := length matched_predefined;
          total_job_terms := total_job_terms;
          match_rate :=
            if (0 <? total_job_terms)%nat
            then (Qnat (length all_matches) / Qnat (Nat.max total_job_terms 1))%Q
            else 0%Q |} |}.

Record ExperienceDetails := {
  candidate_years : Q;
  min_required : Z;
  max_required : option Z;
  meets_minimum : bool
}.

Record ExperienceAnalysis := {
  experience_score : Q;
  experience_details : ExperienceDetails
}.

(** [max_required and candidate_years > max_required]: [None] and [0] are
    both false. *)
Definition over_maximum (candidate_years : Q) (max_required : option Z) : bool :=
  match max_required with
  | None => false
  | Some m => negb (m =? 0)%Z && negb (Qle_bool candidate_years (inject_Z m))
  end.

Definition _analyze_experience_match
    (candidate_info : CandidateInfo) (job_requirements : JobRequirements) : ExperienceAnalysis :=
  let candidate_years := total_experience_years candidate_info in
  let min_required := min_experience_years job_requirements in
  let max_required := max_experience_years job_requirements in
  let score : Q :=
    if (min_required =? 0)%Z then 40%Q
    else if Qle_bool (inject_Z min_required) candidate_years then
      if over_maximum candidate_years max_required then 85%Q else 100%Q
    else
      if (0 <? min_required)%Z
      then Qmax 40 (candidate_years / inject_Z min_required * 80)%Q
      else 60%Q in
  {| experience_score := score;
     experience_details :=
       {| candidate_years := candidate_years;
          min_required := min_required;
          max_required := max_required;
          meets_minimum := Qle_bool (inject_Z min_required) candidate_years |} |}.

Definition _determine_match_status (overall_score : Q) : string :=
  if Qle_bool 50 overall_score then "shortlisted" else "rejected".

(** *** Batch analysis *)

(** The dict returned by [_analyze_single_candidate]. *)
Record Analysis := {
  a_overall_score : Q;
  a_match_status : string;
  a_skill_match_score : Q;
  a_education_match_score : Q;
  a_experience_match_score : Q;
  a_soft_skills_score : Q;
  a_matched_skills : list string;
  a_missing_skills : list string;
  a_matched_education : list string;
  a_experience_analysis : ExperienceDetails;
  a_ai_summary : string;
  a_strengths : list string;
  a_concerns : list string;
  a_recommendations : list string
}.

(** The schema [CVAnalysisCreate]; an [Optional] field is an [option]. *)
Record CVAnalysisCreate := {
  candidate_id : Z;
  job_posting_id : Z;
  overall_score : Q;
  match_status : string;
  skill_match_score : Q;
  education_match_score : Q;
  experience_match_score : Q;
  soft_skills_score : Q;
  matched_skills : option (list string);
  missing_skills : option (list string);
  matched_education : option (list string);
  experience_analysis : option ExperienceDetails;
  ai_summary : option string;
  strengths : option (list string);
  concerns : option (list string);
  recommendations : option (list string);
  processing_time_ms : option Z
}.

Definition Weights := gmap string Q.

Definition default_weights : Weights :=
  {[ "skills" := 35 # 100; "experience" := 25 # 100;
     "education" := 20 # 100; "soft_skills" := 20 # 100 ]}.

(** [custom_weights or self.default_weights]: [None] and the empty dict
    both give the default weights. *)
Definition effective_weights (custom_weights : option Weights) : Weights :=
  match custom_weights with
  | Some w => if decide (w = ∅) then default_weights else w
  | None => default_weights
  end.

(** The result built in the [try] branch. *)
Definition analysis_data (candidate : Candidate) (job_posting : JobPosting)
    (analysis : Analysis) (processing_time : Z) : CVAnalysisCreate :=
  {| candidate_id := c_id candidate;
     job_posting_id := jp_id job_posting;
     overall_score := a_overall_score analysis;
     match_status := a_match_status analysis;
     skill_match_score := a_skill_match_score analysis;
     education_match_score := a_education_match_score analysis;
     experience_match_score := a_experience_match_score analysis;
     soft_skills_score := a_soft_skills_score analysis;
     matched_skills := Some (a_matched_skills analysis);
     missing_skills := Some (a_missing_skills analysis);
     matched_education := Some (a_matched_education analysis);
     experience_analysis := Some (a_experience_analysis analysis);
     ai_summary := Some (a_ai_summary analysis);
     strengths := Some (a_strengths analysis);
     concerns := Some (a_concerns analysis);
     recommendations := Some (a_recommendations analysis);
     processing_time_ms := Some processing_time |}.

(** The result built in the [except] branch: the other fields take the
    defaults of the schema. *)
Definition failed_analysis (candidate : Candidate) (job_posting : JobPosting)
    (e : Py.exception) : CVAnalysisCreate :=
  {| candidate_id := c_id candidate;
     job_posting_id := jp_id job_posting;
     overall_score := 0;
     match_status := "rejected";
     skill_match_score := 0;
     education_match_score := 0;
     experience_match_score := 0;
     soft_skills_score := 0;
     matched_skills := Some [];
     missing_skills := Some [];
     matched_education := Some [];
     experience_analysis := None;
     ai_summary := Some ("Analysis failed: " +:+ Py.exc_str e);
     strengths := Some [];
     concerns := Some [];
     recommendations := Some [];
     processing_time_ms := None |}.

Section Batch.

(** [self._analyze_single_candidate] as a call that may raise (it reads
    JSON columns of any shape), and the time measured around it. *)
Variable _analyze_single_candidate :
  Candidate -> JobPosting -> Weights -> Py.result Analysis.
Variable processing_time : Candidate -> Z.

(** One iteration of the loop: the element appended to [results]. *)
Definition analyze_one (job_posting : JobPosting) (weights : Weights)
    (candidate : Candidate) : CVAnalysisCreate :=
  match _analyze_single_candidate candidate job_posting weights with
  | Py.Return analysis =>
      analysis_data candidate job_posting analysis (processing_time candidate)
  | Py.Raise e => failed_analysis candidate job_posting e
  end.

Definition analyze_candidates_for_job (candidates : list Candidate)
    (job_posting : JobPosting) (analyzed_by : Z) (custom_weights : option Weights)
    : list CVAnalysisCreate :=
  let weights := effective_weights custom_weights in
  fold_left
    (fun results candidate => (results ++ [analyze_one job_posting weights candidate])%list)
    candidates [].

End Batch.

(** *** Statistics

    In exact arithmetic here; [CVAnalyzer64] has the same function with
    the average computed on floats. *)

(** [round(x, 2)]: to the nearest hundredth, ties to the even one. *)
Definition round_half_even (x : Q) : Z :=
  let f := Qfloor x in
  let d := (x - inject_Z f)%Q in
  match (d ?= 1 # 2)%Q with
  | Lt => f
  | Gt => (f + 1)%Z
  | Eq => if Z.even f then f else (f + 1)%Z
  end.

Definition round2 (x : Q) : Q := (inject_Z (round_half_even (x * 100)) / 100)%Q.

(** The dict of [get_analysis_statistics]; [average_score] is [None] when
    the key is absent. *)
Record Statistics := {
  total : nat;
  shortlisted : nat;
  rejected : nat;
  average_score : option Q
}.

Definition count_status (status : string) (analyses : list CVAnalysisCreate) : nat :=
  length (List.filter (fun a => String.eqb (match_status a) status) analyses).

Definition sum_scores (analyses : list CVAnalysisCreate) : Q :=
  fold_left (fun acc a => (acc + overall_score a)%Q) analyses 0%Q.

Definition get_analysis_statistics (analyses : list CVAnalysisCreate) : Statistics :=
  match analyses with
  | [] => {| total := 0; shortlisted := 0; rejected := 0; average_score := None |}
  | _ =>
      let total := length analyses in
      let avg_score := if (0 <? total)%nat then (sum_scores analyses / Qnat total)%Q else 0%Q in
      {| total := total;
         shortlisted := count_status "shortlisted" analyses;
         rejected := count_status "rejected" analyses;
         average_score := Some (round2 avg_score) |}
  end.

(** *** The education and soft-skill sub-scores *)

Record EducationDetails := {
  requirements_met : nat;
  total_requirements : nat
}.

(** The dict of [_analyze_education_match]; [education_details] is [None]
    for the empty dict. *)
Record EducationAnalysis := {
  education_score : Q;
  education_matched : list string;
  education_details : option EducationDetails
}.

(** The list [education_keywords]: the degree and the institution of every
    entry (the entries are the dicts that the parser builds). *)
Definition education_keywords (candidate_education : list CVParser.EducationEntry)
    : list string :=
  flat_map (fun edu => [Py.lower (CVParser.degree edu); Py.lower (CVParser.institution edu)])
           candidate_education.

Definition _analyze_education_match
    (candidate_info : CandidateInfo) (job_requirements : JobRequirements) : EducationAnalysis :=
  let candidate_education := education candidate_info in
  let required_education := education_requirements job_requirements in
  match required_education with
  | [] => {| education_score := 25; education_matched := []; education_details := None |}
  | _ =>
      let keywords := education_keywords candidate_education in
      let matched :=
        List.filter (fun req =>
          let req_lower := Py.lower req in
          existsb (fun keyword =>
                     Py.contains keyword req_lower || Py.contains req_lower keyword)
                  keywords) required_education in
      let score : Q :=
        match required_education with
        | [] => 50%Q
        | _ => (Qnat (length matched) / Qnat (length required_education) * 100)%Q
        end in
      {| education_score := score;
         education_matched := matched;
         education_details :=
           Some {| requirements_met := length matched;
                   total_requirements := length required_education |} |}
  end.

Record SoftSkillsDetails := {
  matched_count : nat;
  required_count : nat
}.

Record SoftSkillsAnalysis := {
  soft_score : Q;
  soft_matched : list string;
  soft_details : option SoftSkillsDetails
}.

Definition _analyze_soft_skills_match
    (candidate_info : CandidateInfo) (job_requirements : JobRequirements) : SoftSkillsAnalysis :=
  let candidate_soft_skills := map Py.lower (ci_soft_skills candidate_info) in
  let required_soft_skills := map Py.lower (soft_skills job_requirements) in
  match required_soft_skills with
  | [] => {| soft_score := 50; soft_matched := []; soft_details := None |}
  | _ =>
      let matched :=
        List.filter (fun skill => Py.mem skill candidate_soft_skills) required_soft_skills in
      {| soft_score := (Qnat (length matched) / Qnat (length required_soft_skills) * 100)%Q;
         soft_matched := matched;
         soft_details :=
           Some {| matched_count := length matched;
                   required_count := length required_soft_skills |} |}
  end.

(** *** Insights and the overall score *)

(** [f"{x:.0f}"]: the nearest integer, ties to the even one, with the sign
    of [x]. *)
Definition format_0f (x : Q) : string :=
  (if Qle_bool 0 x then "" else "-")
  +:+ NilZero.string_of_uint (N.to_uint (Z.abs_N (round_half_even x))).

(** The dict of [_generate_ai_insights]. *)
Record Insights := {
  summary : string;
  ins_strengths : list string;
  ins_concerns : list string;
  ins_recommendations : list string
}.

(** [x < y] on floats *)
Definition Qlt_bool (x y : Q) : bool := negb (Qle_bool y x).

Definition _generate_ai_insights (candidate : Candidate) (job_posting : JobPosting)
    (overall_score : Q) (skill_analysis : SkillAnalysis)
    (education_analysis : EducationAnalysis) (experience_analysis : ExperienceAnalysis)
    (soft_skills_analysis : SoftSkillsAnalysis) : Insights :=
  let summary :=
    "Candidate shows " +:+ format_0f overall_score +:+ "% match for "
    +:+ jp_title job_posting +:+ " position. " in
  let strengths :=
    ((if Qle_bool 80 (skill_score skill_analysis)
      then ["Strong technical skill alignment"] else [])
     ++ (if Qle_bool 80 (experience_score experience_analysis)
         then ["Meets experience requirements"] else [])
     ++ (if Qle_bool 80 (education_score education_analysis)
         then ["Educational background aligns well"] else [])
     ++ (if Qle_bool 80 (soft_score soft_skills_analysis)
         then ["Good soft skills match"] else []))%list in
  let concerns :=
    ((if Qlt_bool (skill_score skill_analysis) 50
      then ["Missing key technical skills"] else [])
     ++ (if Qlt_bool (experience_score experience_analysis) 50
         then ["Insufficient relevant experience"] else [])
     ++ (if Qlt_bool (education_score education_analysis) 50
         then ["Education requirements not fully met"] else []))%list in
  let recommendations :=
    if Qle_bool 70 overall_score then ["Proceed with interview scheduling"]
    else if Qle_bool 50 overall_score then
      "Consider for phone screening"
      :: match skill_missing skill_analysis with
         | [] => []
         | _ => ["Assess missing technical skills during interview"]
         end
    else ["Not recommended for this position"] in
  {| summary := summary;
     ins_strengths := strengths;
     ins_concerns := concerns;
     ins_recommendations := recommendations |}.

(** [_analyze_single_candidate] on a candidate and a job whose columns have
    the shapes of the data model. *)
Definition _analyze_single_candidate (candidate : Candidate) (job_posting : JobPosting)
    (weights : Weights) : Analysis :=
  let job_requirements := _extract_job_requirements job_posting in
  let candidate_info := _extract_candidate_info candidate in
  let skill_analysis := _analyze_skills_match candidate_info job_requirements in
  let education_analysis := _analyze_education_match candidate_info job_requirements in
  let experience_analysis := _analyze_experience_match candidate_info job_requirements in
  let soft_skills_analysis := _analyze_soft_skills_match candidate_info job_requirements in
  let overall_score : Q :=
    (skill_score skill_analysis * default (35 # 100) (weights !! "skills")
     + education_score education_analysis * default (20 # 100) (weights !! "education")
     + experience_score experience_analysis * default (25 # 100) (weights !! "experience")
     + soft_score soft_skills_analysis * default (20 # 100) (weights !! "soft_skills"))%Q in
  let match_status := _determine_match_status overall_score in
  let ai_insights :=
    _generate_ai_insights candidate job_posting overall_score skill_analysis
                          education_analysis experience_analysis soft_skills_analysis in
  {| a_overall_score := round2 overall_score;
     a_match_status := match_status;
     a_skill_match_score := round2 (skill_score skill_analysis);
     a_education_match_score := round2 (education_score education_analysis);
     a_experience_match_score := round2 (experience_score experience_analysis);
     a_soft_skills_score := round2 (soft_score soft_skills_analysis);
     a_matched_skills := skill_matched skill_analysis;
     a_missing_skills := skill_missing skill_analysis;
     a_matched_education := education_matched education_analysis;
     a_experience_analysis := experience_details experience_analysis;
     a_ai_summary := summary ai_insights;
     a_strengths := ins_strengths ai_insights;
     a_concerns := ins_concerns ai_insights;
     a_recommendations := ins_recommendations ai_insights |}.

End CVAnalyzer.

(** ** Binary64 arithmetic

    The average of [get_analysis_statistics] is computed on Python floats,
    and its second decimal depends on how they round.  A float is
    represented by its exact value; every operation rounds the exact
    result to the nearest binary64 number, ties to the one with an even
    significand.  Zeros carry no sign. *)

Module Binary64.

Local Open Scope Q_scope.

Inductive float :=
| Finite (x : Q)
| Infinity (negative : bool)
| NaN.

Definition pow2 (e : Z) : Q := 2 ^ e.

(** The integer part of the binary logarithm of [|x|], for [x] other than zero. *)
Definition ilog2 (x : Q) : Z :=
  let e := (Z.log2 (Z.abs (Qnum x)) - Z.log2 (Zpos (Qden x)))%Z in
  if Qle_bool (pow2 e) (Qabs x) then e else (e - 1)%Z.

(** The exponent of the last bit of the significand: 53 bits, and no
    exponent below that of the subnormal numbers. *)
Definition exponent (x : Q) : Z := Z.max (ilog2 x - 52) (-1074).

(** The nearest number with a 53-bit significand, whatever its size. *)
Definition round (x : Q) : Q :=
  if Qeq_bool x 0 then 0
  else inject_Z (CVAnalyzer.round_half_even (x / pow2 (exponent x))) * pow2 (exponent x).

(** The float nearest to [x]: a result of [2^1024] or more overflows. *)
Definition of_Q (x : Q) : float :=
  let r := round x in
  if Qle_bool (pow2 1024) (Qabs r) then Infinity (CVAnalyzer.Qlt_bool r 0) else Finite r.


Definition opp (a : float) : float :=
  match a with
  | Finite x => Finite (- x)
  | Infinity negative => Infinity (negb negative)
  | NaN => NaN
  end.

(** [a + b] *)
Definition add (a b : float) : float :=
  match a, b with
  | Finite x, Finite y => of_Q (x + y)
  | NaN, _ | _, NaN => NaN
  | Infinity s, Infinity s' => if Bool.eqb s s' then Infinity s else NaN
  | Infinity s, Finite _ | Finite _, Infinity s => Infinity s
  end.

(** [a - b] *)
Definition sub (a b : float) : float := add a (opp b).

(** [fabs(a) >= fabs(b)] *)
Definition abs_ge (a b : float) : bool :=
  match a, b with
  | NaN, _ | _, NaN => false
  | Infinity _, _ => true
  | Finite _, Infinity _ => false
  | Finite x, Finite y => Qle_bool (Qabs y) (Qabs x)
  end.

(** [c && isfinite(c)] *)
Definition nonzero_finite (c : float) : bool :=
  match c with
  | Finite x => negb (Qeq_bool x 0)
  | _ => false
  end.

(** [a / n] for a float [a] and the length [n] of a list that is not
    empty: the int is converted to the nearest float (a length is far
    below [2^1024], the conversion does not overflow). *)
Definition div_count (a : float) (n : positive) : float :=
  match a with
  | Finite x => of_Q (x / round (inject_Z (Zpos n)))
  | _ => a
  end.

(** [round(a, 2)]: the float nearest to the decimal number with two
    places that is nearest to [a], ties to the even one; infinities and
    NaN round to themselves. *)
Definition round_2 (a : float) : float :=
  match a with
  | Finite x => of_Q (CVAnalyzer.round2 x)
  | _ => a
  end.

(** The two algorithms of the builtin [sum] on floats: addition from left
    to right (up to CPython 3.11) and Neumaier's compensated summation
    (from CPython 3.12 on). *)
Inductive summation := Sequential | Compensated.

(** The loop of the compensated sum: [f] is the running sum, [c] the
    running compensation, added at the end when it is finite and not zero. *)
Fixpoint compensated_sum (f c : float) (xs : list float) : float :=
  match xs with
  | [] => if nonzero_finite c then add f c else f
  | x :: xs' =>
      let t := add f x in
      let c' := if abs_ge f x then add c (add (sub f t) x)
                else add c (add (sub x t) f) in
      compensated_sum t c' xs'
  end.

(** [sum(xs)] for floats [xs]: the start value is the int 0, to which the
    first float is added; the floats after it go through the float loop. *)
Definition sum (algorithm : summation) (xs : list float) : float :=
  match xs with
  | [] => Finite 0
  | x :: xs' =>
      let first := add (Finite 0) x in
      match algorithm with
      | Sequential => fold_left add xs' first
      | Compensated => compensated_sum first (Finite 0) xs'
      end
  end.

End Binary64.

(** ** The statistics on floats

    [get_analysis_statistics] with the average computed as Python
    computes it: the overall scores are binary64 floats, summed by the
    builtin [sum], divided by the int [total] and rounded by [round]. *)

Module CVAnalyzer64.
Import CVAnalyzer.

Record Statistics := {
  total : nat;
  shortlisted : nat;
  rejected : nat;
  average_score : option Binary64.float
}.

Definition get_analysis_statistics (algorithm : Binary64.summation)
    (analyses : list CVAnalysisCreate) : Statistics :=
  match analyses with
  | [] => {| total := 0; shortlisted := 0; rejected := 0; average_score := None |}
  | _ =>
      let total := length analyses in
      let avg_score :=
        if (0 <? total)%nat
        then Binary64.div_count
               (Binary64.sum algorithm
                  (map (fun a => Binary64.Finite (overall_score a)) analyses))
               (Pos.of_nat total)
        else Binary64.Finite 0 in
      {| total := total;
         shortlisted := count_status "shortlisted" analyses;
         rejected := count_status "rejected" analyses;
         average_score := Some (Binary64.round_2 avg_score) |}
  end.

End CVAnalyzer64.

(** ** Sample inputs

    Concrete collaborators and inputs on which the properties below are
    evaluated. *)

Module Samples.

Definition nl : string := String Re.newline "".

(** [pathlib.PurePosixPath(p).name]: the last component of the path that
    is neither empty nor a single dot. *)
Definition path_name (p : string) : string :=
  List.last (List.filter (fun c => negb (String.eqb c "" || String.eqb c "."))
                         (Py.split_char "/" p)) "".

Fixpoint rfind_char (c : ascii) (s : string) (i : nat) : option nat :=
  match s with
  | EmptyString => None
  | String a s' =>
      match rfind_char c s' (S i) with
      | Some j => Some j
      | None => if Py.char_eqb a c then Some i else None
      end
  end.

(** [pathlib.PurePosixPath(p).suffix]: the name from its last dot on, when
    that dot is neither the first nor the last character of the name. *)
Definition posix_suffix (p : string) : string :=
  let name := path_name p in
  match rfind_char "." name 0 with
  | Some i =>
      if (0 <? i)%nat && (i <? String.length name - 1)%nat
      then substring i (String.length name - i) name
      else ""
  | None => ""
  end.

Definition resume_text : string :=
  "Jane Doe" +:+ nl +:+ "jane@x.com" +:+ nl +:+ "5 years of experience in Python and React".

(** A file system with a readable PDF, an unreadable one and one without
    text; no spaCy model; section extractors that find nothing. *)
Definition env : CVParser.Env :=
  {| CVParser.path_suffix := posix_suffix;
     CVParser.pdf_pages := fun file_path =>
       if String.eqb file_path "uploads/broken.pdf"
       then Py.Raise (Py.Exception "PdfReadError" "EOF marker not found")
       else if String.eqb file_path "uploads/blank.pdf" then Py.Return [""; " "]
       else Py.Return [resume_text];
     CVParser.docx_document := fun _ => Py.Return ([resume_text], []);
     CVParser.nlp := None;
     CVParser._extract_education := fun _ => Py.Return [];
     CVParser._extract_work_experience := fun _ _ => Py.Return [] |}.

Definition cv_with_header : string :=
  "Curriculum Vitae" +:+ nl +:+ nl +:+ "Name: Jane Smith" +:+ nl +:+ "Python developer".

Definition cv_with_two_names : string :=
  "John Doe" +:+ nl +:+ "Name: Jane Smith".

(** *** Candidates and jobs *)

Section AnalyzerSamples.
Import CVAnalyzer.

Definition candidate_info (text : string) (technical : list string) (years : Q)
    : CandidateInfo :=
  {| technical_skills := technical; ci_soft_skills := []; education := [];
     work_experience := []; total_experience_years := years; certifications := [];
     languages := []; raw_text := text |}.

Definition job (description : string) (required preferred : list string)
    (min_years : Z) (max_years : option Z) : JobRequirements :=
  {| required_skills := required; preferred_skills := preferred;
     education_requirements := []; experience_requirements := []; soft_skills := [];
     min_experience_years := min_years; max_experience_years := max_years;
     title := "Developer"; description := description |}.

Definition jane : CandidateInfo :=
  candidate_info "I know Python and react.js front-end" ["Python"] 5.

Definition developer_job : JobRequirements :=
  job "Python developer for our front-end team" ["Python"; "React"] ["Docker"] 3 None.

Definition candidate (id : Z) : Candidate :=
  {| c_id := id; c_raw_text := None; c_skills := None; c_education := None;
     c_work_experience := None; c_certifications := None; c_languages := None;
     c_total_experience_years := None |}.

Definition posting : JobPosting :=
  {| jp_id := 7; jp_title := "Developer"; jp_description := "Python developer";
     jp_required_skills := None; jp_preferred_skills := None;
     jp_education_requirements := None; jp_experience_requirements := None;
     jp_soft_skills := None; jp_min_experience_years := None;
     jp_max_experience_years := None |}.

Definition some_analysis : Analysis :=
  {| a_overall_score := 72; a_match_status := "shortlisted";
     a_skill_match_score := 80; a_education_match_score := 25;
     a_experience_match_score := 100; a_soft_skills_score := 50;
     a_matched_skills := ["python"]; a_missing_skills := [];
     a_matched_education := [];
     a_experience_analysis :=
       {| candidate_years := 5; min_required := 3; max_required := None;
          meets_minimum := true |};
     a_ai_summary := "Candidate shows 72% match for Developer position. ";
     a_strengths := ["Meets experience requirements"]; a_concerns := [];
     a_recommendations := ["Proceed with interview scheduling"] |}.

(** An analysis that fails on the candidate number 2. *)
Definition analyze (c : Candidate) (j : JobPosting) (w : Weights) : Py.result Analysis :=
  if (c_id c =? 2)%Z
  then Py.Raise (Py.Exception "TypeError" "'NoneType' object is not iterable")
  else Py.Return some_analysis.

Definition result (status : string) (score : Q) : CVAnalysisCreate :=
  {| candidate_id := 1; job_posting_id := 7; overall_score := score;
     match_status := status; skill_match_score := 0; education_match_score := 0;
     experience_match_score := 0; soft_skills_score := 0; matched_skills := Some [];
     missing_skills := Some []; matched_education := Some [];
     experience_analysis := None; ai_summary := None; strengths := Some [];
     concerns := Some []; recommendations := Some []; processing_time_ms := None |}.

End AnalyzerSamples.

End Samples.

(** ** The terms of the specification *)

Module Spec.
Import CVAnalyzer.

(** The mined keywords of the job that occur in the resume text. *)
Definition keyword_matches (ci : CandidateInfo) (jr : JobRequirements) : gset string :=
  list_to_set
    (List.filter (fun keyword => Py.contains keyword (Py.lower (raw_text ci)))
                 (_extract_job_keywords (Py.lower (description jr)))).

(** The required and preferred skills of the job that the candidate has,
    or that occur in the resume text. *)
Definition taxonomy_matches (ci : CandidateInfo) (jr : JobRequirements) : gset string :=
  list_to_set
    (List.filter (fun skill => Py.mem skill (map Py.lower (technical_skills ci))
                               || Py.contains skill (Py.lower (raw_text ci)))
                 (map Py.lower (required_skills jr ++ preferred_skills jr))).

Definition job_terms (jr : JobRequirements) : nat :=
  length (_extract_job_keywords (Py.lower (description jr)))
  + length (required_skills jr) + length (preferred_skills jr).

(** [min(100, match_rate*60 + min(30, keyword_match_count*2) + 15)] *)
Definition skill_formula (matches terms keyword_match_count : nat) : Q :=
  let match_rate := (Qnat matches / Qnat terms)%Q in
  Qmin 100 (match_rate * 60 + Qmin 30 (Qnat keyword_match_count * 2) + 15)%Q.

(** The extension test of [_extract_text_from_file]. *)
Definition supported (file_extension : string) : Prop :=
  file_extension = ".pdf" \/ file_extension = ".doc" \/ file_extension = ".docx".

(** Where an exception can occur inside [parse_cv_file]: in the text
    extraction, in the check of the extracted text, or in the parsing of a
    non-empty text. *)
Inductive raises_in_parse (env : CVParser.Env) (file_path : string) (e : Py.exception) : Prop :=
| raises_in_extraction :
    CVParser._extract_text_from_file env file_path = Py.Raise e ->
    raises_in_parse env file_path e
| raises_on_empty_text :
    CVParser._extract_text_from_file env file_path = Py.Return "" ->
    e = Py.ValueError "Could not extract text from file" ->
    raises_in_parse env file_path e
| raises_in_parsing text :
    CVParser._extract_text_from_file env file_path = Py.Return text ->
    text <> "" ->
    CVParser._parse_text_content env text = Py.Raise e ->
    raises_in_parse env file_path e.

(** A blank string. *)
Definition all_space (s : string) : bool := Py.forall_chars Py.isspace_char s.

(** The sum, the sum of the absolute values and the mean of a list of
    numbers, in exact arithmetic. *)
Definition sum_of (xs : list Q) : Q := fold_right Qplus 0%Q xs.


Definition mean (xs : list Q) : Q := (sum_of xs / CVAnalyzer.Qnat (length xs))%Q.

End Spec.

(** * Verified properties *)

(** ** Properties of the matcher *)

Section MatcherProperties.
Import Re.

Lemma string_app_cons (x : ascii) (a b : string) :
  String x a +:+ b = String x (a +:+ b).
Proof. reflexivity. Qed.

Lemma string_app_assoc (a b c : string) : (a +:+ b) +:+ c = a +:+ (b +:+ c).
Proof.
  induction a as [|x a IH]; [done|]. rewrite !string_app_cons. f_equal. exact IH.
Qed.

Lemma string_app_length (a b : string) :
  String.length (a +:+ b) = (String.length a + String.length b)%nat.
Proof.
  induction a as [|x a IH]; [done|]. rewrite string_app_cons. cbn [String.length].
  rewrite IH. reflexivity.
Qed.

Lemma reach_refl c : reach c c.
Proof. exists "". split; [done|]. cbn [String.length]. lia. Qed.

Lemma reach_trans c1 c2 c3 : reach c1 c2 -> reach c2 c3 -> reach c1 c3.
Proof.
  intros (m1 & H1 & P1) (m2 & H2 & P2). exists (m1 +:+ m2).
  rewrite string_app_assoc, <- H2, <- H1, string_app_length. split; [done|lia].
Qed.

Lemma reach_step c a s :
  rest c = String a s -> reach c (Cursor (Some a) s (S (pos c))).
Proof.
  intros H. exists (String a ""). split; [done|]. cbn [String.length pos]. lia.
Qed.

Lemma star_loop_sound keep m :
  sound keep m -> forall fuel, sound keep (fun k => star_loop m k fuel).
Proof.
  intros Hm fuel. induction fuel as [|fuel IH]; intros k c g o H.
  - exists c, g. split; [apply reach_refl|]. split; [exact H|done].
  - cbn [star_loop] in H.
    destruct (m (fun c' g' =>
                   if (pos c <? pos c')%nat then star_loop m k fuel c' g' else None) c g)
      eqn:E.
    + injection H as ->. apply Hm in E as (c1 & g1 & R1 & E & G1).
      destruct (pos c <? pos c1)%nat; [|discriminate].
      apply IH in E as (c2 & g2 & R2 & E & G2).
      exists c2, g2. split; [by eapply reach_trans|]. split; [exact E|].
      intros N. rewrite G2, G1; done.
    + exists c, g. split; [apply reach_refl|]. split; [exact H|done].
Qed.

Lemma lazy_loop_sound keep m :
  sound keep m -> forall fuel, sound keep (fun k => lazy_loop m k fuel).
Proof.
  intros Hm fuel. induction fuel as [|fuel IH]; intros k c g o H.
  - exists c, g. split; [apply reach_refl|]. split; [exact H|done].
  - cbn [lazy_loop] in H. destruct (k c g) eqn:E.
    + injection H as ->. exists c, g. split; [apply reach_refl|]. split; [exact E|done].
    + apply Hm in H as (c1 & g1 & R1 & H & G1).
      destruct (pos c <? pos c1)%nat; [|discriminate].
      apply IH in H as (c2 & g2 & R2 & H & G2).
      exists c2, g2. split; [by eapply reach_trans|]. split; [exact H|].
      intros N. rewrite G2, G1; done.
Qed.

Lemma rep_loop_sound keep m :
  sound keep m -> forall hi lo, sound keep (fun k => rep_loop m k lo hi).
Proof.
  intros Hm hi. induction hi as [|hi IH]; intros lo k c g o H.
  - exists c, g. split; [apply reach_refl|]. split; [exact H|done].
  - cbn [rep_loop] in H. destruct (m (rep_loop m k (pred lo) hi) c g) eqn:E.
    + injection H as ->. apply Hm in E as (c1 & g1 & R1 & E & G1).
      apply IH in E as (c2 & g2 & R2 & E & G2).
      exists c2, g2. split; [by eapply reach_trans|]. split; [exact E|].
      intros N. rewrite G2, G1; done.
    + destruct (lo =? 0)%nat; [|discriminate].
      exists c, g. split; [apply reach_refl|]. split; [exact H|done].
Qed.

(** The matcher of every pattern is sound. *)
Lemma run_sound (r : regex) : sound (nogroup r) (run r).
Proof.
  induction r as [|p|a IHa b IHb|a IHa b IHb|a IHa|a IHa|lo hi a IHa|n a IHa| |];
    intros k c g o H; cbn [run nogroup] in *.
  - exists c, g. split; [apply reach_refl|]. split; [exact H|done].
  - destruct (rest c) as [|x s] eqn:E; [discriminate|].
    destruct (p x); [|discriminate].
    eexists _, g. split; [by apply reach_step|]. split; [exact H|done].
  - apply IHa in H as (c1 & g1 & R1 & H & G1).
    apply IHb in H as (c2 & g2 & R2 & H & G2).
    exists c2, g2. split; [by eapply reach_trans|]. split; [exact H|].
    intros N. apply andb_true_iff in N as [Na Nb]. rewrite G2, G1; done.
  - destruct (run a k c g) eqn:E.
    + injection H as ->. apply IHa in E as (c1 & g1 & R1 & E & G1).
      exists c1, g1. split; [done|]. split; [done|].
      intros N. apply andb_true_iff in N as [Na _]. auto.
    + apply IHb in H as (c1 & g1 & R1 & E' & G1).
      exists c1, g1. split; [done|]. split; [done|].
      intros N. apply andb_true_iff in N as [_ Nb]. auto.
  - by apply (star_loop_sound _ _ IHa) in H.
  - by apply (lazy_loop_sound _ _ IHa) in H.
  - by apply (rep_loop_sound _ _ IHa) in H.
  - apply IHa in H as (c1 & g1 & R1 & H & _).
    eexists c1, _. split; [done|]. split; [exact H|]. discriminate.
  - destruct (at_word_boundary c); [|discriminate].
    exists c, g. split; [apply reach_refl|]. split; [exact H|done].
  - destruct (at_end c); [|discriminate].
    exists c, g. split; [apply reach_refl|]. split; [exact H|done].
Qed.

Lemma run_lit (s : string) : forall (k : cont) (c : cursor) (g : captures) (o : outcome),
  run (lit s) k c g = Some o ->
  exists c', rest c = s +:+ rest c' /\ pos c' = (pos c + String.length s)%nat /\
             k c' g = Some o.
Proof.
  induction s as [|x s IH]; intros k c g o H.
  - exists c. split; [done|]. split; [cbn [String.length]; lia | exact H].
  - cbn [lit run chr] in H. destruct (rest c) as [|a tl] eqn:E; [discriminate|].
    unfold Py.char_eqb in H. destruct (Ascii.eqb_spec x a) as [->|]; [|discriminate].
    apply IH in H as (c' & R & P & H). cbn [rest pos] in R, P.
    exists c'. rewrite string_app_cons, <- R. split; [done|].
    split; [cbn [String.length]; lia | exact H].
Qed.

Lemma cursor_of_start text : cursor_of text (start_of text).
Proof. exists "". split; reflexivity. Qed.

Lemma cursor_of_reach text c c' : cursor_of text c -> reach c c' -> cursor_of text c'.
Proof.
  intros (pre & T & L) (mid & R & P). exists (pre +:+ mid).
  rewrite string_app_assoc, <- R, string_app_length. split; [done|lia].
Qed.

Lemma substring_skip (pre s : string) (n : nat) :
  substring (String.length pre) n (pre +:+ s) = substring 0 n s.
Proof. induction pre as [|x pre IH]; [done|]. rewrite string_app_cons. exact IH. Qed.

(** A match found by [search_at] is a successful run of the matcher at a
    position at or after the start of the search. *)
Lemma search_at_run (r : regex) (s : string) :
  forall (b : option ascii) (i : nat) (m : rmatch),
    search_at r b s i = Some m ->
    exists c0, reach (Cursor b s i) c0 /\ pos c0 = m_start m /\
               run r accept c0 [] = Some (m_end m, m_groups m).
Proof.
  induction s as [|a s IH]; intros b i m H; cbn [search_at] in H.
  - destruct (run r accept (Cursor b "" i) []) as [[c g]|] eqn:E; [|discriminate].
    injection H as <-. exists (Cursor b "" i). split; [apply reach_refl|]. by split.
  - destruct (run r accept (Cursor b (String a s) i) []) as [[c g]|] eqn:E.
    + injection H as <-. exists (Cursor b (String a s) i). split; [apply reach_refl|].
      by split.
    + apply IH in H as (c0 & R & P & H). exists c0. split; [|by split].
      eapply reach_trans; [|exact R]. by apply reach_step.
Qed.

(** Every match of [finditer] is a successful run at a position of the
    text. *)
Lemma finditer_from_run (r : regex) (text : string) (fuel : nat) :
  forall c, cursor_of text c ->
    Forall (fun m => exists c0, cursor_of text c0 /\ pos c0 = m_start m /\
                                run r accept c0 [] = Some (m_end m, m_groups m))
           (finditer_from fuel r c).
Proof.
  induction fuel as [|fuel IH]; intros c Hc; cbn [finditer_from]; [constructor|].
  destruct (search_at r (before c) (rest c) (pos c)) as [m|] eqn:E; [|constructor].
  apply search_at_run in E as (c0 & R & P & E).
  assert (Hc0 : cursor_of text c0).
  { apply (cursor_of_reach text c); [exact Hc|]. destruct c; exact R. }
  assert (Hend : cursor_of text (m_end m)).
  { apply run_sound in E as (c1 & g1 & R1 & E & _). injection E as <- _.
    by apply (cursor_of_reach text c0). }
  assert (Hm : exists c0, cursor_of text c0 /\ pos c0 = m_start m /\
                          run r accept c0 [] = Some (m_end m, m_groups m)) by eauto.
  destruct (m_start m <? pos (m_end m))%nat.
  - constructor; [exact Hm | by apply IH].
  - destruct (rest (m_end m)) as [|a s] eqn:Er; constructor; try done.
    apply IH. apply (cursor_of_reach text (m_end m)); [done|]. by apply reach_step.
Qed.

(** *** The year pattern *)

Lemma year_run c c' g :
  run CVParser.year_pattern accept c [] = Some (c', g) ->
  exists d tl, (d = "19" \/ d = "20") /\ rest c = d +:+ tl /\
               g = [(1%nat, (pos c, (pos c + 2)%nat))].
Proof.
  unfold CVParser.year_pattern. cbn [cat run]. intros H.
  destruct (at_word_boundary c); [|discriminate].
  assert (Hlit : forall d, String.length d = 2%nat ->
    run (lit d)
        (fun c1 g1 => run (Seq (Rep 2 2 digit) WordB) accept c1 ((1%nat, (pos c, pos c1)) :: g1))
        c [] = Some (c', g) ->
    exists tl, rest c = d +:+ tl /\ g = [(1%nat, (pos c, (pos c + 2)%nat))]).
  { intros d Hd Hr. apply run_lit in Hr as (c1 & R & P & Hr).
    apply run_sound in Hr as (c2 & g2 & _ & Hr & G). injection Hr as _ <-.
    rewrite G by reflexivity. rewrite P, Hd. eauto. }
  destruct (run (lit "19") _ c []) eqn:E in H.
  - injection H as ->. apply Hlit in E as (tl & R & G); [|done]. exists "19", tl. auto.
  - apply Hlit in H as (tl & R & G); [|done]. exists "20", tl. auto.
Qed.

Lemma year_group text m :
  (exists c0, cursor_of text c0 /\ pos c0 = m_start m /\
              run CVParser.year_pattern accept c0 [] = Some (m_end m, m_groups m)) ->
  group text 1 m = "19" \/ group text 1 m = "20".
Proof.
  intros (c0 & (pre & T & L) & P & H). apply year_run in H as (d & tl & Hd & R & G).
  unfold group. rewrite G. cbn [assoc Nat.eqb]. unfold span_text. cbn [fst snd].
  replace (pos c0 + 2 - pos c0)%nat with 2%nat by lia.
  rewrite T, <- L, substring_skip, R.
  destruct Hd as [-> | ->]; [left | right]; rewrite !string_app_cons;
    cbn [substring]; by destruct ("" +:+ tl).
Qed.

(** Whatever the text, the "years" that [_extract_all_years] finds are the
    prefixes 19 and 20. *)
Lemma extract_all_years_prefixes (text : string) :
  Forall (fun y => y = 19%Z \/ y = 20%Z) (CVParser._extract_all_years text).
Proof.
  unfold CVParser._extract_all_years, findall_group, finditer.
  pose proof (finditer_from_run CVParser.year_pattern text (S (String.length text))
                (start_of text) (cursor_of_start text)) as HF.
  induction HF as [|m ms Hm _ IH]; cbn [map]; constructor; [|exact IH].
  destruct (year_group text m Hm) as [-> | ->]; [left | right]; reflexivity.
Qed.

Lemma max_list_bounds (l : list Z) : forall d,
  (19 <= d <= 20)%Z -> Forall (fun y => y = 19%Z \/ y = 20%Z) l ->
  (d <= CVParser.max_list d l <= 20)%Z.
Proof.
  unfold CVParser.max_list. induction l as [|y l IH]; intros d Hd HF; cbn [fold_left]; [lia|].
  inversion HF as [|y' l' Hy Hl]; subst.
  assert (19 <= Z.max d y <= 20)%Z by lia. specialize (IH (Z.max d y) H Hl). lia.
Qed.

Lemma min_list_bounds (l : list Z) : forall d,
  (19 <= d <= 20)%Z -> Forall (fun y => y = 19%Z \/ y = 20%Z) l ->
  (19 <= CVParser.min_list d l <= d)%Z.
Proof.
  unfold CVParser.min_list. induction l as [|y l IH]; intros d Hd HF; cbn [fold_left]; [lia|].
  inversion HF as [|y' l' Hy Hl]; subst.
  assert (19 <= Z.min d y <= 20)%Z by lia. specialize (IH (Z.min d y) H Hl). lia.
Qed.

(** X29: without an explicit phrase the result is 0 or 1, whatever the
    years written in the text: the span is taken over the prefixes 19 and 20. *)
Lemma year_span_is_0_or_1 (text : string) :
  CVParser.explicit_years text = [] ->
  (CVParser._calculate_experience_years text == 0)%Q \/
  (CVParser._calculate_experience_years text == 1)%Q.
Proof.
  intros He. unfold CVParser._calculate_experience_years. rewrite He.
  pose proof (extract_all_years_prefixes text) as HF.
  destruct (CVParser._extract_all_years text) as [|y1 [|y2 ys]]; [by left | by left |].
  inversion HF as [|? ? Hy1 HF']; subst.
  assert (B1 : (19 <= y1 <= 20)%Z) by lia.
  pose proof (max_list_bounds (y2 :: ys) y1 B1 HF').
  pose proof (min_list_bounds (y2 :: ys) y1 B1 HF').
  assert (D : (CVParser.max_list y1 (y2 :: ys) - CVParser.min_list y1 (y2 :: ys) = 0
               \/ CVParser.max_list y1 (y2 :: ys) - CVParser.min_list y1 (y2 :: ys) = 1)%Z)
    by lia.
  destruct D as [-> | ->]; [by left | by right].
Qed.

(** *** The skill-mention predicate *)

Lemma string_app_nil_r (s : string) : s +:+ "" = s.
Proof. induction s as [|a s IH]; [done|]. rewrite string_app_cons. by rewrite IH. Qed.

Lemma last_char_app b (s t : string) : last_char b (s +:+ t) = last_char (last_char b s) t.
Proof.
  revert b. induction s as [|a s IH]; intros b; [done|].
  rewrite string_app_cons. cbn [last_char]. apply IH.
Qed.

Lemma cursor_at_snoc pre a s :
  cursor_at (pre +:+ String a "") s = Cursor (Some a) s (S (String.length pre)).
Proof.
  unfold cursor_at. rewrite last_char_app, string_app_length. cbn [last_char String.length].
  f_equal. lia.
Qed.

(** [search_at] finds a match exactly when the matcher succeeds at some
    later position. *)
Lemma cursor_at_nil_r pre post : cursor_at (pre +:+ "") post = cursor_at pre post.
Proof. by rewrite string_app_nil_r. Qed.

Lemma search_at_found (r : regex) (post : string) : forall pre,
  NLPService.is_some (search_at r (last_char None pre) post (String.length pre)) = true <->
  exists mid post', post = mid +:+ post' /\
    NLPService.is_some (run r accept (cursor_at (pre +:+ mid) post') []) = true.
Proof.
  induction post as [|a s IH]; intros pre; cbn [search_at].
  - destruct (run r accept (Cursor (last_char None pre) EmptyString (String.length pre)) [])
      as [[c g]|] eqn:E.
    + split; [|done]. intros _. exists "", "". rewrite cursor_at_nil_r.
      unfold cursor_at. rewrite E. done.
    + split; [done|]. intros (mid & post' & Hp & H).
      destruct mid; [|discriminate]. destruct post'; [|discriminate].
      rewrite cursor_at_nil_r in H. unfold cursor_at in H. rewrite E in H. done.
  - destruct (run r accept (Cursor (last_char None pre) (String a s) (String.length pre)) [])
      as [[c g]|] eqn:E.
    + split; [|done]. intros _. exists "", (String a s). rewrite cursor_at_nil_r.
      unfold cursor_at. rewrite E. done.
    + specialize (IH (pre +:+ String a "")).
      rewrite last_char_app, string_app_length in IH. cbn [last_char String.length] in IH.
      replace (String.length pre + 1)%nat with (S (String.length pre)) in IH by lia.
      rewrite IH. split.
      * intros (mid & post' & -> & H). exists (String a mid), post'. split; [done|].
        rewrite string_app_assoc in H. exact H.
      * intros (mid & post' & Hp & H). destruct mid as [|a' mid].
        { rewrite cursor_at_nil_r in H. change ("" +:+ post') with post' in Hp.
          subst post'.
          unfold cursor_at in H. rewrite E in H. done. }
        rewrite string_app_cons in Hp. injection Hp as <- ->.
        exists mid, post'. split; [done|]. rewrite string_app_assoc. exact H.
Qed.

Lemma lower_char_idem (a : ascii) : Py.lower_char (Py.lower_char a) = Py.lower_char a.
Proof. destruct a as [[] [] [] [] [] [] [] []]; reflexivity. Qed.

Lemma lower_idem (s : string) : Py.lower (Py.lower s) = Py.lower s.
Proof.
  unfold Py.lower. induction s as [|a s IH]; [done|]. cbn [Py.map_chars].
  by rewrite lower_char_idem, IH.
Qed.

Lemma isword_lower_char (a : ascii) : Py.isword_char (Py.lower_char a) = Py.isword_char a.
Proof. destruct a as [[] [] [] [] [] [] [] []]; reflexivity. Qed.

Lemma cursor_eta (c : cursor) : Cursor (before c) (rest c) (pos c + 0) = c.
Proof. destruct c. cbn. f_equal. lia. Qed.

(** A literal under [re.IGNORECASE] reads exactly the texts that are equal
    to it up to case. *)
Lemma run_lit_ci (s : string) : forall (k : cont) (c : cursor) (g : captures) (o : outcome),
  run (lit_ci s) k c g = Some o <->
  exists mid tl, rest c = mid +:+ tl /\ Py.lower mid = Py.lower s /\
    k (Cursor (last_char (before c) mid) tl (pos c + String.length mid)) g = Some o.
Proof.
  induction s as [|x s IH]; intros k c g o.
  - cbn [lit_ci run]. split.
    + intros H. exists "", (rest c). split; [done|]. split; [done|].
      cbn [last_char String.length]. by rewrite cursor_eta.
    + intros (mid & tl & R & L & H). destruct mid; [|discriminate].
      change ("" +:+ tl) with tl in R. subst tl.
      cbn [last_char String.length] in H. by rewrite cursor_eta in H.
  - cbn [lit_ci run chr_ci]. split.
    + intros H. destruct (rest c) as [|a tl0] eqn:E; [discriminate|].
      unfold Py.char_eqb in H.
      destruct (Ascii.eqb_spec (Py.lower_char a) (Py.lower_char x)) as [Ha|]; [|discriminate].
      apply IH in H as (mid & tl & R & L & H). cbn [rest before pos] in R, H.
      exists (String a mid), tl. rewrite string_app_cons, <- R. split; [done|].
      split; [unfold Py.lower in *; cbn [Py.map_chars]; by rewrite Ha, L|].
      cbn [last_char String.length].
      replace (pos c + S (String.length mid))%nat with (S (pos c) + String.length mid)%nat
        by lia.
      exact H.
    + intros (mid & tl & R & L & H). destruct mid as [|a mid]; [discriminate|].
      rewrite string_app_cons in R. rewrite R.
      unfold Py.lower in L. cbn [Py.map_chars] in L. injection L as La L.
      unfold Py.char_eqb. rewrite La, Ascii.eqb_refl.
      apply IH. exists mid, tl. cbn [rest before pos]. split; [done|]. split; [exact L|].
      cbn [last_char String.length] in H.
      replace (S (pos c) + String.length mid)%nat with (pos c + S (String.length mid))%nat
        by lia.
      exact H.
Qed.

(** The skill pattern succeeds at a position exactly when the skill stands
    there, up to case, between two word boundaries. *)
Lemma run_skill_pattern (skill pre post : string) :
  NLPService.is_some (run (NLPService.skill_pattern skill) accept (cursor_at pre post) [])
    = true <->
  word_boundary (last_char None pre) (first_char post) /\
  exists mid tl, post = mid +:+ tl /\ Py.lower mid = Py.lower skill /\
    word_boundary (last_char None (pre +:+ mid)) (first_char tl).
Proof.
  unfold NLPService.skill_pattern, word_boundary. cbn [cat].
  change (run (Seq WordB (Seq (lit_ci (Py.lower skill)) WordB)) accept (cursor_at pre post) [])
    with (if xorb (is_word (last_char None pre)) (is_word (first_char post))
          then run (lit_ci (Py.lower skill)) (run WordB accept) (cursor_at pre post) []
          else None).
  destruct (xorb (is_word (last_char None pre)) (is_word (first_char post))).
  2: { split; [discriminate|]. intros [? _]. discriminate. }
  destruct (run (lit_ci (Py.lower skill)) (run WordB accept) (cursor_at pre post) [])
    as [o|] eqn:E.
  - split; [|done]. intros _. split; [done|].
    apply run_lit_ci in E as (mid & tl & R & L & H). rewrite lower_idem in L.
    exists mid, tl. split; [exact R|]. split; [exact L|].
    cbn [run] in H. rewrite last_char_app.
    match type of H with (if ?b then _ else _) = _ => destruct b eqn:B end; [|discriminate].
    exact B.
  - split; [discriminate|]. intros [_ (mid & tl & R & L & B)]. exfalso.
    assert (exists o, run (lit_ci (Py.lower skill)) (run WordB accept) (cursor_at pre post) []
                      = Some o) as [o Ho]; [|congruence].
    eexists. apply run_lit_ci. exists mid, tl. split; [exact R|].
    split; [by rewrite lower_idem|]. cbn [run].
    rewrite last_char_app in B.
    change (at_word_boundary _) with
      (xorb (is_word (last_char (last_char None pre) mid)) (is_word (first_char tl))).
    rewrite B. reflexivity.
Qed.

(** What [_is_skill_mentioned] decides: the skill occurs in the text, up
    to case, with a word boundary (in the sense of [\b]) on each side. *)
Lemma is_skill_mentioned_iff (text skill : string) :
  NLPService._is_skill_mentioned text skill = true <->
  exists pre mid post, text = pre +:+ mid +:+ post /\ Py.lower mid = Py.lower skill /\
    word_boundary (last_char None pre) (first_char (mid +:+ post)) /\
    word_boundary (last_char None (pre +:+ mid)) (first_char post).
Proof.
  unfold NLPService._is_skill_mentioned, search.
  rewrite (search_at_found (NLPService.skill_pattern skill) text ""). split.
  - intros (pre & post & -> & H). change ("" +:+ pre) with pre in H.
    apply run_skill_pattern in H as (B1 & mid & tl & -> & L & B2).
    exists pre, mid, tl. auto.
  - intros (pre & mid & post & -> & L & B1 & B2). exists pre, (mid +:+ post).
    split; [done|]. change ("" +:+ pre) with pre. apply run_skill_pattern.
    split; [exact B1|]. exists mid, post. auto.
Qed.

Lemma is_word_first_lower (s : string) :
  is_word (first_char (Py.lower s)) = is_word (first_char s).
Proof. destruct s as [|a s]; [done|]. apply isword_lower_char. Qed.

Lemma is_word_last_lower (s : string) : forall b,
  is_word (last_char b (Py.lower s)) = is_word (last_char b s).
Proof.
  induction s as [|a s IH]; intros b; [done|].
  change (Py.lower (String a s)) with (String (Py.lower_char a) (Py.lower s)).
  cbn [last_char]. rewrite IH. destruct s as [|a' s]; [|done].
  apply isword_lower_char.
Qed.

Lemma first_char_app (s t : string) :
  s <> "" -> first_char (s +:+ t) = first_char s.
Proof. destruct s; [done|]. reflexivity. Qed.

Lemma last_char_nonempty (s : string) b b' : s <> "" -> last_char b s = last_char b' s.
Proof. destruct s; [done|]. reflexivity. Qed.

(** X28: for an ASCII text and an ASCII skill that begins and ends with
    a word character, [_is_skill_mentioned] is whole-word matching: the
    skill occurs, up to case, with no word character just before it and
    none just after it. *)
Lemma is_skill_mentioned_whole_word (text skill : string) :
  Py.isascii text = true -> Py.isascii skill = true ->
  word_edged skill ->
  NLPService._is_skill_mentioned text skill = true <->
  exists pre mid post, text = pre +:+ mid +:+ post /\ Py.lower mid = Py.lower skill /\
    is_word (last_char None pre) = false /\ is_word (first_char post) = false.
Proof.
  intros _ _ [Hf Hl]. rewrite is_skill_mentioned_iff. unfold word_boundary.
  assert (Hne : forall mid, Py.lower mid = Py.lower skill -> mid <> "").
  { intros mid L ->. destruct skill; [discriminate Hf | discriminate L]. }
  assert (Hfirst : forall mid, Py.lower mid = Py.lower skill ->
                               is_word (first_char mid) = true).
  { intros mid L. by rewrite <- is_word_first_lower, L, is_word_first_lower. }
  assert (Hlast : forall mid b, Py.lower mid = Py.lower skill ->
                                is_word (last_char b mid) = true).
  { intros mid b L. rewrite <- is_word_last_lower, L, is_word_last_lower.
    rewrite (last_char_nonempty skill b None); [done|].
    intros ->. discriminate Hf. }
  split; intros (pre & mid & post & T & L & B1 & B2); exists pre, mid, post;
    (split; [exact T|]); (split; [exact L|]).
  - rewrite first_char_app, (Hfirst mid L) in B1 by auto.
    rewrite last_char_app, (Hlast mid _ L) in B2.
    split; [by destruct (is_word (last_char None pre)) | by destruct (is_word (first_char post))].
  - rewrite first_char_app, (Hfirst mid L), B1 by auto.
    rewrite last_char_app, (Hlast mid _ L), B2. done.
Qed.

End MatcherProperties.

(** ** Properties of the resume parser *)

Section ParserProperties.
Import CVParser.

Lemma lstrip_empty s : Py.lstrip s = "" <-> Spec.all_space s = true.
Proof.
  induction s as [|c s IH]; simpl; [done|].
  unfold Spec.all_space in *; simpl. destruct (Py.isspace_char c); simpl; [exact IH|].
  split; intros H; discriminate.
Qed.

Lemma rstrip_empty s : Py.rstrip s = "" <-> Spec.all_space s = true.
Proof.
  induction s as [|c s IH]; simpl; [done|].
  unfold Spec.all_space in *; simpl.
  destruct (Py.rstrip s) eqn:E.
  - destruct (Py.isspace_char c); simpl.
    + split; [intros _; by apply IH | done].
    + split; intros H; discriminate.
  - split; [discriminate|]. intros H. apply andb_true_iff in H as [_ H].
    apply IH in H. discriminate.
Qed.

Lemma all_space_rstrip s : Spec.all_space (Py.rstrip s) = true -> Spec.all_space s = true.
Proof.
  induction s as [|c s IH]; simpl; [done|].
  unfold Spec.all_space in *. simpl.
  destruct (Py.rstrip s) eqn:E.
  - assert (Hs : Py.forall_chars Py.isspace_char s = true) by (by apply rstrip_empty).
    rewrite Hs. destruct (Py.isspace_char c) eqn:Ec; simpl; [auto|].
    rewrite Ec. simpl. auto.
  - simpl. intros H. apply andb_true_iff in H as [Hc H]. rewrite Hc. simpl.
    apply IH. exact H.
Qed.

(** [s.strip()] is empty exactly when [s] is blank. *)
Lemma strip_empty s : Py.strip s = "" <-> Spec.all_space s = true.
Proof.
  unfold Py.strip. rewrite lstrip_empty. split.
  - apply all_space_rstrip.
  - intros H. apply rstrip_empty in H. by rewrite H.
Qed.

Lemma split_char_all_space sep s :
  Spec.all_space s = true -> Forall (fun l => Spec.all_space l = true) (Py.split_char sep s).
Proof.
  induction s as [|c s IH]; simpl; intros H.
  - by constructor.
  - unfold Spec.all_space in H. simpl in H. apply andb_true_iff in H as [Hc H].
    specialize (IH H). destruct (Py.char_eqb c sep).
    + constructor; [done|exact IH].
    + destruct (Py.split_char sep s) as [|w ws].
      * constructor; [|done]. unfold Spec.all_space. simpl. by rewrite Hc.
      * inversion IH; subst. constructor; [|done].
        unfold Spec.all_space in *. simpl. by rewrite Hc.
Qed.

(** A blank text has no non-blank line. *)
Lemma nonblank_lines_blank text :
  Py.strip text = "" -> nonblank_lines text = [].
Proof.
  intros H. apply strip_empty in H. unfold nonblank_lines.
  pose proof (split_char_all_space Re.newline text H) as HF.
  induction HF as [|l ls Hl _ IH]; simpl; [done|].
  apply strip_empty in Hl. rewrite Hl. simpl. exact IH.
Qed.

Lemma extract_text_unsupported env file_path :
  ~ Spec.supported (Py.lower (path_suffix env file_path)) ->
  _extract_text_from_file env file_path =
    Py.Raise (Py.ValueError ("Unsupported file format: " +:+ Py.lower (path_suffix env file_path))).
Proof.
  intros Hns. unfold _extract_text_from_file, Spec.supported in *.
  destruct (String.eqb_spec (Py.lower (path_suffix env file_path)) ".pdf") as [E|_];
    [tauto|].
  unfold Py.mem. simpl.
  destruct (String.eqb_spec (Py.lower (path_suffix env file_path)) ".doc") as [E|_];
    [tauto|].
  destruct (String.eqb_spec (Py.lower (path_suffix env file_path)) ".docx") as [E|_];
    [tauto|].
  reflexivity.
Qed.

(** [parse_cv_file] always returns: whatever is raised inside it is caught. *)
Lemma parse_cv_file_returns env file_path :
  exists r, parse_cv_file env file_path = Py.Return r.
Proof.
  unfold parse_cv_file.
  destruct (_extract_text_from_file env file_path) as [text|e]; simpl; [|eauto].
  destruct text as [|c text]; simpl; [eauto|].
  destruct (_parse_text_content env (String c text)); simpl; eauto.
Qed.

(** Without an exception the parsed fields are returned with the text and
    the status 'completed'. *)
Lemma parse_cv_file_completed env file_path text parsed_data :
  _extract_text_from_file env file_path = Py.Return text ->
  text <> "" ->
  _parse_text_content env text = Py.Return parsed_data ->
  parse_cv_file env file_path = Py.Return (completed_record parsed_data text).
Proof.
  unfold parse_cv_file. intros H Hne Hp. rewrite H. simpl.
  destruct text; [done|]. simpl. by rewrite Hp.
Qed.

Lemma parse_cv_file_failed env file_path e :
  Spec.raises_in_parse env file_path e ->
  parse_cv_file env file_path = Py.Return (failed_record (Py.exc_str e)).
Proof.
  unfold parse_cv_file. intros [H | H -> | text H Hne Hp]; rewrite H; simpl; try done.
  destruct text; [done|]. simpl. by rewrite Hp.
Qed.

End ParserProperties.

(** C1, as stated, fails: for the path [resume.txt], whose extension is
    not supported, [parse_cv_file] does not raise; it returns the record of
    a failed parse. *)
Lemma C1_txt_is_returned_not_raised :
  ~ Spec.supported (Py.lower (CVParser.path_suffix Samples.env "resume.txt")) /\
  CVParser.parse_cv_file Samples.env "resume.txt" =
    Py.Return (CVParser.failed_record "Unsupported file format: .txt") /\
  ~ exists e, CVParser.parse_cv_file Samples.env "resume.txt" = Py.Raise e.
Proof.
  split; [|split].
  - vm_compute. intros [H | [H | H]]; discriminate.
  - vm_compute. reflexivity.
  - intros [e H]. vm_compute in H. discriminate.
Qed.

(** C1 (amended): for every file whose extension is outside [.pdf],
    [.doc], [.docx], whatever its bytes, [_extract_text_from_file] raises
    the unsupported-format error ([ValueError]) and [parse_cv_file] catches
    it: the caller gets the record of a failed parse whose [parsing_error]
    is the message of that error. *)
Theorem C1_unsupported_format_is_caught (env : CVParser.Env) (file_path : string) :
  let file_extension := Py.lower (CVParser.path_suffix env file_path) in
  ~ Spec.supported file_extension ->
  CVParser._extract_text_from_file env file_path =
    Py.Raise (Py.ValueError ("Unsupported file format: " +:+ file_extension)) /\
  CVParser.parse_cv_file env file_path =
    Py.Return (CVParser.failed_record ("Unsupported file format: " +:+ file_extension)).
Proof.
  intros ext Hns. pose proof (extract_text_unsupported env file_path Hns) as H.
  split; [exact H|].
  apply (parse_cv_file_failed env file_path (Py.ValueError _)).
  by apply Spec.raises_in_extraction.
Qed.

Lemma C1_witness :
  CVParser.parse_cv_file Samples.env "resume.txt" =
    Py.Return (CVParser.failed_record "Unsupported file format: .txt").
Proof.
  refine (proj2 (C1_unsupported_format_is_caught Samples.env "resume.txt" _)).
  vm_compute. intros [H | [H | H]]; discriminate.
Defined.

(** C2: when an exception occurs during the extraction or the parsing,
    [parse_cv_file] returns (it does not raise) a record with
    [parsing_status = failed], [parsing_error] the text of the exception,
    an empty [raw_text] and every structured field empty. *)
Theorem C2_failure_is_a_failed_record
    (env : CVParser.Env) (file_path : string) (e : Py.exception) :
  Spec.raises_in_parse env file_path e ->
  exists r,
    CVParser.parse_cv_file env file_path = Py.Return r /\
    CVParser.parsing_status r = CVParser.failed /\
    CVParser.parsing_error r = Some (Py.exc_str e) /\
    CVParser.raw_text r = "" /\
    CVParser.personal_info r = CVParser.empty_info /\
    CVParser.education r = [] /\
    CVParser.work_experience r = [] /\
    CVParser.certifications r = [] /\
    CVParser.languages r = [] /\
    CVParser.technical (CVParser.skills r) = [] /\
    CVParser.soft (CVParser.skills r) = [] /\
    (CVParser.total_experience_years r == 0)%Q.
Proof.
  intros H. exists (CVParser.failed_record (Py.exc_str e)).
  split; [by apply parse_cv_file_failed|]. simpl. repeat split; reflexivity.
Qed.

Lemma C2_witness :
  exists r,
    CVParser.parse_cv_file Samples.env "uploads/broken.pdf" = Py.Return r /\
    CVParser.parsing_status r = CVParser.failed /\
    CVParser.parsing_error r = Some "EOF marker not found".
Proof.
  destruct (C2_failure_is_a_failed_record Samples.env "uploads/broken.pdf"
              (Py.Exception "PdfReadError" "EOF marker not found"))
    as (r & Hr & Hs & He & _).
  - apply Spec.raises_in_extraction. vm_compute. reflexivity.
  - exists r. auto.
Defined.

(** C5 fails on the code: the year pattern [\b(19|20)\d{2}\b] has a group,
    so [re.findall] reports the century prefix of each year and not the
    year.  For a text whose only dates are 2015 and 2020 the code computes
    0.0 (the span of [20, 20]), where the claim gives 5. *)
Theorem C5_year_span_is_computed_on_prefixes :
  CVParser._extract_all_years "Software Engineer 2015 - 2020" = [20%Z; 20%Z] /\
  (CVParser._calculate_experience_years "Software Engineer 2015 - 2020" == 0)%Q /\
  (CVParser._calculate_experience_years "Started in 1999, left in 2020" == 1)%Q /\
  (CVParser._calculate_experience_years "5 years of experience, then 12+ years experience" == 12)%Q.
Proof. vm_compute. repeat split; reflexivity. Qed.

(** C7 fails on the code: the two examples of the claim hold, but the
    pattern [\bskill\b] is not a whole-word test for a skill that ends with
    a character outside [\w].  The taxonomy skill "c++" is not found where
    it stands as a complete token (the skill "c" is reported instead), and
    it is found inside the longer token "c++x". *)
Theorem C7_word_boundaries_are_not_whole_words :
  NLPService._is_skill_mentioned "I know javascript well" "java" = false /\
  NLPService._is_skill_mentioned "I use Java daily" "java" = true /\
  In "c++" NLPService.all_technical_skills /\
  NLPService._is_skill_mentioned "I know C++ well" "c++" = false /\
  CVParser.technical (CVParser._extract_skills "I know C++ well") = ["c"] /\
  NLPService._is_skill_mentioned "I know c++x well" "c++" = true.
Proof. vm_compute. repeat split; try reflexivity. auto 10. Qed.

(** C10, as stated, fails: the lines are scanned in order and the first
    one that looks like a name wins.  With "John Doe" on the first line the
    result is "John Doe", although the second non-blank line is
    "Name: Jane Smith" and no entity recognizer is available. *)
Lemma C10_first_line_wins :
  CVParser.name_from_ner Samples.env Samples.cv_with_two_names = None /\
  CVParser.nonblank_lines Samples.cv_with_two_names = ["John Doe"; "Name: Jane Smith"] /\
  CVParser.extract_candidate_name Samples.env Samples.cv_with_two_names = "John Doe" /\
  CVParser.extract_candidate_name Samples.env Samples.cv_with_two_names <> "Jane Smith".
Proof. vm_compute. repeat split; try reflexivity. discriminate. Qed.

(** C10 (amended): when the entity recognition gives no name, the second
    non-blank line is "Name: Jane Smith" and the first non-blank line is
    passed over by the line scan (a section header such as "Curriculum
    Vitae", for instance), [extract_candidate_name] returns "Jane Smith":
    the label of a "Label: Value" line that contains "name" is dropped and
    the value is kept. *)
Theorem C10_labelled_name_on_second_line
    (env : CVParser.Env) (text first_line : string) (rest : list string) :
  CVParser.name_from_ner env text = None ->
  CVParser.nonblank_lines text = first_line :: "Name: Jane Smith" :: rest ->
  CVParser.name_from_line first_line = None ->
  CVParser.extract_candidate_name env text = "Jane Smith".
Proof.
  intros Hner Hlines Hfirst. unfold CVParser.extract_candidate_name.
  destruct (Py.strip text) eqn:Hstrip.
  - apply nonblank_lines_blank in Hstrip. congruence.
  - rewrite Hner, Hlines. cbn [take CVParser.first_name]. rewrite Hfirst.
    reflexivity.
Qed.

Lemma C10_witness :
  CVParser.name_from_ner Samples.env Samples.cv_with_header = None /\
  CVParser.nonblank_lines Samples.cv_with_header =
    ["Curriculum Vitae"; "Name: Jane Smith"; "Python developer"] /\
  CVParser.name_from_line "Curriculum Vitae" = None /\
  CVParser.extract_candidate_name Samples.env Samples.cv_with_header = "Jane Smith".
Proof.
  split; [vm_compute; reflexivity|].
  split; [vm_compute; reflexivity|].
  split; [vm_compute; reflexivity|].
  apply (C10_labelled_name_on_second_line Samples.env Samples.cv_with_header
           "Curriculum Vitae" ["Python developer"]); vm_compute; reflexivity.
Defined.

(** ** Properties of the job-requirement parser *)

(** A skill of the taxonomy is classified once: it is never extracted both
    as required and as preferred. *)
Lemma technical_skills_classified_once (text skill : string) :
  In skill (NLPService._extract_technical_skills text true) ->
  ~ In skill (NLPService._extract_technical_skills text false).
Proof.
  unfold NLPService._extract_technical_skills. rewrite !filter_In.
  intros [_ H1] [_ H2].
  destruct (NLPService._is_skill_mentioned text skill); [|discriminate].
  cbn [andb negb orb] in *.
  destruct (NLPService._is_skill_required (NLPService._get_skill_context text skill));
    discriminate.
Qed.

Lemma parse_required_skills (job_description : string) :
  NLPService.required_skills (NLPService.parse_job_requirements job_description) =
    remove_dups (NLPService._extract_technical_skills (Py.lower job_description) true).
Proof.
  unfold NLPService.parse_job_requirements.
  destruct (NLPService._extract_experience_years (Py.lower job_description)).
  cbn [NLPService.required_skills]. reflexivity.
Qed.

Lemma parse_preferred_skills (job_description : string) :
  NLPService.preferred_skills (NLPService.parse_job_requirements job_description) =
    list_difference
      (remove_dups (NLPService._extract_technical_skills (Py.lower job_description) false))
      (remove_dups (NLPService._extract_technical_skills (Py.lower job_description) true)).
Proof.
  unfold NLPService.parse_job_requirements.
  destruct (NLPService._extract_experience_years (Py.lower job_description)).
  cbn [NLPService.preferred_skills]. reflexivity.
Qed.

(** C6: the required and the preferred skills of a parsed job description
    have no skill in common. *)
Theorem C6_required_and_preferred_are_disjoint (job_description : string) :
  let r := NLPService.parse_job_requirements job_description in
  (list_to_set (NLPService.required_skills r) : gset string)
    ∩ list_to_set (NLPService.preferred_skills r) = ∅.
Proof.
  intros r. subst r. rewrite parse_required_skills, parse_preferred_skills.
  apply set_eq. intros s.
  rewrite elem_of_intersection, !elem_of_list_to_set, list_elem_of_difference.
  rewrite elem_of_empty. tauto.
Qed.

(** Both lists can be populated: the property is not about empty lists. *)
Example parse_job_requirements_sample :
  let r := NLPService.parse_job_requirements
             ("Python is required." +:+ Samples.nl +:+ "Docker would be a plus.") in
  NLPService.required_skills r = ["python"] /\ NLPService.preferred_skills r = ["docker"].
Proof. vm_compute. split; reflexivity. Qed.

(** ** Properties of the scoring engine *)

Section ScoringProperties.
Import CVAnalyzer.

Lemma filter_NoDup {A} (p : A -> bool) (l : list A) :
  NoDup l -> NoDup (List.filter p l).
Proof. rewrite !NoDup_ListNoDup. apply List.NoDup_filter. Qed.

Lemma length_remove_dups_app (l1 l2 : list string) :
  length (remove_dups (l1 ++ l2)) = size (list_to_set l1 ∪ list_to_set l2 : gset string).
Proof.
  rewrite <- list_to_set_app_L.
  rewrite <- (size_list_to_set (C := gset string) (remove_dups (l1 ++ l2)))
    by apply NoDup_remove_dups.
  f_equal. apply set_eq. intros x. rewrite !elem_of_list_to_set.
  apply elem_of_remove_dups.
Qed.

Lemma job_keywords_NoDup (d : string) : NoDup (_extract_job_keywords d).
Proof. unfold _extract_job_keywords. apply NoDup_remove_dups. Qed.

Lemma skill_score_formula ci jr :
  skill_score (_analyze_skills_match ci jr) =
    if (Spec.job_terms jr =? 0)%nat then 30%Q
    else Spec.skill_formula (size (Spec.keyword_matches ci jr ∪ Spec.taxonomy_matches ci jr))
                            (Spec.job_terms jr) (size (Spec.keyword_matches ci jr)).
Proof.
  unfold _analyze_skills_match, Spec.job_terms, Spec.skill_formula,
    Spec.keyword_matches, Spec.taxonomy_matches. cbn [skill_score].
  rewrite !length_map, map_app, length_remove_dups_app.
  rewrite (size_list_to_set (C := gset string) (List.filter _ (_extract_job_keywords _)))
    by (apply filter_NoDup, job_keywords_NoDup).
  destruct (Nat.eqb_spec
    (length (_extract_job_keywords (Py.lower (description jr)))
     + length (required_skills jr) + length (preferred_skills jr)) 0) as [E|E];
    [reflexivity|].
  rewrite Nat.max_l by lia. reflexivity.
Qed.

End ScoringProperties.

(** C3: the skill sub-score is 30 when the job has no term at all, and
    otherwise [min(100, match_rate*60 + min(30, keyword_match_count*2) + 15)]
    with [match_rate] the size of the union of the keyword matches and of
    the taxonomy-skill matches over the number of job terms (mined
    keywords, required skills and preferred skills). *)
Theorem C3_skill_score
    (ci : CVAnalyzer.CandidateInfo) (jr : CVAnalyzer.JobRequirements) :
  let score := CVAnalyzer.skill_score (CVAnalyzer._analyze_skills_match ci jr) in
  let matches := Spec.keyword_matches ci jr ∪ Spec.taxonomy_matches ci jr in
  let keyword_match_count := size (Spec.keyword_matches ci jr) in
  let total_job_terms := Spec.job_terms jr in
  (total_job_terms = 0%nat -> score == 30)%Q /\
  (total_job_terms <> 0%nat ->
   score == CVAnalyzer.Qmin 100
              (CVAnalyzer.Qnat (size matches) / CVAnalyzer.Qnat total_job_terms * 60
               + CVAnalyzer.Qmin 30 (CVAnalyzer.Qnat keyword_match_count * 2) + 15))%Q.
Proof.
  intros score matches keyword_match_count total_job_terms.
  subst score. rewrite skill_score_formula. fold total_job_terms.
  split; intros H.
  - rewrite H. reflexivity.
  - destruct (Nat.eqb_spec total_job_terms 0); [done|]. reflexivity.
Qed.

Lemma C3_witness :
  Spec.job_terms Samples.developer_job <> 0%nat /\
  Spec.job_terms (Samples.job "" [] [] 0 None) = 0%nat /\
  (CVAnalyzer.skill_score
     (CVAnalyzer._analyze_skills_match Samples.jane Samples.developer_job)
   == 313 # 7)%Q /\
  (CVAnalyzer.skill_score
     (CVAnalyzer._analyze_skills_match Samples.jane (Samples.job "" [] [] 0 None))
   == 30)%Q.
Proof.
  split; [vm_compute; discriminate|].
  split; [vm_compute; reflexivity|].
  split.
  - rewrite (proj2 (C3_skill_score Samples.jane Samples.developer_job))
      by (vm_compute; discriminate).
    vm_compute. reflexivity.
  - apply (proj1 (C3_skill_score Samples.jane (Samples.job "" [] [] 0 None))).
    vm_compute. reflexivity.
Defined.

(** C4, as stated, fails: a maximum of 0 years counts as no maximum.  A
    candidate with 2 years, for a job that asks for 1 to 0 years, is at or
    above the minimum and above the maximum, and scores 100, not 85. *)
Lemma C4_zero_maximum_is_ignored :
  let ci := Samples.candidate_info "" [] 2 in
  let jr := Samples.job "" [] [] 1 (Some 0%Z) in
  let score := CVAnalyzer.experience_score (CVAnalyzer._analyze_experience_match ci jr) in
  (inject_Z 1 <= 2)%Q /\ (inject_Z 0 < 2)%Q /\ (score == 100)%Q /\ ~ (score == 85)%Q.
Proof. vm_compute. repeat split; try discriminate. Qed.

(** C4 (amended): for a job whose minimum is not negative, the experience
    sub-score is 40 when the minimum is 0; otherwise 100 when the candidate
    reaches the minimum and the maximum is unset, zero, or not exceeded; 85
    when the candidate reaches the minimum and exceeds a non-zero maximum;
    and [max(40, (candidate_years / min_required) * 80)] when the candidate
    is below the minimum.  With a minimum of 5 and no maximum, 5.0 years
    score 100 and 4.99 years score 79.84. *)
Theorem C4_experience_policy :
  (forall (ci : CVAnalyzer.CandidateInfo) (jr : CVAnalyzer.JobRequirements),
     let candidate_years := CVAnalyzer.total_experience_years ci in
     let min_required := CVAnalyzer.min_experience_years jr in
     let max_required := CVAnalyzer.max_experience_years jr in
     let score := CVAnalyzer.experience_score (CVAnalyzer._analyze_experience_match ci jr) in
     (0 <= min_required)%Z ->
     (min_required = 0%Z -> score == 40)%Q /\
     (min_required <> 0%Z -> (inject_Z min_required <= candidate_years)%Q ->
      (max_required = None \/ max_required = Some 0%Z \/
       exists m, max_required = Some m /\ (candidate_years <= inject_Z m)%Q) ->
      score == 100)%Q /\
     (min_required <> 0%Z -> (inject_Z min_required <= candidate_years)%Q ->
      (exists m, max_required = Some m /\ m <> 0%Z /\ (inject_Z m < candidate_years)%Q) ->
      score == 85)%Q /\
     (min_required <> 0%Z -> (candidate_years < inject_Z min_required)%Q ->
      score == CVAnalyzer.Qmax 40 (candidate_years / inject_Z min_required * 80))%Q) /\
  (CVAnalyzer.experience_score
     (CVAnalyzer._analyze_experience_match
        (Samples.candidate_info "" [] 5) (Samples.job "" [] [] 5 None))
   == 100)%Q /\
  (CVAnalyzer.experience_score
     (CVAnalyzer._analyze_experience_match
        (Samples.candidate_info "" [] (499 # 100)) (Samples.job "" [] [] 5 None))
   == 7984 # 100)%Q.
Proof.
  split; [|split; vm_compute; reflexivity].
  intros ci jr candidate_years min_required max_required score Hmin.
  subst score. unfold CVAnalyzer._analyze_experience_match.
  cbn [CVAnalyzer.experience_score].
  fold candidate_years min_required max_required.
  destruct (Z.eqb_spec min_required 0) as [E0|E0].
  { repeat split; intros; try reflexivity; contradiction. }
  assert (Hpos : (0 <? min_required)%Z = true) by (apply Z.ltb_lt; lia).
  rewrite Hpos.
  destruct (Qle_bool (inject_Z min_required) candidate_years) eqn:Hle.
  - apply Qle_bool_iff in Hle.
    repeat split; try contradiction.
    + intros _ _ Hmax. unfold CVAnalyzer.over_maximum.
      destruct Hmax as [-> | [-> | (m & -> & Hm)]]; [reflexivity | reflexivity |].
      apply Qle_bool_iff in Hm. rewrite Hm, andb_false_r. reflexivity.
    + intros _ _ (m & -> & Hm0 & Hm). unfold CVAnalyzer.over_maximum.
      destruct (Z.eqb_spec m 0); [contradiction|].
      destruct (Qle_bool candidate_years (inject_Z m)) eqn:Hb.
      * apply Qle_bool_iff in Hb. exfalso. apply (Qlt_not_le _ _ Hm Hb).
      * reflexivity.
    + intros _ Hlt. exfalso. apply (Qlt_not_le _ _ Hlt Hle).
  - assert (Hnle : ~ (inject_Z min_required <= candidate_years)%Q).
    { intros H. apply Qle_bool_iff in H. congruence. }
    repeat split; try contradiction; intros; try reflexivity; contradiction.
Qed.

Lemma C4_witness :
  let ci := Samples.candidate_info "" [] 7 in
  let jr := Samples.job "" [] [] 5 (Some 6%Z) in
  (0 <= CVAnalyzer.min_experience_years jr)%Z /\
  (CVAnalyzer.experience_score (CVAnalyzer._analyze_experience_match ci jr) == 85)%Q.
Proof.
  split; [vm_compute; discriminate|].
  refine (proj1 (proj2 (proj2 (proj1 C4_experience_policy
            (Samples.candidate_info "" [] 7)
            (Samples.job "" [] [] 5 (Some 6%Z)) _))) _ _ _).
  - vm_compute; discriminate.
  - vm_compute; discriminate.
  - vm_compute; discriminate.
  - exists 6%Z. split; [reflexivity|]. split; [discriminate|]. vm_compute. reflexivity.
Defined.

(** ** Properties of the batch analysis and of the statistics *)

Section BatchProperties.
Import CVAnalyzer.

Lemma fold_left_snoc {A B} (f : A -> B) (l : list A) (acc : list B) :
  fold_left (fun results x => (results ++ [f x])%list) l acc = (acc ++ map f l)%list.
Proof.
  revert acc. induction l as [|x l IH]; intros acc; simpl.
  - by rewrite app_nil_r.
  - rewrite IH, <- app_assoc. reflexivity.
Qed.

(** The loop builds one result per candidate, in order. *)
Lemma analyze_candidates_for_job_map analyze ptime candidates job_posting analyzed_by cw :
  analyze_candidates_for_job analyze ptime candidates job_posting analyzed_by cw =
    map (analyze_one analyze ptime job_posting (effective_weights cw)) candidates.
Proof.
  unfold analyze_candidates_for_job.
  apply (fold_left_snoc (analyze_one analyze ptime job_posting (effective_weights cw))).
Qed.

End BatchProperties.

(** C9: a batch of N candidates gives N results, in the order of the
    candidates.  A candidate whose analysis raises gets a result with
    [overall_score = 0], [match_status = 'rejected'] and the text of the
    error in [ai_summary]; the other candidates get the result of their
    analysis. *)
Theorem C9_batch_never_aborts
    (analyze : CVAnalyzer.Candidate -> CVAnalyzer.JobPosting -> CVAnalyzer.Weights ->
               Py.result CVAnalyzer.Analysis)
    (ptime : CVAnalyzer.Candidate -> Z)
    (candidates : list CVAnalyzer.Candidate) (job_posting : CVAnalyzer.JobPosting)
    (analyzed_by : Z) (custom_weights : option CVAnalyzer.Weights) :
  let results :=
    CVAnalyzer.analyze_candidates_for_job analyze ptime candidates job_posting analyzed_by
                                          custom_weights in
  let weights := CVAnalyzer.effective_weights custom_weights in
  length results = length candidates /\
  forall (i : nat) (candidate : CVAnalyzer.Candidate),
    candidates !! i = Some candidate ->
    exists r,
      results !! i = Some r /\
      CVAnalyzer.candidate_id r = CVAnalyzer.c_id candidate /\
      CVAnalyzer.job_posting_id r = CVAnalyzer.jp_id job_posting /\
      match analyze candidate job_posting weights with
      | Py.Raise e =>
          (CVAnalyzer.overall_score r == 0)%Q /\
          CVAnalyzer.match_status r = "rejected" /\
          CVAnalyzer.ai_summary r = Some ("Analysis failed: " +:+ Py.exc_str e)
      | Py.Return analysis =>
          CVAnalyzer.overall_score r = CVAnalyzer.a_overall_score analysis /\
          CVAnalyzer.match_status r = CVAnalyzer.a_match_status analysis /\
          CVAnalyzer.ai_summary r = Some (CVAnalyzer.a_ai_summary analysis)
      end.
Proof.
  intros results weights. subst results.
  rewrite analyze_candidates_for_job_map. fold weights.
  split; [apply length_map|].
  intros i candidate Hi.
  exists (CVAnalyzer.analyze_one analyze ptime job_posting weights candidate).
  split; [by rewrite list_lookup_fmap, Hi|].
  unfold CVAnalyzer.analyze_one.
  destruct (analyze candidate job_posting weights) as [analysis|e];
    cbn; repeat split; reflexivity.
Qed.

Lemma C9_witness :
  let candidates :=
    [Samples.candidate 1; Samples.candidate 2; Samples.candidate 3] in
  let results :=
    CVAnalyzer.analyze_candidates_for_job Samples.analyze (fun _ => 12%Z) candidates
      Samples.posting 1 None in
  candidates !! 1%nat = Some (Samples.candidate 2) /\
  length results = 3%nat /\
  exists r, results !! 1%nat = Some r /\
            CVAnalyzer.match_status r = "rejected" /\
            CVAnalyzer.ai_summary r =
              Some "Analysis failed: 'NoneType' object is not iterable".
Proof.
  intros candidates results.
  split; [reflexivity|].
  pose proof (C9_batch_never_aborts Samples.analyze (fun _ => 12%Z) candidates
                Samples.posting 1 None) as [Hlen Hat].
  split; [exact Hlen|].
  destruct (Hat 1%nat (Samples.candidate 2) eq_refl) as (r & Hr & _ & _ & Hres).
  exists r. split; [exact Hr|]. cbn in Hres. tauto.
Defined.

(** ** The average of the statistics on floats *)

Section RoundingProperties.
Import CVAnalyzer Binary64.
Local Open Scope Q_scope.








End RoundingProperties.

Section RoundingError.
Import CVAnalyzer Binary64.
Local Open Scope Q_scope.







End RoundingError.

Section SummationError.
Import CVAnalyzer Binary64.
Local Open Scope Q_scope.









End SummationError.

Section CompensatedError.
Import CVAnalyzer Binary64.
Local Open Scope Q_scope.


End CompensatedError.

Section AverageError.
Import CVAnalyzer Binary64.
Local Open Scope Q_scope.







End AverageError.

Section StatisticsOnFloats.
Import CVAnalyzer Binary64.
Local Open Scope Q_scope.





(** The counts do not depend on the arithmetic. *)
Lemma statistics_counts_on_floats (algorithm : summation)
    (analyses : list CVAnalysisCreate) :
  let exact := CVAnalyzer.get_analysis_statistics analyses in
  let floats := CVAnalyzer64.get_analysis_statistics algorithm analyses in
  CVAnalyzer64.total floats = CVAnalyzer.total exact /\
  CVAnalyzer64.shortlisted floats = CVAnalyzer.shortlisted exact /\
  CVAnalyzer64.rejected floats = CVAnalyzer.rejected exact.
Proof. by destruct analyses. Qed.

End StatisticsOnFloats.




Example statistics_sample :
  let stats := CVAnalyzer.get_analysis_statistics
                 [Samples.result "shortlisted" (7225 # 100);
                  Samples.result "rejected" (3110 # 100);
                  Samples.result "shortlisted" 60] in
  CVAnalyzer.total stats = 3%nat /\ CVAnalyzer.shortlisted stats = 2%nat /\
  CVAnalyzer.rejected stats = 1%nat /\
  exists q, CVAnalyzer.average_score stats = Some q /\ (q == 5445 # 100)%Q.
Proof.
  vm_compute. repeat split. eexists. split; [reflexivity|]. reflexivity.
Qed.

(** On the scores 72.25 and 31.1 the average is 51.67 with either
    algorithm, although the mean of the two floats is just above 51.675. *)
Example statistics_on_floats :
  let analyses := [Samples.result "shortlisted" (7225 # 100);
                   Samples.result "rejected" (Binary64.round (311 # 10))] in
  forall algorithm,
  exists q,
    CVAnalyzer64.average_score (CVAnalyzer64.get_analysis_statistics algorithm analyses)
    = Some (Binary64.Finite q) /\
    (q == Binary64.round (5167 # 100))%Q /\
    (CVAnalyzer.round2 (Spec.mean (map CVAnalyzer.overall_score analyses)) == 5168 # 100)%Q.
Proof.
  intros analyses [|]; vm_compute; (eexists; split; [reflexivity|]); split; reflexivity.
Qed.

(** On 0.1, 0.2 and 0.075 the two algorithms of [sum] differ in the last
    bit of the sum, and the averages are 0.13 and 0.12. *)
Example statistics_depend_on_the_summation :
  let analyses := map (fun x => Samples.result "rejected" (Binary64.round x))
                      [1 # 10; 2 # 10; 75 # 1000]%Q in
  (exists q, CVAnalyzer64.average_score
               (CVAnalyzer64.get_analysis_statistics Binary64.Sequential analyses)
             = Some (Binary64.Finite q) /\ (q == Binary64.round (13 # 100))%Q) /\
  (exists q, CVAnalyzer64.average_score
               (CVAnalyzer64.get_analysis_statistics Binary64.Compensated analyses)
             = Some (Binary64.Finite q) /\ (q == Binary64.round (12 # 100))%Q).
Proof.
  intros analyses. split; vm_compute; (eexists; split; [reflexivity|]); reflexivity.
Qed.

(** * Further properties

    Properties of the code beyond the claims of the specification. *)

(** ** The experience score *)

Section ScoreBounds.
Import CVAnalyzer.

Lemma Qmin_le_l (a b : Q) : (Qmin a b <= a)%Q.
Proof.
  unfold Qmin. destruct (Qle_bool a b) eqn:E; [apply Qle_refl|].
  destruct (Qlt_le_dec b a) as [H|H]; [by apply Qlt_le_weak|].
  apply Qle_bool_iff in H. congruence.
Qed.

Lemma Qmin_le_r (a b : Q) : (Qmin a b <= b)%Q.
Proof.
  unfold Qmin. destruct (Qle_bool a b) eqn:E; [by apply Qle_bool_iff | apply Qle_refl].
Qed.

Lemma Qmin_glb (a b c : Q) : (c <= a)%Q -> (c <= b)%Q -> (c <= Qmin a b)%Q.
Proof. unfold Qmin. by destruct (Qle_bool a b). Qed.

Lemma Qmax_ge_l (a b : Q) : (a <= Qmax a b)%Q.
Proof.
  unfold Qmax. destruct (Qle_bool b a) eqn:E; [apply Qle_refl|].
  destruct (Qlt_le_dec a b) as [H|H]; [by apply Qlt_le_weak|].
  apply Qle_bool_iff in H. congruence.
Qed.

Lemma Qmax_lub (a b c : Q) : (a <= c)%Q -> (b <= c)%Q -> (Qmax a b <= c)%Q.
Proof. unfold Qmax. by destruct (Qle_bool b a). Qed.

Lemma Qmax_lt (a b c : Q) : (a < c)%Q -> (b < c)%Q -> (Qmax a b < c)%Q.
Proof. unfold Qmax. by destruct (Qle_bool b a). Qed.

Lemma Qnat_nonneg (n : nat) : (0 <= Qnat n)%Q.
Proof. unfold Qnat. change 0%Q with (inject_Z 0). rewrite <- Zle_Qle. lia. Qed.

Lemma Qnat_pos (n : nat) : n <> 0%nat -> (0 < Qnat n)%Q.
Proof. intros H. unfold Qnat. change 0%Q with (inject_Z 0). rewrite <- Zlt_Qlt. lia. Qed.

Lemma Qnat_le (n m : nat) : (n <= m)%nat -> (Qnat n <= Qnat m)%Q.
Proof. intros H. unfold Qnat. rewrite <- Zle_Qle. lia. Qed.

(** Below the minimum, the partial credit stays under 80. *)
Lemma partial_credit_lt_80 (y m : Q) : (0 < m)%Q -> (y < m)%Q -> (y / m * 80 < 80)%Q.
Proof.
  intros Hm Hy. assert (H : (y / m < 1)%Q) by (apply Qlt_shift_div_r; [done | lra]).
  revert H. generalize (y / m)%Q. intros t H. lra.
Qed.

Lemma experience_score_cases ci jr :
  let score := experience_score (_analyze_experience_match ci jr) in
  let meets := meets_minimum (experience_details (_analyze_experience_match ci jr)) in
  (min_experience_years jr = 0%Z /\ score == 40)%Q \/
  (min_experience_years jr <> 0%Z /\ meets = true /\ (score == 85 \/ score == 100))%Q \/
  (min_experience_years jr <> 0%Z /\ meets = false /\ 40 <= score /\ score < 80)%Q.
Proof.
  unfold _analyze_experience_match. cbn [experience_score experience_details meets_minimum].
  set (y := total_experience_years ci). set (m := min_experience_years jr).
  destruct (Z.eqb_spec m 0) as [E|E]; [left; split; [done|reflexivity]|]. right.
  destruct (Qle_bool (inject_Z m) y) eqn:Hle.
  - left. split; [done|]. split; [done|].
    destruct (over_maximum y (max_experience_years jr)); [left | right]; reflexivity.
  - right. split; [done|]. split; [done|].
    assert (Hlt : (y < inject_Z m)%Q).
    { destruct (Qlt_le_dec y (inject_Z m)) as [H|H]; [done|].
      apply Qle_bool_iff in H. congruence. }
    destruct (Z.ltb_spec 0 m) as [Hp|Hp].
    + split; [apply Qmax_ge_l|]. apply Qmax_lt; [reflexivity|].
      apply partial_credit_lt_80; [|done]. change 0%Q with (inject_Z 0).
      by rewrite <- Zlt_Qlt.
    + split; [discriminate | reflexivity].
Qed.

End ScoreBounds.

(** The experience sub-score is always between 40 and 100. *)
Lemma experience_score_range
    (ci : CVAnalyzer.CandidateInfo) (jr : CVAnalyzer.JobRequirements) :
  (40 <= CVAnalyzer.experience_score (CVAnalyzer._analyze_experience_match ci jr) <= 100)%Q.
Proof.
  destruct (experience_score_cases ci jr) as [[_ H] | [(_ & _ & [H | H]) | (_ & _ & H1 & H2)]];
    cbn zeta in *; try (rewrite H; split; discriminate).
  split; [exact H1|]. apply Qlt_le_weak. eapply Qlt_trans; [exact H2|reflexivity].
Qed.

(** X1: when the job states a minimum, the candidate meets it exactly when
    the experience sub-score is at least 85; below the minimum the score
    stays under 80. *)
Theorem experience_score_separates
    (ci : CVAnalyzer.CandidateInfo) (jr : CVAnalyzer.JobRequirements) :
  CVAnalyzer.min_experience_years jr <> 0%Z ->
  let a := CVAnalyzer._analyze_experience_match ci jr in
  (CVAnalyzer.meets_minimum (CVAnalyzer.experience_details a) = true ->
   (85 <= CVAnalyzer.experience_score a)%Q) /\
  (CVAnalyzer.meets_minimum (CVAnalyzer.experience_details a) = false ->
   (CVAnalyzer.experience_score a < 80)%Q).
Proof.
  intros Hm a. subst a.
  destruct (experience_score_cases ci jr) as [[E _] | [(_ & M & H) | (_ & M & _ & H2)]];
    cbn zeta in *; [contradiction | |].
  - split; [intros _ | congruence]. destruct H as [H | H]; rewrite H; discriminate.
  - split; [congruence | intros _; exact H2].
Qed.

Lemma experience_score_separates_witness :
  CVAnalyzer.min_experience_years Samples.developer_job <> 0%Z /\
  CVAnalyzer.meets_minimum (CVAnalyzer.experience_details
    (CVAnalyzer._analyze_experience_match Samples.jane Samples.developer_job)) = true /\
  (85 <= CVAnalyzer.experience_score
           (CVAnalyzer._analyze_experience_match Samples.jane Samples.developer_job))%Q.
Proof.
  assert (H : CVAnalyzer.min_experience_years Samples.developer_job <> 0%Z) by discriminate.
  assert (M : CVAnalyzer.meets_minimum (CVAnalyzer.experience_details
                (CVAnalyzer._analyze_experience_match Samples.jane Samples.developer_job))
              = true) by (vm_compute; reflexivity).
  split; [exact H|]. split; [exact M|].
  exact (proj1 (experience_score_separates Samples.jane Samples.developer_job H) M).
Defined.

(** ** The skill score *)

Section SkillScore.
Import CVAnalyzer.

Lemma Qdiv_nonneg (a b : Q) : (0 <= a)%Q -> (0 <= b)%Q -> (0 <= a / b)%Q.
Proof. intros Ha Hb. apply Qmult_le_0_compat; [done | by apply Qinv_le_0_compat]. Qed.

Lemma Qdiv_le_compat (a a' b : Q) : (0 <= b)%Q -> (a <= a')%Q -> (a / b <= a' / b)%Q.
Proof. intros Hb Ha. apply Qmult_le_compat_r; [done | by apply Qinv_le_0_compat]. Qed.

Lemma Qmin_mono_r (a b b' : Q) : (b <= b')%Q -> (Qmin a b <= Qmin a b')%Q.
Proof.
  intros H. apply Qmin_glb; [apply Qmin_le_l|].
  eapply Qle_trans; [apply Qmin_le_r | exact H].
Qed.

Lemma skill_formula_bounds (matches terms kw : nat) :
  (15 <= Spec.skill_formula matches terms kw <= 100)%Q.
Proof.
  unfold Spec.skill_formula. split; [|apply Qmin_le_l].
  apply Qmin_glb; [discriminate|].
  pose proof (Qdiv_nonneg _ _ (Qnat_nonneg matches) (Qnat_nonneg terms)) as H1.
  assert (H2 : (0 <= Qmin 30 (Qnat kw * 2))%Q).
  { apply Qmin_glb; [discriminate|]. pose proof (Qnat_nonneg kw). lra. }
  revert H1 H2. generalize (Qnat matches / Qnat terms)%Q (Qmin 30 (Qnat kw * 2)).
  intros r b H1 H2. lra.
Qed.

Lemma skill_formula_mono (m m' terms kw : nat) :
  (m <= m')%nat -> (Spec.skill_formula m terms kw <= Spec.skill_formula m' terms kw)%Q.
Proof.
  intros H. unfold Spec.skill_formula. apply Qmin_mono_r.
  pose proof (Qdiv_le_compat _ _ (Qnat terms) (Qnat_nonneg terms) (Qnat_le m m' H)) as H1.
  revert H1. generalize (Qnat m / Qnat terms)%Q (Qnat m' / Qnat terms)%Q
                        (Qmin 30 (Qnat kw * 2)).
  intros r r' b H1. lra.
Qed.

Lemma mem_iff (x : string) (l : list string) : Py.mem x l = true <-> x ∈ l.
Proof.
  unfold Py.mem. rewrite existsb_exists, list_elem_of_In. split.
  - intros (y & Hy & E). apply String.eqb_eq in E. by subst.
  - intros H. exists x. split; [done | apply String.eqb_refl].
Qed.

Lemma elem_of_list_filter_bool {A} (p : A -> bool) (l : list A) (x : A) :
  x ∈ List.filter p l <-> x ∈ l /\ p x = true.
Proof. rewrite !list_elem_of_In. apply filter_In. Qed.

End SkillScore.

(** The skill sub-score is always between 15 and 100. *)
Lemma skill_score_range
    (ci : CVAnalyzer.CandidateInfo) (jr : CVAnalyzer.JobRequirements) :
  (15 <= CVAnalyzer.skill_score (CVAnalyzer._analyze_skills_match ci jr) <= 100)%Q.
Proof.
  rewrite skill_score_formula.
  destruct (Spec.job_terms jr =? 0)%nat; [split; discriminate | apply skill_formula_bounds].
Qed.

(** X2: for one job and one resume text, a candidate who lists every
    technical skill of another candidate, and maybe more, gets a skill
    sub-score that is at least as high. *)
Theorem skill_score_monotone
    (a b : CVAnalyzer.CandidateInfo) (jr : CVAnalyzer.JobRequirements) :
  CVAnalyzer.raw_text a = CVAnalyzer.raw_text b ->
  (forall skill, skill ∈ CVAnalyzer.technical_skills b ->
                 skill ∈ CVAnalyzer.technical_skills a) ->
  (CVAnalyzer.skill_score (CVAnalyzer._analyze_skills_match b jr)
   <= CVAnalyzer.skill_score (CVAnalyzer._analyze_skills_match a jr))%Q.
Proof.
  intros Htext Hsub. rewrite !skill_score_formula.
  destruct (Spec.job_terms jr =? 0)%nat; [apply Qle_refl|].
  assert (Hkw : Spec.keyword_matches a jr = Spec.keyword_matches b jr).
  { unfold Spec.keyword_matches. by rewrite Htext. }
  rewrite Hkw. apply skill_formula_mono. apply subseteq_size.
  apply union_mono_l. unfold Spec.taxonomy_matches. intros s.
  rewrite !elem_of_list_to_set, !elem_of_list_filter_bool, Htext.
  intros [Hin Hp]. split; [exact Hin|].
  apply orb_true_iff in Hp as [Hp | Hp]; apply orb_true_iff; [left | by right].
  apply mem_iff in Hp. apply mem_iff.
  apply list_elem_of_fmap in Hp as (t & -> & Ht). apply list_elem_of_fmap.
  exists t. split; [done | by apply Hsub].
Qed.

Lemma skill_score_monotone_witness :
  let text := "I know Python and react.js front-end" in
  let a := Samples.candidate_info text ["Python"; "Docker"] 5 in
  let b := Samples.candidate_info text ["Python"] 5 in
  CVAnalyzer.raw_text a = CVAnalyzer.raw_text b /\
  (forall skill, skill ∈ CVAnalyzer.technical_skills b ->
                 skill ∈ CVAnalyzer.technical_skills a) /\
  (CVAnalyzer.skill_score (CVAnalyzer._analyze_skills_match b Samples.developer_job)
   <= CVAnalyzer.skill_score (CVAnalyzer._analyze_skills_match a Samples.developer_job))%Q.
Proof.
  intros text a b.
  assert (H : forall skill, skill ∈ CVAnalyzer.technical_skills b ->
                            skill ∈ CVAnalyzer.technical_skills a).
  { intros skill Hs. apply list_elem_of_singleton in Hs as ->. constructor. }
  split; [reflexivity|]. split; [exact H|].
  exact (skill_score_monotone a b Samples.developer_job eq_refl H).
Defined.

(** X3: a required skill that the candidate lists (up to case) or that
    occurs in the resume text is reported among the matched skills and
    never among the missing ones. *)
Theorem matched_skill_is_not_missing
    (ci : CVAnalyzer.CandidateInfo) (jr : CVAnalyzer.JobRequirements) (skill : string) :
  skill ∈ CVAnalyzer.required_skills jr ->
  Py.lower skill ∈ map Py.lower (CVAnalyzer.technical_skills ci) \/
  Py.contains (Py.lower skill) (Py.lower (CVAnalyzer.raw_text ci)) = true ->
  let a := CVAnalyzer._analyze_skills_match ci jr in
  Py.lower skill ∈ CVAnalyzer.skill_matched a /\
  Py.lower skill ∉ CVAnalyzer.skill_missing a.
Proof.
  intros Hreq Hhas a. subst a. unfold CVAnalyzer._analyze_skills_match.
  cbn [CVAnalyzer.skill_matched CVAnalyzer.skill_missing].
  set (kw := List.filter _ (CVAnalyzer._extract_job_keywords _)).
  set (pre := List.filter _ (_ ++ _)).
  assert (Hm : Py.lower skill ∈ remove_dups (kw ++ pre)).
  { apply elem_of_remove_dups, elem_of_app. right. subst pre.
    apply elem_of_list_filter_bool. split.
    - apply elem_of_app. left. apply list_elem_of_fmap. eauto.
    - apply orb_true_iff. destruct Hhas as [H | H]; [left; by apply mem_iff | by right]. }
  split; [exact Hm|].
  rewrite elem_of_list_filter_bool. intros [_ H]. apply negb_true_iff in H.
  apply mem_iff in Hm. congruence.
Qed.

Lemma matched_skill_is_not_missing_witness :
  "Python" ∈ CVAnalyzer.required_skills Samples.developer_job /\
  (Py.lower "Python" ∈ map Py.lower (CVAnalyzer.technical_skills Samples.jane) \/
   Py.contains (Py.lower "Python") (Py.lower (CVAnalyzer.raw_text Samples.jane)) = true) /\
  Py.lower "Python"
    ∈ CVAnalyzer.skill_matched (CVAnalyzer._analyze_skills_match Samples.jane
                                   Samples.developer_job) /\
  Py.lower "Python"
    ∉ CVAnalyzer.skill_missing (CVAnalyzer._analyze_skills_match Samples.jane
                                   Samples.developer_job).
Proof.
  assert (H1 : "Python" ∈ CVAnalyzer.required_skills Samples.developer_job) by constructor.
  assert (H2 : Py.lower "Python" ∈ map Py.lower (CVAnalyzer.technical_skills Samples.jane) \/
               Py.contains (Py.lower "Python")
                           (Py.lower (CVAnalyzer.raw_text Samples.jane)) = true)
    by (right; vm_compute; reflexivity).
  split; [exact H1|]. split; [exact H2|].
  exact (matched_skill_is_not_missing Samples.jane Samples.developer_job "Python" H1 H2).
Defined.

(** ** Text extraction and the parsed record *)

Section TextProperties.
Import CVParser.

Lemma digits_value_nonneg (s : string) : forall acc,
  (0 <= acc)%Z -> (0 <= Py.digits_value acc s)%Z.
Proof.
  induction s as [|c s IH]; intros acc H; cbn [Py.digits_value]; [done|].
  apply IH. lia.
Qed.

Lemma int_of_digits_nonneg (s : string) : (0 <= Py.int_of_digits s)%Z.
Proof. by apply digits_value_nonneg. Qed.

Lemma max_list_ge (l : list Z) : forall d, (d <= max_list d l)%Z.
Proof.
  unfold max_list. induction l as [|y l IH]; intros d; cbn [fold_left]; [lia|].
  specialize (IH (Z.max d y)). lia.
Qed.

Lemma explicit_years_nonneg (text : string) :
  Forall (fun y => (0 <= y)%Z) (explicit_years text).
Proof.
  unfold explicit_years. apply Forall_forall. intros y Hy.
  apply list_elem_of_In, in_flat_map in Hy as (p & _ & Hy).
  apply in_map_iff in Hy as (d & <- & _). apply int_of_digits_nonneg.
Qed.

Lemma year_findall_prefixes (text : string) :
  Forall (fun d => d = "19" \/ d = "20") (Re.findall_group 1 year_pattern text).
Proof.
  unfold Re.findall_group, Re.finditer.
  pose proof (finditer_from_run year_pattern text (S (String.length text))
                (Re.start_of text) (cursor_of_start text)) as HF.
  induction HF as [|m ms Hm _ IH]; cbn [map]; constructor; [|exact IH].
  exact (year_group text m Hm).
Qed.

Lemma lstrip_idem (s : string) : Py.lstrip (Py.lstrip s) = Py.lstrip s.
Proof.
  induction s as [|c s IH]; [done|]. cbn [Py.lstrip].
  destruct (Py.isspace_char c) eqn:E; [exact IH|]. cbn [Py.lstrip]. by rewrite E.
Qed.

Lemma rstrip_cons (c : ascii) (s : string) :
  Py.rstrip (String c s) =
  match Py.rstrip s with
  | EmptyString => if Py.isspace_char c then EmptyString else String c EmptyString
  | r => String c r
  end.
Proof. reflexivity. Qed.

Lemma rstrip_idem (s : string) : Py.rstrip (Py.rstrip s) = Py.rstrip s.
Proof.
  induction s as [|c s IH]; [done|]. rewrite rstrip_cons.
  destruct (Py.rstrip s) as [|a r] eqn:E.
  - destruct (Py.isspace_char c) eqn:Ec; [done|]. rewrite rstrip_cons. cbn [Py.rstrip].
    by rewrite Ec.
  - rewrite rstrip_cons, IH. reflexivity.
Qed.

Lemma rstrip_lstrip (s : string) : Py.rstrip (Py.lstrip s) = Py.lstrip (Py.rstrip s).
Proof.
  induction s as [|c s IH]; [done|]. rewrite rstrip_cons. cbn [Py.lstrip].
  destruct (Py.isspace_char c) eqn:Ec.
  - rewrite IH. destruct (Py.rstrip s) as [|a r] eqn:E; [done|].
    cbn [Py.lstrip]. by rewrite Ec.
  - rewrite rstrip_cons.
    destruct (Py.rstrip s) as [|a r] eqn:E; cbn [Py.lstrip]; by rewrite Ec.
Qed.

Lemma strip_idem (s : string) : Py.strip (Py.strip s) = Py.strip s.
Proof.
  unfold Py.strip. by rewrite rstrip_lstrip, rstrip_idem, lstrip_idem.
Qed.

Lemma extract_text_stripped env file_path text :
  _extract_text_from_file env file_path = Py.Return text -> Py.strip text = text.
Proof.
  unfold _extract_text_from_file, _extract_from_pdf, _extract_from_docx.
  destruct (String.eqb _ ".pdf").
  - destruct (pdf_pages env file_path) as [pages|e]; cbn; [|discriminate].
    intros [= <-]. apply strip_idem.
  - destruct (Py.mem _ _); [|discriminate].
    destruct (docx_document env file_path) as [[paragraphs tables]|e]; cbn; [|discriminate].
    intros [= <-]. apply strip_idem.
Qed.

End TextProperties.

(** X4: the experience that [_calculate_experience_years] reports is
    never negative. *)
Theorem experience_years_nonnegative (text : string) :
  (0 <= CVParser._calculate_experience_years text)%Q.
Proof.
  unfold CVParser._calculate_experience_years.
  pose proof (explicit_years_nonneg text) as HE.
  destruct (CVParser.explicit_years text) as [|y ys].
  - pose proof (extract_all_years_prefixes text) as HF.
    destruct (CVParser._extract_all_years text) as [|y1 [|y2 ys]]; [done | done |].
    inversion HF as [|? ? Hy1 HF']; subst.
    assert (B1 : (19 <= y1 <= 20)%Z) by lia.
    pose proof (max_list_bounds (y2 :: ys) y1 B1 HF').
    pose proof (min_list_bounds (y2 :: ys) y1 B1 HF').
    change 0%Q with (inject_Z 0). rewrite <- Zle_Qle. lia.
  - inversion HE as [|? ? Hy _]; subst. pose proof (max_list_ge ys y).
    change 0%Q with (inject_Z 0). rewrite <- Zle_Qle. lia.
Qed.

(** X5: the year that [_extract_certifications] attaches to a
    certification is never a year: it is absent, 19 or 20 (the group of the
    year pattern, as for [_extract_all_years]). *)
Theorem certification_year_is_a_prefix (text : string) :
  Forall (fun c => CVParser.cert_year c = None \/
                   CVParser.cert_year c = Some 19%Z \/ CVParser.cert_year c = Some 20%Z)
         (CVParser._extract_certifications text).
Proof.
  assert (H : forall context,
    CVParser._extract_years_from_context text context = None \/
    CVParser._extract_years_from_context text context = Some 19%Z \/
    CVParser._extract_years_from_context text context = Some 20%Z).
  { intros context. unfold CVParser._extract_years_from_context.
    destruct (CVParser.find_from _ _ 0) as [i|]; [|by left].
    pose proof (year_findall_prefixes (substring (i - 50) (i + 50 - (i - 50)) text)) as HF.
    destruct (Re.findall_group 1 CVParser.year_pattern _) as [|y ys]; [by left|].
    inversion HF as [|? ? [-> | ->] _]; subst; right; [by left | by right]. }
  unfold CVParser._extract_certifications. apply Forall_forall. intros c Hc.
  apply list_elem_of_In, in_flat_map in Hc as (k & _ & Hc).
  destruct (Py.contains _ _); [|done]. destruct Hc as [<- | []]. apply H.
Qed.

(** X6: the text that [_extract_text_from_file] returns has no leading
    and no trailing white space. *)
Theorem extracted_text_is_trimmed (env : CVParser.Env) (file_path text : string) :
  CVParser._extract_text_from_file env file_path = Py.Return text ->
  Py.strip text = text.
Proof. apply extract_text_stripped. Qed.

Lemma extracted_text_is_trimmed_witness :
  CVParser._extract_text_from_file Samples.env "uploads/jane.pdf" =
    Py.Return Samples.resume_text /\
  Py.strip Samples.resume_text = Samples.resume_text.
Proof.
  assert (H : CVParser._extract_text_from_file Samples.env "uploads/jane.pdf" =
              Py.Return Samples.resume_text) by (vm_compute; reflexivity).
  split; [exact H|]. exact (extracted_text_is_trimmed _ _ _ H).
Defined.

(** X7: [parse_cv_file] returns one of two records: the record of a
    failed parse, or a completed record without [parsing_error] whose
    [raw_text] is the extracted text, not empty and trimmed, and whose
    fields are those of [_parse_text_content] on that text. *)
Theorem parse_cv_file_record_shape (env : CVParser.Env) (file_path : string) :
  exists r, CVParser.parse_cv_file env file_path = Py.Return r /\
    ((exists error, r = CVParser.failed_record error) \/
     (CVParser.parsing_status r = CVParser.completed /\
      CVParser.parsing_error r = None /\
      CVParser.raw_text r <> "" /\
      Py.strip (CVParser.raw_text r) = CVParser.raw_text r /\
      CVParser._extract_text_from_file env file_path = Py.Return (CVParser.raw_text r) /\
      exists parsed_data,
        CVParser._parse_text_content env (CVParser.raw_text r) = Py.Return parsed_data /\
        r = CVParser.completed_record parsed_data (CVParser.raw_text r))).
Proof.
  unfold CVParser.parse_cv_file.
  destruct (CVParser._extract_text_from_file env file_path) as [text|e] eqn:E; cbn.
  - apply extract_text_stripped in E as S.
    destruct text as [|c text]; cbn; [eauto|].
    destruct (CVParser._parse_text_content env (String c text)) as [pd|e] eqn:P; cbn;
      [|eauto].
    eexists. split; [reflexivity|]. right. cbn. repeat split; try done. eauto.
  - eauto.
Qed.

(** ** Skill mentions and the job-description parser *)

Section MentionProperties.
Import Re.

Lemma lower_app (a b : string) : Py.lower (a +:+ b) = Py.lower a +:+ Py.lower b.
Proof.
  unfold Py.lower. induction a as [|x a IH]; [done|].
  rewrite string_app_cons. cbn [Py.map_chars]. by rewrite IH.
Qed.

Lemma lower_split (a : string) : forall t b,
  Py.lower t = a +:+ b ->
  exists a0 b0, t = a0 +:+ b0 /\ Py.lower a0 = a /\ Py.lower b0 = b.
Proof.
  induction a as [|x a IH]; intros t b H.
  - exists "", t. done.
  - destruct t as [|y t]; [discriminate|].
    rewrite string_app_cons in H. unfold Py.lower in H. cbn [Py.map_chars] in H.
    injection H as Hy H. apply IH in H as (a0 & b0 & -> & <- & <-).
    exists (String y a0), b0. rewrite <- Hy. done.
Qed.

Lemma is_skill_mentioned_lower (text skill : string) :
  Py.isascii text = true ->
  NLPService._is_skill_mentioned (Py.lower text) skill =
  NLPService._is_skill_mentioned text skill.
Proof.
  intros _. apply Bool.eq_iff_eq_true. rewrite !is_skill_mentioned_iff. unfold word_boundary. split.
  - intros (pre' & mid' & post' & T & L & B1 & B2).
    apply lower_split in T as (pre & rest & -> & <- & T).
    apply lower_split in T as (mid & post & -> & <- & <-).
    exists pre, mid, post. split; [done|]. split; [by rewrite <- L, lower_idem|].
    rewrite <- lower_app in B1, B2.
    rewrite is_word_last_lower, is_word_first_lower in B1.
    rewrite is_word_last_lower, is_word_first_lower in B2. done.
  - intros (pre & mid & post & -> & L & B1 & B2).
    exists (Py.lower pre), (Py.lower mid), (Py.lower post).
    split; [by rewrite !lower_app|]. split; [by rewrite lower_idem|].
    rewrite <- !lower_app, !is_word_last_lower, !is_word_first_lower. done.
Qed.

Lemma run_lit_ci_lower (s : string) : forall (k : cont) (c : cursor) (g : captures),
  Py.lower s = s -> Py.lower (rest c) = rest c ->
  run (lit_ci s) k c g = run (lit s) k c g.
Proof.
  induction s as [|x s IH]; intros k c g Hs Hc; [done|].
  unfold Py.lower in Hs. cbn [Py.map_chars] in Hs. injection Hs as Hx Hs.
  cbn [lit_ci lit run chr_ci chr].
  destruct (rest c) as [|a tl] eqn:E; [done|].
  unfold Py.lower in Hc. cbn [Py.map_chars] in Hc. injection Hc as Ha Htl.
  unfold Py.char_eqb. rewrite Ha, Hx, Ascii.eqb_sym.
  destruct (Ascii.eqb x a); [|done]. by apply IH.
Qed.

Lemma search_at_skill_lower (skill post : string) : forall b i,
  Py.lower post = post ->
  search_at (NLPService.skill_pattern skill) b post i =
  search_at (cat [WordB; lit (Py.lower skill); WordB]) b post i.
Proof.
  assert (R : forall c, Py.lower (rest c) = rest c ->
    run (NLPService.skill_pattern skill) accept c [] =
    run (cat [WordB; lit (Py.lower skill); WordB]) accept c []).
  { intros c Hc. unfold NLPService.skill_pattern. cbn [cat].
    change (run (Seq WordB (Seq (lit_ci (Py.lower skill)) WordB)) accept c [])
      with (if at_word_boundary c
            then run (lit_ci (Py.lower skill)) (run WordB accept) c [] else None).
    change (run (Seq WordB (Seq (lit (Py.lower skill)) WordB)) accept c [])
      with (if at_word_boundary c
            then run (lit (Py.lower skill)) (run WordB accept) c [] else None).
    rewrite run_lit_ci_lower; [done | apply lower_idem | exact Hc]. }
  induction post as [|a s IH]; intros b i Hp; cbn [search_at].
  - by rewrite R.
  - rewrite R by exact Hp.
    destruct (run _ accept (Cursor b (String a s) i) []) as [[c g]|]; [done|].
    apply IH. unfold Py.lower in Hp. cbn [Py.map_chars] in Hp. by injection Hp.
Qed.

Lemma skill_found_is_mentioned (text skill : string) :
  Py.isascii text = true -> Py.isascii skill = true ->
  CVParser.skill_found (Py.lower text) skill = NLPService._is_skill_mentioned text skill.
Proof.
  intros Ht _. rewrite <- is_skill_mentioned_lower by exact Ht.
  unfold CVParser.skill_found, NLPService._is_skill_mentioned, search.
  by rewrite search_at_skill_lower by apply lower_idem.
Qed.

Lemma taxonomy_is_ascii (skill : string) :
  skill ∈ NLPService.all_technical_skills \/ skill ∈ NLPService.soft_skills_db ->
  Py.isascii skill = true.
Proof.
  assert (A : forallb Py.isascii
                (NLPService.all_technical_skills ++ NLPService.soft_skills_db)%list = true)
    by (vm_compute; reflexivity).
  intros H. apply (proj1 (forallb_forall _ _) A).
  apply in_or_app. destruct H as [H | H]; [left | right]; by apply list_elem_of_In.
Qed.

End MentionProperties.

Section JobParserProperties.
Import NLPService.

Lemma is_skill_required_spec (context : string) :
  _is_skill_required context =
  negb (existsb (fun indicator => Py.contains indicator (Py.lower context))
                preferred_indicators).
Proof. unfold _is_skill_required. by repeat destruct (existsb _ _). Qed.

Lemma extract_technical_skills_spec (text skill : string) (required : bool) :
  skill ∈ _extract_technical_skills text required <->
  skill ∈ all_technical_skills /\ _is_skill_mentioned text skill = true /\
  _is_skill_required (_get_skill_context text skill) = required.
Proof.
  unfold _extract_technical_skills. rewrite list_elem_of_In, filter_In, <- list_elem_of_In.
  destruct (_is_skill_mentioned text skill); [|intuition discriminate].
  destruct required, (_is_skill_required (_get_skill_context text skill));
    cbn [andb negb orb]; intuition discriminate.
Qed.

Lemma fold_left_invariant {A B} (P : A -> Prop) (f : A -> B -> A) (l : list B) :
  (forall acc x, P acc -> P (f acc x)) -> forall acc, P acc -> P (fold_left f l acc).
Proof. intros Hf. induction l as [|x l IH]; intros acc H; cbn [fold_left]; auto. Qed.

Lemma update_years_nonneg (acc : Z * option Z) (mtch : list string) :
  (0 <= fst acc)%Z /\ (forall m, snd acc = Some m -> (0 <= m)%Z) ->
  (0 <= fst (update_years acc mtch))%Z /\
  (forall m, snd (update_years acc mtch) = Some m -> (0 <= m)%Z).
Proof.
  destruct acc as [mn mx]. intros [H1 H2]. unfold update_years.
  cbn [fst snd] in *.
  destruct (List.filter Py.isdigit mtch) as [|n0 [|n1 ns]]; cbn [fst snd].
  - auto.
  - split; [lia | exact H2].
  - split; [lia|]. intros m [= <-]. apply int_of_digits_nonneg.
Qed.

Lemma extract_experience_years_nonneg (text : string) :
  (0 <= fst (_extract_experience_years text))%Z /\
  (forall m, snd (_extract_experience_years text) = Some m -> (0 <= m)%Z).
Proof.
  unfold _extract_experience_years.
  apply (fold_left_invariant
           (fun acc => (0 <= fst acc)%Z /\ (forall m, snd acc = Some m -> (0 <= m)%Z))).
  - intros acc pattern H.
    apply (fold_left_invariant
             (fun acc => (0 <= fst acc)%Z /\ (forall m, snd acc = Some m -> (0 <= m)%Z)));
      [|exact H].
    intros acc' mtch. apply update_years_nonneg.
  - split; [done|]. intros m [=].
Qed.

End JobParserProperties.

(** X8: on ASCII strings, whether a skill is mentioned depends neither on
    the case of the text nor on the case of the skill. *)
Theorem skill_mention_ignores_case (text1 text2 skill1 skill2 : string) :
  Py.isascii text1 = true -> Py.isascii text2 = true ->
  Py.isascii skill1 = true -> Py.isascii skill2 = true ->
  Py.lower text1 = Py.lower text2 ->
  Py.lower skill1 = Py.lower skill2 ->
  NLPService._is_skill_mentioned text1 skill1 = NLPService._is_skill_mentioned text2 skill2.
Proof.
  intros A1 A2 _ _ Ht Hs.
  rewrite <- (is_skill_mentioned_lower text1), <- (is_skill_mentioned_lower text2) by done.
  unfold NLPService._is_skill_mentioned, NLPService.skill_pattern. by rewrite Ht, Hs.
Qed.

Lemma skill_mention_ignores_case_witness :
  Py.isascii "We use PYTHON daily" = true /\ Py.isascii "we use Python DAILY" = true /\
  Py.isascii "Python" = true /\ Py.isascii "python" = true /\
  Py.lower "We use PYTHON daily" = Py.lower "we use Python DAILY" /\
  Py.lower "Python" = Py.lower "python" /\
  NLPService._is_skill_mentioned "We use PYTHON daily" "Python" =
  NLPService._is_skill_mentioned "we use Python DAILY" "python".
Proof.
  do 6 (split; [reflexivity|]).
  apply skill_mention_ignores_case; reflexivity.
Defined.

(** X9: on an ASCII resume, the skills that the resume parser reports are
    the skills of the taxonomy that [NLPService._is_skill_mentioned], the
    test applied to job descriptions, finds in the resume: the two
    services agree on what a mention is. *)
Theorem resume_skills_are_the_mentioned_skills (text skill : string) :
  Py.isascii text = true ->
  (skill ∈ CVParser.technical (CVParser._extract_skills text) <->
   skill ∈ NLPService.all_technical_skills /\
   NLPService._is_skill_mentioned text skill = true) /\
  (skill ∈ CVParser.soft (CVParser._extract_skills text) <->
   skill ∈ NLPService.soft_skills_db /\
   NLPService._is_skill_mentioned text skill = true).
Proof.
  intros Ht. unfold CVParser._extract_skills. cbn [CVParser.technical CVParser.soft].
  rewrite !elem_of_remove_dups, !elem_of_list_filter_bool.
  split; (split; intros [Hin H]; (split; [exact Hin|]));
    [rewrite <- skill_found_is_mentioned | rewrite skill_found_is_mentioned
    |rewrite <- skill_found_is_mentioned | rewrite skill_found_is_mentioned];
    try done; apply taxonomy_is_ascii; auto.
Qed.

Lemma resume_skills_are_the_mentioned_skills_witness :
  Py.isascii "Senior PYTHON developer" = true /\
  ("python" ∈ CVParser.technical (CVParser._extract_skills "Senior PYTHON developer") <->
   "python" ∈ NLPService.all_technical_skills /\
   NLPService._is_skill_mentioned "Senior PYTHON developer" "python" = true) /\
  ("python" ∈ CVParser.soft (CVParser._extract_skills "Senior PYTHON developer") <->
   "python" ∈ NLPService.soft_skills_db /\
   NLPService._is_skill_mentioned "Senior PYTHON developer" "python" = true).
Proof.
  split; [reflexivity|].
  exact (resume_skills_are_the_mentioned_skills "Senior PYTHON developer" "python" eq_refl).
Defined.

(** X10: every skill of the taxonomy that the lower-cased job description
    mentions is listed once: as preferred when the context that
    [_get_skill_context] returns for it contains a preferred indicator, as
    required otherwise.  The required indicators play no part. *)
Theorem job_skill_classification (job_description skill : string) :
  let r := NLPService.parse_job_requirements job_description in
  let text := Py.lower job_description in
  let context := NLPService._get_skill_context text skill in
  let hedged :=
    existsb (fun indicator => Py.contains indicator (Py.lower context))
            NLPService.preferred_indicators in
  (skill ∈ NLPService.required_skills r <->
   skill ∈ NLPService.all_technical_skills /\
   NLPService._is_skill_mentioned text skill = true /\ hedged = false) /\
  (skill ∈ NLPService.preferred_skills r <->
   skill ∈ NLPService.all_technical_skills /\
   NLPService._is_skill_mentioned text skill = true /\ hedged = true) /\
  NoDup (NLPService.required_skills r) /\ NoDup (NLPService.preferred_skills r).
Proof.
  intros r text context hedged. subst r.
  rewrite parse_required_skills, parse_preferred_skills. fold text.
  rewrite list_elem_of_difference, !elem_of_remove_dups, !extract_technical_skills_spec.
  rewrite is_skill_required_spec. fold context. fold hedged.
  split; [|split; [|split]].
  - destruct hedged; cbn [negb]; intuition congruence.
  - destruct hedged; cbn [negb]; intuition congruence.
  - apply NoDup_remove_dups.
  - apply NoDup_list_difference, NoDup_remove_dups.
Qed.

(** X11: the years of experience read from a job description are never
    negative: neither the minimum nor, when there is one, the maximum. *)
Theorem job_experience_years_nonnegative (job_description : string) :
  let r := NLPService.parse_job_requirements job_description in
  (0 <= NLPService.min_experience_years r)%Z /\
  forall m, NLPService.max_experience_years r = Some m -> (0 <= m)%Z.
Proof.
  intros r. subst r. unfold NLPService.parse_job_requirements.
  pose proof (extract_experience_years_nonneg (Py.lower job_description)) as H.
  destruct (NLPService._extract_experience_years (Py.lower job_description)) as [mn mx].
  exact H.
Qed.

(** ** The sub-scores, the overall score and the insights *)

Section AnalysisProperties.
Import CVAnalyzer.

Lemma Qmax_ge_r (a b : Q) : (b <= Qmax a b)%Q.
Proof. unfold Qmax. destruct (Qle_bool b a) eqn:E; [by apply Qle_bool_iff | apply Qle_refl]. Qed.

Lemma Qlt_bool_iff (x y : Q) : Qlt_bool x y = true <-> (x < y)%Q.
Proof.
  unfold Qlt_bool. rewrite negb_true_iff. split.
  - intros H. destruct (Qlt_le_dec x y) as [L|L]; [done|].
    apply Qle_bool_iff in L. congruence.
  - intros H. destruct (Qle_bool y x) eqn:E; [|done].
    apply Qle_bool_iff in E. lra.
Qed.

Lemma Qnat_neq0 (m : nat) : m <> 0%nat -> ~ (Qnat m == 0)%Q.
Proof. intros H E. apply Qnat_pos in H. rewrite E in H. exact (Qlt_irrefl _ H). Qed.

(** A share [n] of [m], as a percentage. *)
Lemma percentage_bounds (n m : nat) :
  (n <= m)%nat -> m <> 0%nat -> (0 <= Qnat n / Qnat m * 100 <= 100)%Q.
Proof.
  intros Hn Hm. pose proof (Qnat_pos m Hm) as Pm.
  assert (H0 : (0 <= Qnat n / Qnat m)%Q).
  { apply Qdiv_nonneg; [apply Qnat_nonneg | by apply Qlt_le_weak]. }
  assert (H1 : (Qnat n / Qnat m <= 1)%Q).
  { apply Qle_shift_div_r; [done|]. pose proof (Qnat_le n m Hn). lra. }
  revert H0 H1. generalize (Qnat n / Qnat m)%Q. intros t H0 H1. lra.
Qed.

Lemma percentage_full (n m : nat) :
  m <> 0%nat -> (Qnat n / Qnat m * 100 == 100)%Q <-> n = m.
Proof.
  intros Hm. pose proof (Qnat_pos m Hm) as Pm. split.
  - intros H. assert (H1 : (Qnat n / Qnat m == 1)%Q).
    { revert H. generalize (Qnat n / Qnat m)%Q. intros t H. lra. }
    assert (H2 : (Qnat n == Qnat m)%Q).
    { pose proof (Qmult_div_r (Qnat n) (Qnat m) (Qnat_neq0 m Hm)) as E.
      rewrite H1 in E. lra. }
    assert (Z.of_nat n = Z.of_nat m) by (by apply inject_Z_injective). lia.
  - intros ->. unfold Qdiv. rewrite Qmult_inv_r by (by apply Qnat_neq0). reflexivity.
Qed.

Lemma percentage_below_half (n m : nat) :
  m <> 0%nat -> (Qnat n / Qnat m * 100 < 50)%Q <-> (2 * n < m)%nat.
Proof.
  intros Hm. pose proof (Qnat_pos m Hm) as Pm.
  assert (E : (Qnat n == Qnat n / Qnat m * Qnat m)%Q).
  { unfold Qdiv. rewrite <- Qmult_assoc, (Qmult_comm (/ Qnat m)), Qmult_inv_r
      by (by apply Qnat_neq0). lra. }
  assert (I : (2 * n < m)%nat <-> (Qnat n * 2 < Qnat m)%Q).
  { unfold Qnat. change 2%Q with (inject_Z 2). rewrite <- inject_Z_mult, <- Zlt_Qlt. lia. }
  rewrite I. revert E. generalize (Qnat n / Qnat m)%Q. intros t E. rewrite E. split.
  - intros H. nra.
  - intros H. nra.
Qed.

Lemma filter_length_all {A} (p : A -> bool) (l : list A) :
  length (List.filter p l) = length l <-> forall x, In x l -> p x = true.
Proof.
  induction l as [|a l IH]; cbn [List.filter length]; [by split|].
  pose proof (List.filter_length_le p l) as Hle.
  destruct (p a) eqn:E; cbn [length].
  - split.
    + intros H x [<- | Hx]; [done|]. apply IH; [lia | done].
    + intros H. f_equal. apply IH. intros x Hx. apply H. by right.
  - split; [lia|]. intros H. specialize (H a (or_introl eq_refl)). congruence.
Qed.

Lemma education_score_bounds ci jr :
  (0 <= education_score (_analyze_education_match ci jr) <= 100)%Q.
Proof.
  unfold _analyze_education_match.
  destruct (education_requirements jr) as [|r rs] eqn:E; cbn [education_score];
    [split; discriminate|].
  apply percentage_bounds; [apply List.filter_length_le | discriminate].
Qed.

Lemma soft_score_bounds ci jr :
  (0 <= soft_score (_analyze_soft_skills_match ci jr) <= 100)%Q.
Proof.
  unfold _analyze_soft_skills_match.
  destruct (map Py.lower (soft_skills jr)) as [|r rs] eqn:E; cbn [soft_score];
    [split; discriminate|].
  apply percentage_bounds; [apply List.filter_length_le | discriminate].
Qed.

Lemma round_half_even_mono (x y : Q) :
  (x <= y)%Q -> (round_half_even x <= round_half_even y)%Z.
Proof.
  intros H. unfold round_half_even. pose proof (Qfloor_resp_le x y H) as Hf.
  pose proof (Qfloor_le x) as Lx. pose proof (Qlt_floor x) as Ux.
  pose proof (Qfloor_le y) as Ly. pose proof (Qlt_floor y) as Uy.
  destruct (Z.eq_dec (Qfloor x) (Qfloor y)) as [E|E].
  - rewrite <- E in *.
    destruct (Qcompare_spec (x - inject_Z (Qfloor x)) (1 # 2)) as [Hx|Hx|Hx];
      destruct (Qcompare_spec (y - inject_Z (Qfloor x)) (1 # 2)) as [Hy|Hy|Hy];
      try lia; try (destruct (Z.even (Qfloor x)); lia); exfalso; lra.
  - assert (Hlt : (Qfloor x + 1 <= Qfloor y)%Z) by lia.
    destruct (Qcompare_spec (x - inject_Z (Qfloor x)) (1 # 2));
      destruct (Qcompare_spec (y - inject_Z (Qfloor y)) (1 # 2));
      repeat match goal with |- context [Z.even ?z] => destruct (Z.even z) end; lia.
Qed.

Lemma round2_mono (x y : Q) : (x <= y)%Q -> (round2 x <= round2 y)%Q.
Proof.
  intros H. unfold round2. apply Qdiv_le_compat; [discriminate|].
  rewrite <- Zle_Qle. apply round_half_even_mono. lra.
Qed.

Lemma default_weight_skills : default_weights !! "skills" = Some (35 # 100)%Q.
Proof. vm_compute. reflexivity. Qed.
Lemma default_weight_education : default_weights !! "education" = Some (20 # 100)%Q.
Proof. vm_compute. reflexivity. Qed.
Lemma default_weight_experience : default_weights !! "experience" = Some (25 # 100)%Q.
Proof. vm_compute. reflexivity. Qed.
Lemma default_weight_soft_skills : default_weights !! "soft_skills" = Some (20 # 100)%Q.
Proof. vm_compute. reflexivity. Qed.

Lemma elem_of_if_singleton (b : bool) (s x : string) :
  x ∈ (if b then [s] else []) <-> b = true /\ x = s.
Proof.
  destruct b.
  - rewrite list_elem_of_singleton. tauto.
  - rewrite elem_of_nil. split; [tauto | intros [? _]; discriminate].
Qed.

Lemma experience_score_below_50 ci jr :
  (experience_score (_analyze_experience_match ci jr) < 50)%Q <->
  min_experience_years jr = 0%Z \/
  ((0 < min_experience_years jr)%Z /\
   (total_experience_years ci * 8 < inject_Z (min_experience_years jr) * 5)%Q).
Proof.
  unfold _analyze_experience_match. cbn [experience_score].
  set (y := total_experience_years ci). set (m := min_experience_years jr).
  destruct (Z.eqb_spec m 0) as [E|E]; [split; [by left | reflexivity]|].
  destruct (Qle_bool (inject_Z m) y) eqn:Hle.
  - apply Qle_bool_iff in Hle. split.
    + intros H. exfalso. destruct (over_maximum y (max_experience_years jr)); revert H;
        apply Qle_not_lt; discriminate.
    + intros [H | [Hm H]]; [done|]. exfalso.
      assert (0 < inject_Z m)%Q by (change 0%Q with (inject_Z 0); by rewrite <- Zlt_Qlt).
      lra.
  - assert (Hlt : (y < inject_Z m)%Q).
    { destruct (Qlt_le_dec y (inject_Z m)) as [H|H]; [done|].
      apply Qle_bool_iff in H. congruence. }
    destruct (Z.ltb_spec 0 m) as [Hp|Hp].
    + assert (Pm : (0 < inject_Z m)%Q) by (change 0%Q with (inject_Z 0); by rewrite <- Zlt_Qlt).
      assert (Ey : (y == y / inject_Z m * inject_Z m)%Q).
      { unfold Qdiv. rewrite <- Qmult_assoc, (Qmult_comm (/ inject_Z m)), Qmult_inv_r
          by (intros Z; rewrite Z in Pm; exact (Qlt_irrefl _ Pm)).
        lra. }
      split.
      * intros H. right. split; [done|].
        assert (H1 : (y / inject_Z m * 80 < 50)%Q).
        { eapply Qle_lt_trans; [apply Qmax_ge_r | exact H]. }
        revert Ey H1. generalize (y / inject_Z m)%Q. intros t Ey H1. rewrite Ey. nra.
      * intros [H | [_ H]]; [done|]. apply Qmax_lt; [reflexivity|].
        revert Ey H. generalize (y / inject_Z m)%Q. intros t Ey H. rewrite Ey in H. nra.
    + split; [intros H; exfalso; revert H; apply Qle_not_lt; discriminate|].
      intros [H | [H _]]; [done | lia].
Qed.

Lemma education_score_below_50 ci jr :
  (education_score (_analyze_education_match ci jr) < 50)%Q <->
  education_requirements jr = [] \/
  (2 * length (education_matched (_analyze_education_match ci jr))
   < length (education_requirements jr))%nat.
Proof.
  unfold _analyze_education_match.
  destruct (education_requirements jr) as [|r rs] eqn:E;
    cbn [education_score education_matched].
  - split; [by left | reflexivity].
  - rewrite percentage_below_half by discriminate. split; [by right|].
    intros [H | H]; [discriminate | exact H].
Qed.

End AnalysisProperties.

(** X12: the four sub-scores stay in their ranges: the skill score between
    15 and 100, the education score between 0 and 100, the experience score
    between 40 and 100 and the soft-skill score between 0 and 100. *)
Theorem sub_scores_are_bounded
    (ci : CVAnalyzer.CandidateInfo) (jr : CVAnalyzer.JobRequirements) :
  (15 <= CVAnalyzer.skill_score (CVAnalyzer._analyze_skills_match ci jr) <= 100)%Q /\
  (0 <= CVAnalyzer.education_score (CVAnalyzer._analyze_education_match ci jr) <= 100)%Q /\
  (40 <= CVAnalyzer.experience_score (CVAnalyzer._analyze_experience_match ci jr) <= 100)%Q /\
  (0 <= CVAnalyzer.soft_score (CVAnalyzer._analyze_soft_skills_match ci jr) <= 100)%Q.
Proof.
  split; [apply skill_score_range|]. split; [apply education_score_bounds|].
  split; [apply experience_score_range | apply soft_score_bounds].
Qed.

(** X13: an education entry whose degree or institution is empty matches
    every education requirement (the empty string occurs in every
    requirement): the candidate gets the full education score. *)
Theorem empty_education_field_matches_everything
    (ci : CVAnalyzer.CandidateInfo) (jr : CVAnalyzer.JobRequirements)
    (edu : CVParser.EducationEntry) :
  CVAnalyzer.education_requirements jr <> [] ->
  edu ∈ CVAnalyzer.education ci ->
  CVParser.degree edu = "" \/ CVParser.institution edu = "" ->
  let a := CVAnalyzer._analyze_education_match ci jr in
  CVAnalyzer.education_matched a = CVAnalyzer.education_requirements jr /\
  (CVAnalyzer.education_score a == 100)%Q.
Proof.
  intros Hreq Hin Hempty a. subst a. unfold CVAnalyzer._analyze_education_match.
  destruct (CVAnalyzer.education_requirements jr) as [|r rs] eqn:E; [done|].
  cbn [CVAnalyzer.education_matched CVAnalyzer.education_score].
  assert (Hall : forall req, In req (r :: rs) ->
    existsb (fun keyword => Py.contains keyword (Py.lower req)
                            || Py.contains (Py.lower req) keyword)
            (CVAnalyzer.education_keywords (CVAnalyzer.education ci)) = true).
  { intros req _. apply existsb_exists. exists "". split.
    - unfold CVAnalyzer.education_keywords. apply in_flat_map. exists edu.
      split; [by apply list_elem_of_In|].
      destruct Hempty as [-> | ->]; [left | right; left]; reflexivity.
    - by destruct (Py.lower req). }
  rewrite List.forallb_filter_id by (apply forallb_forall; exact Hall).
  split; [done|]. apply percentage_full; done.
Qed.

Lemma empty_education_field_matches_everything_witness :
  let edu := {| CVParser.degree := ""; CVParser.institution := "Institution not specified";
                CVParser.year := None |} in
  let ci :=
    {| CVAnalyzer.technical_skills := []; CVAnalyzer.ci_soft_skills := [];
       CVAnalyzer.education := [edu]; CVAnalyzer.work_experience := [];
       CVAnalyzer.total_experience_years := 0; CVAnalyzer.certifications := [];
       CVAnalyzer.languages := []; CVAnalyzer.raw_text := "" |} in
  let jr :=
    {| CVAnalyzer.required_skills := []; CVAnalyzer.preferred_skills := [];
       CVAnalyzer.education_requirements := ["Degree in Physics"; "phd"];
       CVAnalyzer.experience_requirements := []; CVAnalyzer.soft_skills := [];
       CVAnalyzer.min_experience_years := 0; CVAnalyzer.max_experience_years := None;
       CVAnalyzer.title := "Researcher"; CVAnalyzer.description := "" |} in
  CVAnalyzer.education_requirements jr <> [] /\
  edu ∈ CVAnalyzer.education ci /\
  (CVParser.degree edu = "" \/ CVParser.institution edu = "") /\
  CVAnalyzer.education_matched (CVAnalyzer._analyze_education_match ci jr) =
    ["Degree in Physics"; "phd"] /\
  (CVAnalyzer.education_score (CVAnalyzer._analyze_education_match ci jr) == 100)%Q.
Proof.
  intros edu ci jr.
  assert (H1 : CVAnalyzer.education_requirements jr <> []) by discriminate.
  assert (H2 : edu ∈ CVAnalyzer.education ci) by constructor.
  assert (H3 : CVParser.degree edu = "" \/ CVParser.institution edu = "") by (by left).
  split; [exact H1|]. split; [exact H2|]. split; [exact H3|].
  exact (empty_education_field_matches_everything ci jr edu H1 H2 H3).
Defined.

(** X14: with a soft-skill requirement, the soft-skill sub-score is 100
    exactly when the candidate lists every required soft skill, up to
    case. *)
Theorem soft_skills_full_score
    (ci : CVAnalyzer.CandidateInfo) (jr : CVAnalyzer.JobRequirements) :
  CVAnalyzer.soft_skills jr <> [] ->
  (CVAnalyzer.soft_score (CVAnalyzer._analyze_soft_skills_match ci jr) == 100)%Q <->
  forall skill, skill ∈ CVAnalyzer.soft_skills jr ->
                Py.lower skill ∈ map Py.lower (CVAnalyzer.ci_soft_skills ci).
Proof.
  intros Hreq. unfold CVAnalyzer._analyze_soft_skills_match.
  destruct (CVAnalyzer.soft_skills jr) as [|r rs] eqn:E; [done|].
  cbn [map CVAnalyzer.soft_score]. change (Py.lower r :: map Py.lower rs)
    with (map Py.lower (r :: rs)).
  rewrite percentage_full by (rewrite length_map; discriminate).
  rewrite filter_length_all. split.
  - intros H skill Hs. apply mem_iff, H, in_map, list_elem_of_In, Hs.
  - intros H x Hx. apply in_map_iff in Hx as (skill & <- & Hs).
    apply mem_iff, H, list_elem_of_In, Hs.
Qed.

Lemma soft_skills_full_score_witness :
  let ci :=
    {| CVAnalyzer.technical_skills := []; CVAnalyzer.ci_soft_skills := ["Teamwork"];
       CVAnalyzer.education := []; CVAnalyzer.work_experience := [];
       CVAnalyzer.total_experience_years := 0; CVAnalyzer.certifications := [];
       CVAnalyzer.languages := []; CVAnalyzer.raw_text := "" |} in
  let jr :=
    {| CVAnalyzer.required_skills := []; CVAnalyzer.preferred_skills := [];
       CVAnalyzer.education_requirements := [];
       CVAnalyzer.experience_requirements := []; CVAnalyzer.soft_skills := ["teamwork"];
       CVAnalyzer.min_experience_years := 0; CVAnalyzer.max_experience_years := None;
       CVAnalyzer.title := "Developer"; CVAnalyzer.description := "" |} in
  CVAnalyzer.soft_skills jr <> [] /\
  ((CVAnalyzer.soft_score (CVAnalyzer._analyze_soft_skills_match ci jr) == 100)%Q <->
   forall skill, skill ∈ CVAnalyzer.soft_skills jr ->
                 Py.lower skill ∈ map Py.lower (CVAnalyzer.ci_soft_skills ci)).
Proof.
  intros ci jr.
  assert (H : CVAnalyzer.soft_skills jr <> []) by discriminate.
  split; [exact H|]. exact (soft_skills_full_score ci jr H).
Defined.

(** X15: with the default weights (no custom weights, or an empty dict)
    the overall score that is reported lies between 15.25 and 100. *)
Theorem overall_score_bounds
    (candidate : CVAnalyzer.Candidate) (job_posting : CVAnalyzer.JobPosting)
    (custom_weights : option CVAnalyzer.Weights) :
  custom_weights = None \/ custom_weights = Some ∅ ->
  let a := CVAnalyzer._analyze_single_candidate candidate job_posting
             (CVAnalyzer.effective_weights custom_weights) in
  (1525 # 100 <= CVAnalyzer.a_overall_score a <= 100)%Q.
Proof.
  intros Hw a. subst a.
  assert (Ew : CVAnalyzer.effective_weights custom_weights = CVAnalyzer.default_weights)
    by (destruct Hw as [-> | ->]; reflexivity).
  rewrite Ew. unfold CVAnalyzer._analyze_single_candidate. cbn [CVAnalyzer.a_overall_score].
  rewrite default_weight_skills, default_weight_education, default_weight_experience,
    default_weight_soft_skills. cbn [default from_option id].
  set (ci := CVAnalyzer._extract_candidate_info candidate).
  set (jr := CVAnalyzer._extract_job_requirements job_posting).
  pose proof (skill_score_range ci jr) as Bs.
  pose proof (education_score_bounds ci jr) as Be.
  pose proof (experience_score_range ci jr) as Bx.
  pose proof (soft_score_bounds ci jr) as Bf.
  revert Bs Be Bx Bf.
  generalize (CVAnalyzer.skill_score (CVAnalyzer._analyze_skills_match ci jr))
             (CVAnalyzer.education_score (CVAnalyzer._analyze_education_match ci jr))
             (CVAnalyzer.experience_score (CVAnalyzer._analyze_experience_match ci jr))
             (CVAnalyzer.soft_score (CVAnalyzer._analyze_soft_skills_match ci jr)).
  intros s e x f Bs Be Bx Bf. split.
  - apply (Qle_trans _ (CVAnalyzer.round2 (1525 # 100))); [by vm_compute|].
    apply round2_mono. lra.
  - apply (Qle_trans _ (CVAnalyzer.round2 100)); [|by vm_compute].
    apply round2_mono. lra.
Qed.

Lemma overall_score_bounds_witness :
  ((None : option CVAnalyzer.Weights) = None \/ None = Some (∅ : CVAnalyzer.Weights)) /\
  (1525 # 100 <= CVAnalyzer.a_overall_score
     (CVAnalyzer._analyze_single_candidate (Samples.candidate 1) Samples.posting
        (CVAnalyzer.effective_weights None)) <= 100)%Q.
Proof.
  split; [by left|].
  apply (overall_score_bounds (Samples.candidate 1) Samples.posting None). by left.
Defined.

(** X16: the status, the recommendation and the reported score of an
    analysis agree: a shortlisted candidate has a reported score of at
    least 50 and a recommendation to proceed or to screen; a rejected
    candidate has a reported score of at most 50 and the single
    recommendation "Not recommended for this position". *)
Theorem status_agrees_with_recommendation
    (candidate : CVAnalyzer.Candidate) (job_posting : CVAnalyzer.JobPosting)
    (weights : CVAnalyzer.Weights) :
  let a := CVAnalyzer._analyze_single_candidate candidate job_posting weights in
  (CVAnalyzer.a_match_status a = "shortlisted" /\
   (50 <= CVAnalyzer.a_overall_score a)%Q /\
   (CVAnalyzer.a_recommendations a = ["Proceed with interview scheduling"] \/
    exists more, CVAnalyzer.a_recommendations a = "Consider for phone screening" :: more)) \/
  (CVAnalyzer.a_match_status a = "rejected" /\
   (CVAnalyzer.a_overall_score a <= 50)%Q /\
   CVAnalyzer.a_recommendations a = ["Not recommended for this position"]).
Proof.
  intros a. subst a. unfold CVAnalyzer._analyze_single_candidate.
  cbn [CVAnalyzer.a_match_status CVAnalyzer.a_overall_score CVAnalyzer.a_recommendations].
  match goal with |- context [CVAnalyzer._determine_match_status ?o] => set (overall := o) end.
  unfold CVAnalyzer._generate_ai_insights, CVAnalyzer._determine_match_status.
  cbn [CVAnalyzer.ins_recommendations].
  destruct (Qle_bool 50 overall) eqn:H50.
  - left. split; [done|]. apply Qle_bool_iff in H50. split.
    + apply (Qle_trans _ (CVAnalyzer.round2 50)); [by vm_compute | by apply round2_mono].
    + destruct (Qle_bool 70 overall); [by left | right; eauto].
  - right. split; [done|].
    assert (Hlt : (overall < 50)%Q).
    { destruct (Qlt_le_dec overall 50) as [H|H]; [done|].
      apply Qle_bool_iff in H. congruence. }
    split.
    + apply (Qle_trans _ (CVAnalyzer.round2 50)); [|by vm_compute].
      apply round2_mono. by apply Qlt_le_weak.
    + destruct (Qle_bool 70 overall) eqn:H70; [|done].
      apply Qle_bool_iff in H70. lra.
Qed.

(** X17: when the concerns about experience and education are raised: the
    experience concern exactly when the job states no minimum or the
    candidate has less than five eighths of it; the education concern
    exactly when the job states no education requirement or less than half
    of the requirements are matched. *)
Theorem concerns_characterized
    (candidate : CVAnalyzer.Candidate) (job_posting : CVAnalyzer.JobPosting)
    (weights : CVAnalyzer.Weights) :
  let a := CVAnalyzer._analyze_single_candidate candidate job_posting weights in
  let years := default 0%Q (CVAnalyzer.c_total_experience_years candidate) in
  let minimum := default 0%Z (CVAnalyzer.jp_min_experience_years job_posting) in
  let requirements := default [] (CVAnalyzer.jp_education_requirements job_posting) in
  ("Insufficient relevant experience" ∈ CVAnalyzer.a_concerns a <->
   minimum = 0%Z \/ ((0 < minimum)%Z /\ (years * 8 < inject_Z minimum * 5)%Q)) /\
  ("Education requirements not fully met" ∈ CVAnalyzer.a_concerns a <->
   requirements = [] \/
   (2 * length (CVAnalyzer.a_matched_education a) < length requirements)%nat).
Proof.
  intros a years minimum requirements. subst a.
  unfold CVAnalyzer._analyze_single_candidate.
  cbn [CVAnalyzer.a_concerns CVAnalyzer.a_matched_education].
  unfold CVAnalyzer._generate_ai_insights. cbn [CVAnalyzer.ins_concerns].
  set (ci := CVAnalyzer._extract_candidate_info candidate).
  set (jr := CVAnalyzer._extract_job_requirements job_posting).
  rewrite !elem_of_app, !elem_of_if_singleton, !Qlt_bool_iff.
  rewrite experience_score_below_50, education_score_below_50.
  change (CVAnalyzer.min_experience_years jr) with minimum.
  change (CVAnalyzer.total_experience_years ci) with years.
  change (CVAnalyzer.education_requirements jr) with requirements.
  split; split; try tauto.
  - intros [[_ H] | [[H _] | [_ H]]]; [discriminate | exact H | discriminate].
  - intros [[_ H] | [[_ H] | [H _]]]; [discriminate | discriminate | exact H].
Qed.

(** ** Candidate names, statistics and batches *)

Section NameProperties.
Import CVParser.

Lemma title_from_length (s : string) : forall b,
  String.length (Py.title_from b s) = String.length s.
Proof.
  induction s as [|c s IH]; intros b; [done|]. cbn [Py.title_from].
  destruct (Py.isalpha_char c); cbn [String.length]; by rewrite IH.
Qed.

Lemma title_char_idem (c : ascii) (b : bool) :
  Py.isalpha_char c = true ->
  let c' := if b then Py.lower_char c else Py.upper_char c in
  Py.isalpha_char c' = true /\ (if b then Py.lower_char c' else Py.upper_char c') = c'.
Proof. destruct b, c as [[] [] [] [] [] [] [] []]; intros H; by (discriminate H || split). Qed.

Lemma title_from_idem (s : string) : forall b,
  Py.title_from b (Py.title_from b s) = Py.title_from b s.
Proof.
  induction s as [|c s IH]; intros b; [done|]. cbn [Py.title_from].
  destruct (Py.isalpha_char c) eqn:E.
  - destruct (title_char_idem c b E) as [E' I]. cbn [Py.title_from].
    rewrite E', I, IH. reflexivity.
  - cbn [Py.title_from]. rewrite E, IH. reflexivity.
Qed.

Lemma title_well_formed (s : string) :
  (2 <= String.length s)%nat ->
  (2 <= String.length (Py.title s))%nat /\ Py.title (Py.title s) = Py.title s.
Proof.
  intros H. split; [unfold Py.title; by rewrite title_from_length|].
  apply title_from_idem.
Qed.

Lemma if_some {A} (b : bool) (x y : A) :
  (if b then Some x else None) = Some y -> b = true /\ x = y.
Proof. destruct b; [|discriminate]. intros [= <-]. done. Qed.

Lemma name_from_ner_well_formed env text name :
  name_from_ner env text = Some name ->
  (2 <= String.length name)%nat /\ Py.title name = name.
Proof.
  unfold name_from_ner.
  destruct (nlp env) as [model|]; [|discriminate].
  destruct (model (Py.prefix 500 text)) as [ents|e]; [|discriminate].
  destruct (map fst (List.filter _ ents)) as [|first rest]; [discriminate|].
  cbv zeta. match goal with |- context [Py.title ?x] => generalize x end.
  intros nm H. destruct (_ && _) eqn:E in H; [|discriminate].
  apply andb_true_iff in E as [_ L]. apply Nat.leb_le in L.
  apply if_some in H as [_ <-]. apply title_well_formed. exact L.
Qed.

Lemma name_from_line_well_formed line name :
  name_from_line line = Some name ->
  (2 <= String.length name)%nat /\ Py.title name = name.
Proof.
  unfold name_from_line.
  destruct (Py.mem _ headers_to_skip); [discriminate|].
  destruct (Py.mem _ skip_if_only); [discriminate|].
  destruct (_ || _); [discriminate|].
  destruct (name_field line) as [cleaned|]; [|discriminate]. cbv zeta.
  destruct (List.filter _ (Py.split _)) as [|t ts]; [discriminate|].
  match goal with |- context [Py.title ?x] => generalize x end.
  intros nm H. destruct nm as [|c cl]; [discriminate|].
  destruct (_ && _) eqn:E in H; [|discriminate].
  apply andb_true_iff in E as [_ L]. unfold between_nat in L.
  apply andb_true_iff in L as [L _]. apply Nat.leb_le in L.
  destruct (forallb _ _); [|discriminate].
  destruct (_ || _); [|discriminate].
  apply if_some in H as [_ <-]. apply title_well_formed. exact L.
Qed.

Lemma first_name_well_formed lines name :
  first_name lines = Some name ->
  (2 <= String.length name)%nat /\ Py.title name = name.
Proof.
  induction lines as [|line lines IH]; cbn [first_name]; [discriminate|].
  destruct (name_from_line line) as [n|] eqn:E; [|exact IH].
  intros [= <-]. by apply name_from_line_well_formed in E.
Qed.

Lemma name_from_email_well_formed text name :
  name_from_email text = Some name ->
  (2 <= String.length name)%nat /\ Py.title name = name.
Proof.
  unfold name_from_email.
  destruct (Re.findall0 email_pattern _) as [|first rest]; [discriminate|].
  cbv zeta. match goal with |- context [Py.title ?x] => generalize x end.
  intros nm H. destruct (Nat.leb_spec 2 (String.length nm)) as [L|L]; [|discriminate].
  injection H as <-. apply title_well_formed. exact L.
Qed.

Lemma extract_candidate_name_well_formed env text :
  (2 <= String.length (extract_candidate_name env text))%nat /\
  Py.title (extract_candidate_name env text) = extract_candidate_name env text.
Proof.
  assert (U : (2 <= String.length "Unknown")%nat /\ Py.title "Unknown" = "Unknown")
    by (split; [cbn; lia | reflexivity]).
  unfold extract_candidate_name.
  destruct (Py.strip text); [exact U|].
  destruct (name_from_ner env text) as [n|] eqn:E1;
    [by apply name_from_ner_well_formed in E1|].
  destruct (nonblank_lines text) as [|l ls]; [exact U|].
  destruct (first_name _) as [n|] eqn:E2; [by apply first_name_well_formed in E2|].
  destruct (name_from_email text) as [n|] eqn:E3;
    [by apply name_from_email_well_formed in E3 | exact U].
Qed.

Lemma parse_cv_file_cases env file_path :
  (exists error, parse_cv_file env file_path = Py.Return (failed_record error)) \/
  (exists text parsed_data,
     _extract_text_from_file env file_path = Py.Return text /\ text <> "" /\
     _parse_text_content env text = Py.Return parsed_data /\
     parse_cv_file env file_path = Py.Return (completed_record parsed_data text)).
Proof.
  unfold parse_cv_file.
  destruct (_extract_text_from_file env file_path) as [text|e] eqn:E; cbn; [|eauto].
  destruct text as [|c text]; cbn; [eauto|].
  destruct (_parse_text_content env (String c text)) as [pd|e] eqn:P; cbn; [|eauto].
  right. exists (String c text), pd. done.
Qed.

End NameProperties.

Section StatisticsProperties.
Import CVAnalyzer.

Lemma count_status_partition (analyses : list CVAnalysisCreate) :
  Forall (fun a => match_status a = "shortlisted" \/ match_status a = "rejected") analyses ->
  (count_status "shortlisted" analyses + count_status "rejected" analyses
   = length analyses)%nat.
Proof.
  unfold count_status. induction 1 as [|a l Ha _ IH]; [done|]. cbn [List.filter].
  destruct Ha as [-> | ->]; cbn [String.eqb Ascii.eqb Bool.eqb length]; lia.
Qed.

Lemma statistics_counts (analyses : list CVAnalysisCreate) :
  total (get_analysis_statistics analyses) = length analyses /\
  shortlisted (get_analysis_statistics analyses) = count_status "shortlisted" analyses /\
  rejected (get_analysis_statistics analyses) = count_status "rejected" analyses.
Proof. by destruct analyses. Qed.

Lemma analyze_one_status analyze ptime job_posting weights candidate :
  (forall c j w, analyze c j w = Py.Return (_analyze_single_candidate c j w) \/
                 exists e, analyze c j w = Py.Raise e) ->
  let r := analyze_one analyze ptime job_posting weights candidate in
  match_status r = "shortlisted" \/ match_status r = "rejected".
Proof.
  intros H r. subst r. unfold analyze_one.
  destruct (H candidate job_posting weights) as [-> | [e ->]]; [|by right].
  cbn [analysis_data match_status]. unfold _analyze_single_candidate.
  cbn [a_match_status]. unfold _determine_match_status.
  destruct (Qle_bool 50 _); [by left | by right].
Qed.

Lemma sum_scores_bounds (lo hi : Q) (analyses : list CVAnalysisCreate) :
  Forall (fun a => lo <= overall_score a <= hi)%Q analyses ->
  forall acc,
    (acc + Qnat (length analyses) * lo
     <= fold_left (fun acc a => acc + overall_score a) analyses acc
     <= acc + Qnat (length analyses) * hi)%Q.
Proof.
  induction 1 as [|a l Ha _ IH]; intros acc; cbn [fold_left length].
  - change (Qnat 0) with 0%Q. lra.
  - specialize (IH (acc + overall_score a)%Q).
    assert (E : (Qnat (S (length l)) == Qnat (length l) + 1)%Q).
    { unfold Qnat. rewrite Nat2Z.inj_succ, <- Z.add_1_r, inject_Z_plus. reflexivity. }
    rewrite E. lra.
Qed.

End StatisticsProperties.

(** X18: the name that [extract_candidate_name] returns is never empty: it
    has at least two characters and is in title case, whichever strategy
    produced it. *)
Theorem candidate_name_is_well_formed (env : CVParser.Env) (text : string) :
  let name := CVParser.extract_candidate_name env text in
  (2 <= String.length name)%nat /\ Py.title name = name.
Proof. apply extract_candidate_name_well_formed. Qed.

(** X19: after a failed parse the upload endpoints name the candidate
    "Unknown": they call [extract_candidate_name] on the [raw_text] of the
    record, which is empty. *)
Theorem failed_parse_is_named_unknown
    (env : CVParser.Env) (file_path : string) (r : CVParser.ResumeRecord) :
  CVParser.parse_cv_file env file_path = Py.Return r ->
  CVParser.parsing_status r = CVParser.failed ->
  CVParser.extract_candidate_name env (CVParser.raw_text r) = "Unknown".
Proof.
  intros Hr Hs.
  destruct (parse_cv_file_cases env file_path) as [[error H] | (text & pd & _ & _ & _ & H)];
    rewrite H in Hr; injection Hr as <-; [reflexivity | discriminate].
Qed.

Lemma failed_parse_is_named_unknown_witness :
  CVParser.parse_cv_file Samples.env "resume.txt" =
    Py.Return (CVParser.failed_record "Unsupported file format: .txt") /\
  CVParser.parsing_status (CVParser.failed_record "Unsupported file format: .txt") =
    CVParser.failed /\
  CVParser.extract_candidate_name Samples.env
    (CVParser.raw_text (CVParser.failed_record "Unsupported file format: .txt")) = "Unknown".
Proof.
  assert (H : CVParser.parse_cv_file Samples.env "resume.txt" =
              Py.Return (CVParser.failed_record "Unsupported file format: .txt"))
    by (vm_compute; reflexivity).
  split; [exact H|]. split; [reflexivity|].
  exact (failed_parse_is_named_unknown Samples.env "resume.txt" _ H eq_refl).
Defined.

(** X20: when every analysis is either shortlisted or rejected, the two
    counts of the statistics add up to the total. *)
Theorem statistics_counts_add_up (analyses : list CVAnalyzer.CVAnalysisCreate) :
  Forall (fun a => CVAnalyzer.match_status a = "shortlisted" \/
                   CVAnalyzer.match_status a = "rejected") analyses ->
  let stats := CVAnalyzer.get_analysis_statistics analyses in
  (CVAnalyzer.shortlisted stats + CVAnalyzer.rejected stats = CVAnalyzer.total stats)%nat.
Proof.
  intros H stats. subst stats.
  destruct (statistics_counts analyses) as (-> & -> & ->). by apply count_status_partition.
Qed.

Lemma statistics_counts_add_up_witness :
  let analyses := [Samples.result "shortlisted" (7225 # 100);
                   Samples.result "rejected" (3110 # 100);
                   Samples.result "shortlisted" 60] in
  Forall (fun a => CVAnalyzer.match_status a = "shortlisted" \/
                   CVAnalyzer.match_status a = "rejected") analyses /\
  (CVAnalyzer.shortlisted (CVAnalyzer.get_analysis_statistics analyses)
   + CVAnalyzer.rejected (CVAnalyzer.get_analysis_statistics analyses)
   = CVAnalyzer.total (CVAnalyzer.get_analysis_statistics analyses))%nat.
Proof.
  intros analyses.
  assert (H : Forall (fun a => CVAnalyzer.match_status a = "shortlisted" \/
                               CVAnalyzer.match_status a = "rejected") analyses).
  { repeat constructor; (by left) || (by right). }
  split; [exact H|]. exact (statistics_counts_add_up analyses H).
Defined.

(** X21: when every overall score lies between 0 and 100, so does the
    average score of the statistics. *)
Theorem average_score_bounds (analyses : list CVAnalyzer.CVAnalysisCreate) :
  analyses <> [] ->
  Forall (fun a => 0 <= CVAnalyzer.overall_score a <= 100)%Q analyses ->
  exists average,
    CVAnalyzer.average_score (CVAnalyzer.get_analysis_statistics analyses) = Some average /\
    (0 <= average <= 100)%Q.
Proof.
  intros Hne HF. destruct analyses as [|a l]; [done|].
  eexists. split; [reflexivity|].
  pose proof (sum_scores_bounds 0 100 (a :: l) HF 0) as [H1 H2].
  fold (CVAnalyzer.sum_scores (a :: l)) in H1, H2.
  assert (Pn : (0 < CVAnalyzer.Qnat (length (a :: l)))%Q) by (by apply Qnat_pos).
  change (0 <? length (a :: l))%nat with true. cbv iota.
  assert (B : (0 <= CVAnalyzer.sum_scores (a :: l) / CVAnalyzer.Qnat (length (a :: l))
               <= 100)%Q).
  { split.
    - apply Qle_shift_div_l; [done|]. lra.
    - apply Qle_shift_div_r; [done|]. lra. }
  split.
  - apply (Qle_trans _ (CVAnalyzer.round2 0)); [by vm_compute | apply round2_mono, B].
  - apply (Qle_trans _ (CVAnalyzer.round2 100)); [apply round2_mono, B | by vm_compute].
Qed.

Lemma average_score_bounds_witness :
  let analyses := [Samples.result "shortlisted" (7225 # 100);
                   Samples.result "rejected" (3110 # 100)] in
  analyses <> [] /\
  Forall (fun a => 0 <= CVAnalyzer.overall_score a <= 100)%Q analyses /\
  exists average,
    CVAnalyzer.average_score (CVAnalyzer.get_analysis_statistics analyses) = Some average /\
    (0 <= average <= 100)%Q.
Proof.
  intros analyses.
  assert (H : Forall (fun a => 0 <= CVAnalyzer.overall_score a <= 100)%Q analyses).
  { repeat constructor; discriminate. }
  split; [discriminate|]. split; [exact H|].
  apply (average_score_bounds analyses); [discriminate | exact H].
Defined.

(** X22: the statistics of a batch: whether the analysis of a candidate
    succeeds or raises, the total is the number of candidates and every
    candidate is counted once, as shortlisted or as rejected. *)
Theorem batch_statistics
    (analyze : CVAnalyzer.Candidate -> CVAnalyzer.JobPosting -> CVAnalyzer.Weights ->
               Py.result CVAnalyzer.Analysis)
    (ptime : CVAnalyzer.Candidate -> Z)
    (candidates : list CVAnalyzer.Candidate) (job_posting : CVAnalyzer.JobPosting)
    (analyzed_by : Z) (custom_weights : option CVAnalyzer.Weights) :
  (forall c j w, analyze c j w = Py.Return (CVAnalyzer._analyze_single_candidate c j w) \/
                 exists e, analyze c j w = Py.Raise e) ->
  let stats :=
    CVAnalyzer.get_analysis_statistics
      (CVAnalyzer.analyze_candidates_for_job analyze ptime candidates job_posting
                                             analyzed_by custom_weights) in
  CVAnalyzer.total stats = length candidates /\
  (CVAnalyzer.shortlisted stats + CVAnalyzer.rejected stats = length candidates)%nat.
Proof.
  intros H stats. subst stats. rewrite analyze_candidates_for_job_map.
  destruct (statistics_counts
              (map (CVAnalyzer.analyze_one analyze ptime job_posting
                      (CVAnalyzer.effective_weights custom_weights)) candidates))
    as (-> & -> & ->).
  rewrite count_status_partition; [by rewrite length_map|].
  apply Forall_forall. intros r Hr. apply list_elem_of_In, in_map_iff in Hr as (c & <- & _).
  by apply analyze_one_status.
Qed.

Lemma batch_statistics_witness :
  let analyze c j w :=
    if (CVAnalyzer.c_id c =? 2)%Z
    then Py.Raise (Py.Exception "TypeError" "'NoneType' object is not iterable")
    else Py.Return (CVAnalyzer._analyze_single_candidate c j w) in
  let candidates := [Samples.candidate 1; Samples.candidate 2; Samples.candidate 3] in
  let stats :=
    CVAnalyzer.get_analysis_statistics
      (CVAnalyzer.analyze_candidates_for_job analyze (fun _ => 12%Z) candidates
                                             Samples.posting 1 None) in
  (forall c j w, analyze c j w = Py.Return (CVAnalyzer._analyze_single_candidate c j w) \/
                 exists e, analyze c j w = Py.Raise e) /\
  CVAnalyzer.total stats = 3%nat /\
  (CVAnalyzer.shortlisted stats + CVAnalyzer.rejected stats = 3)%nat.
Proof.
  intros analyze candidates stats.
  assert (H : forall c j w,
            analyze c j w = Py.Return (CVAnalyzer._analyze_single_candidate c j w) \/
            exists e, analyze c j w = Py.Raise e).
  { intros c j w. unfold analyze. destruct (CVAnalyzer.c_id c =? 2)%Z; eauto. }
  split; [exact H|].
  exact (batch_statistics analyze (fun _ => 12%Z) candidates Samples.posting 1 None H).
Defined.

(** ** Text similarity *)

Section SimilarityProperties.
Import NLPService.

Lemma ratio_bounds (n m : nat) :
  (n <= m)%nat -> m <> 0%nat ->
  (0 <= inject_Z (Z.of_nat n) / inject_Z (Z.of_nat m) <= 1)%Q.
Proof.
  intros Hn Hm. pose proof (Qnat_pos m Hm) as Pm. pose proof (Qnat_nonneg n) as Pn.
  pose proof (Qnat_le n m Hn) as L. unfold CVAnalyzer.Qnat in *. split.
  - apply Qle_shift_div_l; [done|]. lra.
  - apply Qle_shift_div_r; [done|]. lra.
Qed.

Lemma ratio_one (n m : nat) :
  m <> 0%nat -> (inject_Z (Z.of_nat n) / inject_Z (Z.of_nat m) == 1)%Q <-> n = m.
Proof.
  intros Hm. rewrite <- (percentage_full n m Hm). unfold CVAnalyzer.Qnat.
  generalize (inject_Z (Z.of_nat n) / inject_Z (Z.of_nat m))%Q. intros t.
  split; intros H; lra.
Qed.

Lemma ratio_zero (n m : nat) :
  m <> 0%nat -> (inject_Z (Z.of_nat n) / inject_Z (Z.of_nat m) == 0)%Q <-> n = 0%nat.
Proof.
  intros Hm. pose proof (Qnat_neq0 m Hm) as Nm. unfold CVAnalyzer.Qnat in Nm. split.
  - intros H.
    pose proof (Qmult_div_r (inject_Z (Z.of_nat n)) (inject_Z (Z.of_nat m)) Nm) as E.
    rewrite H, Qmult_0_r in E.
    assert (Z.of_nat n = 0%Z) by (by apply inject_Z_injective). lia.
  - intros ->. reflexivity.
Qed.

(** The set of words that [calculate_text_similarity] compares. *)
Lemma similarity_cases (text1 text2 : string) :
  let words1 : gset string := list_to_set (Py.split (Py.lower text1)) in
  let words2 : gset string := list_to_set (Py.split (Py.lower text2)) in
  (calculate_text_similarity text1 text2 = 0%Q /\ (words1 = ∅ \/ words2 = ∅)) \/
  (calculate_text_similarity text1 text2 =
     (inject_Z (Z.of_nat (size (words1 ∩ words2)))
      / inject_Z (Z.of_nat (size (words1 ∪ words2))))%Q /\
   words1 <> ∅ /\ words2 <> ∅ /\ size (words1 ∪ words2) <> 0%nat).
Proof.
  intros words1 words2. unfold calculate_text_similarity. fold words1 words2.
  destruct (decide (words1 = ∅)) as [E1|E1].
  { left. rewrite bool_decide_eq_true_2 by done. auto. }
  destruct (decide (words2 = ∅)) as [E2|E2].
  { left. rewrite (bool_decide_eq_true_2 (words2 = ∅)) by done. rewrite orb_true_r. auto. }
  right. rewrite !bool_decide_eq_false_2 by done. cbn [orb].
  assert (U : words1 ∪ words2 <> ∅).
  { intros E. apply E1, set_eq. intros x. rewrite elem_of_empty. split; [|done].
    intros Hx. apply (elem_of_union_l x words1 words2) in Hx. rewrite E in Hx.
    by apply elem_of_empty in Hx. }
  rewrite bool_decide_eq_false_2 by done. split; [done|]. split; [done|]. split; [done|].
  intros H. apply size_empty_iff in H. apply U. by apply leibniz_equiv.
Qed.

End SimilarityProperties.

(** X23: the similarity of two texts is a number between 0 and 1 that
    does not depend on the order of the two texts. *)
Theorem text_similarity_range_and_symmetry (text1 text2 : string) :
  (0 <= NLPService.calculate_text_similarity text1 text2 <= 1)%Q /\
  NLPService.calculate_text_similarity text1 text2 =
  NLPService.calculate_text_similarity text2 text1.
Proof.
  split.
  - destruct (similarity_cases text1 text2) as [[-> _] | (-> & _ & _ & H)];
      [split; discriminate|].
    apply ratio_bounds; [|exact H]. apply subseteq_size.
    etrans; [apply intersection_subseteq_l | apply union_subseteq_l].
  - unfold NLPService.calculate_text_similarity.
    assert (I : forall X Y : gset string, X ∩ Y = Y ∩ X)
      by (intros; apply set_eq; intros x; rewrite !elem_of_intersection; tauto).
    assert (U : forall X Y : gset string, X ∪ Y = Y ∪ X)
      by (intros; apply set_eq; intros x; rewrite !elem_of_union; tauto).
    rewrite orb_comm, (I (list_to_set (Py.split (Py.lower text1)))),
      (U (list_to_set (Py.split (Py.lower text1)))).
    reflexivity.
Qed.

(** X24: the extremes of the similarity: it is 1 exactly when the two
    texts have the same words, up to case, order and repetition, and at
    least one word; it is 0 exactly when they have no word in common. *)
Theorem text_similarity_extremes (text1 text2 : string) :
  let words1 : gset string := list_to_set (Py.split (Py.lower text1)) in
  let words2 : gset string := list_to_set (Py.split (Py.lower text2)) in
  ((NLPService.calculate_text_similarity text1 text2 == 1)%Q <->
   words1 = words2 /\ words1 <> ∅) /\
  ((NLPService.calculate_text_similarity text1 text2 == 0)%Q <->
   words1 ∩ words2 = ∅).
Proof.
  intros words1 words2.
  pose proof (similarity_cases text1 text2) as C. cbv zeta in C. fold words1 words2 in C.
  destruct C as [[-> E] | (-> & N1 & N2 & H)].
  - split.
    + split; [discriminate|]. intros [E12 N]. destruct E as [E | E]; [done|].
      rewrite E12 in N. done.
    + split; [|reflexivity]. intros _.
      destruct E as [-> | ->]; apply set_eq; intros x;
        rewrite elem_of_intersection, elem_of_empty; tauto.
  - rewrite ratio_one, ratio_zero by exact H. split.
    + split.
      * intros S. split; [|exact N1].
        assert (Q : words1 ∩ words2 = words1 ∪ words2).
        { apply set_subseteq_size_eq; [|lia].
          etrans; [apply intersection_subseteq_l | apply union_subseteq_l]. }
        apply set_eq. intros x.
        assert (Hx : x ∈ words1 ∩ words2 <-> x ∈ words1 ∪ words2) by (by rewrite Q).
        rewrite elem_of_intersection, elem_of_union in Hx. tauto.
      * intros [E _]. rewrite <- E. f_equal. apply set_eq. intros x.
        rewrite elem_of_intersection, elem_of_union. tauto.
    + rewrite size_empty_iff. split; intros E; [by apply leibniz_equiv | by rewrite E].
Qed.

(** ** Job keywords and key phrases *)

Section KeywordProperties.
Import Re CVAnalyzer.

Lemma map_chars_substring (f : ascii -> ascii) (s : string) : forall n m,
  Py.map_chars f (substring n m s) = substring n m (Py.map_chars f s).
Proof.
  induction s as [|c s IH]; intros n m.
  - by destruct n, m.
  - destruct n as [|n]; [destruct m as [|m]|]; cbn [substring Py.map_chars]; [done| |apply IH].
    by rewrite IH.
Qed.

Lemma lower_substring (s : string) (n m : nat) :
  Py.lower s = s -> Py.lower (substring n m s) = substring n m s.
Proof. intros H. unfold Py.lower in *. by rewrite map_chars_substring, H. Qed.

Lemma findall0_lower (r : regex) (text word : string) :
  Py.lower text = text -> In word (findall0 r text) -> Py.lower word = word.
Proof.
  unfold findall0. intros H Hw. apply in_map_iff in Hw as (m & <- & _).
  by apply lower_substring.
Qed.

Lemma incr_keys (w : string) (c : list (string * nat)) (k : string) :
  In k (map fst (incr w c)) -> k = w \/ In k (map fst c).
Proof.
  induction c as [|[k0 n] c IH]; cbn [incr map fst In]; [intros [<- | []]; by left|].
  destruct (String.eqb k0 w); cbn [map fst In]; tauto.
Qed.

Lemma Counter_keys (l : list string) (k : string) :
  In k (map fst (Counter l)) -> In k l.
Proof.
  unfold Counter.
  assert (G : forall acc, In k (map fst (fold_left (fun c w => incr w c) l acc)) ->
                          In k l \/ In k (map fst acc)).
  { induction l as [|w l IH]; intros acc H; cbn [fold_left] in *; [by right|].
    apply IH in H as [H | H]; [left; by right|].
    apply incr_keys in H as [-> | H]; [left; by left | by right]. }
  intros H. by apply G in H as [H | []].
Qed.

Lemma insert_desc_In (x y : string * nat) (sorted : list (string * nat)) :
  In y (insert_desc x sorted) -> y = x \/ In y sorted.
Proof.
  induction sorted as [|z zs IH]; cbn [insert_desc In]; [intros [<- | []]; by left|].
  destruct (snd z <? snd x)%nat; cbn [In]; intuition congruence.
Qed.

Lemma most_common_In (n : nat) (c : list (string * nat)) (y : string * nat) :
  In y (most_common n c) -> In y c.
Proof.
  unfold most_common. intros H. apply list_elem_of_In, elem_of_take in H as (i & H & _).
  apply list_elem_of_lookup_2, list_elem_of_In in H.
  assert (G : forall acc, In y (fold_left (fun acc x => insert_desc x acc) c acc) ->
                          In y c \/ In y acc).
  { clear H. induction c as [|x c IH]; intros acc H; cbn [fold_left] in *; [by right|].
    apply IH in H as [H | H]; [left; by right|].
    apply insert_desc_In in H as [-> | H]; [left; by left | by right]. }
  by apply G in H as [H | []].
Qed.

Lemma job_keywords_lower (d k : string) :
  k ∈ _extract_job_keywords d -> Py.lower k = k.
Proof.
  unfold _extract_job_keywords. rewrite elem_of_remove_dups, elem_of_app, !list_elem_of_In.
  intros [H | H].
  - apply in_map_iff in H as ([w n] & <- & H). apply filter_In in H as [H _].
    apply most_common_In, (in_map fst), Counter_keys, filter_In in H as [H _].
    cbn [fst] in *. apply (findall0_lower _ _ _ (lower_idem d) H).
  - apply in_flat_map in H as (p & _ & H). apply in_map_iff in H as (w & <- & _).
    apply lower_idem.
Qed.

Lemma isupper_lower_char (a : ascii) : Py.isupper_char (Py.lower_char a) = false.
Proof. destruct a as [[] [] [] [] [] [] [] []]; reflexivity. Qed.

Lemma no_upper_in_lower (s : string) :
  Py.forall_chars (fun a => negb (Py.isupper_char a)) (Py.lower s) = true.
Proof.
  unfold Py.lower. induction s as [|a s IH]; [done|]. cbn [Py.map_chars Py.forall_chars].
  by rewrite isupper_lower_char, IH.
Qed.

Lemma search_at_acronym_none (s : string) : forall b i,
  Py.forall_chars (fun a => negb (Py.isupper_char a)) s = true ->
  search_at (cat [WordB; Rep 2 10 (Chr Py.isupper_char); WordB]) b s i = None.
Proof.
  assert (R : forall c,
    Py.forall_chars (fun a => negb (Py.isupper_char a)) (rest c) = true ->
    run (cat [WordB; Rep 2 10 (Chr Py.isupper_char); WordB]) accept c [] = None).
  { intros c Hc. cbn [cat].
    change (run (Seq WordB (Seq (Rep 2 10 (Chr Py.isupper_char)) WordB)) accept c [])
      with (if at_word_boundary c
            then match run (Chr Py.isupper_char)
                           (rep_loop (run (Chr Py.isupper_char)) (run WordB accept) 1 9) c []
                 with
                 | Some o => Some o
                 | None => None
                 end
            else None).
    destruct (at_word_boundary c); [|done]. cbn [run].
    destruct (rest c) as [|a tl]; [done|]. cbn [Py.forall_chars] in Hc.
    apply andb_true_iff in Hc as [Ha _]. apply negb_true_iff in Ha. by rewrite Ha. }
  induction s as [|a s IH]; intros b i H; cbn [search_at].
  - by rewrite R.
  - rewrite R by exact H. apply IH. cbn [Py.forall_chars] in H.
    by apply andb_true_iff in H as [_ H].
Qed.

End KeywordProperties.

Section KeyPhraseProperties.
Import Re NLPService.

Lemma star_loop_accept (m : matcher) (fuel : nat) (c : cursor) (g : captures) :
  exists o, star_loop m accept fuel c g = Some o.
Proof.
  destruct fuel as [|fuel]; cbn [star_loop]; [by eexists|].
  destruct (m _ c g); by eexists.
Qed.

Lemma substring_full (s : string) : substring 0 (String.length s) s = s.
Proof. induction s as [|a s IH]; [done|]. cbn [String.length substring]. by rewrite IH. Qed.

Lemma substring_prefix (p q : string) : substring 0 (String.length p) (p +:+ q) = p.
Proof.
  induction p as [|a p IH]; [by destruct q|].
  rewrite string_app_cons. cbn [String.length substring]. by rewrite IH.
Qed.

Lemma search_sentence_end_none (s : string) : forall b i,
  search_at sentence_end b s i = None ->
  Py.forall_chars (fun a => negb (one_of ".!?" a)) s = true.
Proof.
  induction s as [|a s IH]; intros b i H; [done|]. cbn [search_at] in H.
  destruct (run sentence_end accept (Cursor b (String a s) i) []) as [[c g]|] eqn:E;
    [discriminate|].
  cbn [Py.forall_chars]. rewrite (IH _ _ H), andb_true_r.
  unfold sentence_end, Plus in E. cbn [run rest pos] in E.
  destruct (one_of ".!?" a); [|done].
  match type of E with
  | star_loop ?m accept ?f ?c ?g = None =>
      destruct (star_loop_accept m f c g) as [o Ho]; congruence
  end.
Qed.

Lemma search_sentence_end_some (s : string) : forall b i m,
  search_at sentence_end b s i = Some m ->
  exists pre a post mid,
    s = pre +:+ String a (mid +:+ rest (m_end m)) /\
    post = mid +:+ rest (m_end m) /\
    Py.forall_chars (fun a => negb (one_of ".!?" a)) pre = true /\
    m_start m = (i + String.length pre)%nat /\
    pos (m_end m) = (S (i + String.length pre) + String.length mid)%nat.
Proof.
  induction s as [|a s IH]; intros b i m H; cbn [search_at] in H.
  - unfold sentence_end, Plus in H. cbn [run rest] in H. discriminate.
  - destruct (run sentence_end accept (Cursor b (String a s) i) []) as [[c g]|] eqn:E.
    + injection H as <-. unfold sentence_end, Plus in E. cbn [run rest pos] in E.
      destruct (one_of ".!?" a); [|discriminate].
      apply (star_loop_sound true _ (run_sound (Chr (one_of ".!?")))) in E
        as (c2 & g2 & (mid & R & P) & E & _).
      injection E as -> ->. cbn [rest pos] in R, P.
      exists "", a, s, mid. cbn [m_end m_start String.length]. rewrite <- R.
      repeat split; try done; lia.
    + apply IH in H as (pre & a' & post & mid & -> & -> & N & S' & P).
      exists (String a pre), a', (mid +:+ rest (m_end m)), mid.
      rewrite string_app_cons. cbn [Py.forall_chars String.length].
      unfold sentence_end, Plus in E. cbn [run rest pos] in E.
      destruct (one_of ".!?" a) eqn:Ea.
      { match type of E with
        | star_loop ?m accept ?f ?c ?g = None =>
            destruct (star_loop_accept m f c g) as [o Ho]; congruence
        end. }
      cbn [negb andb]. repeat split; try done; lia.
Qed.

Lemma split_pieces_clean (fuel : nat) : forall (pre s : string) (b : option ascii),
  (String.length s < fuel)%nat ->
  Forall (fun piece => Py.forall_chars (fun a => negb (one_of ".!?" a)) piece = true)
         (split_from (pre +:+ s) (String.length pre)
                     (finditer_from fuel sentence_end (Cursor b s (String.length pre)))).
Proof.
  induction fuel as [|fuel IH]; intros pre s b Hf; [lia|].
  cbn [finditer_from before rest pos].
  destruct (search_at sentence_end b s (String.length pre)) as [m|] eqn:E.
  - apply search_sentence_end_some in E as (p1 & a & post & mid & Es & _ & N & S' & P).
    assert (Hlt : (m_start m <? pos (m_end m))%nat = true) by (apply Nat.ltb_lt; lia).
    rewrite Hlt. cbn [split_from]. constructor.
    + rewrite Es, S'.
      replace (String.length pre + String.length p1 - String.length pre)%nat
        with (String.length p1) by lia.
      by rewrite substring_skip, substring_prefix.
    + assert (Et : pre +:+ s =
                   (pre +:+ p1 +:+ String a mid) +:+ rest (m_end m)).
      { rewrite Es, !string_app_assoc, string_app_cons. reflexivity. }
      assert (El : m_stop m = String.length (pre +:+ p1 +:+ String a mid)).
      { unfold m_stop. rewrite P, !string_app_length. cbn [String.length]. lia. }
      assert (Ee : Cursor (before (m_end m)) (rest (m_end m))
                          (String.length (pre +:+ p1 +:+ String a mid)) = m_end m).
      { unfold m_stop in El. rewrite <- El. by destruct (m_end m). }
      pose proof (IH (pre +:+ p1 +:+ String a mid) (rest (m_end m)) (before (m_end m)))
        as IH'.
      rewrite Ee, <- Et, <- El in IH'. apply IH'.
      assert (L : String.length s =
                  (String.length p1 + S (String.length mid
                                         + String.length (rest (m_end m))))%nat).
      { rewrite Es, string_app_length. cbn [String.length]. by rewrite string_app_length. }
      lia.
  - cbn [split_from]. constructor; [|constructor].
    rewrite string_app_length.
    replace (String.length pre + String.length s - String.length pre)%nat
      with (String.length s) by lia.
    rewrite substring_skip, substring_full. by apply search_sentence_end_none in E.
Qed.

Lemma re_split_pieces_clean (text : string) :
  Forall (fun piece => Py.forall_chars (fun a => negb (one_of ".!?" a)) piece = true)
         (re_split sentence_end text).
Proof.
  unfold re_split, finditer, start_of.
  apply (split_pieces_clean (S (String.length text)) "" text None). lia.
Qed.

Lemma forall_chars_lstrip (p : ascii -> bool) (s : string) :
  Py.forall_chars p s = true -> Py.forall_chars p (Py.lstrip s) = true.
Proof.
  induction s as [|c s IH]; [done|]. cbn [Py.lstrip].
  destruct (Py.isspace_char c); [|done]. cbn [Py.forall_chars].
  intros H. apply andb_true_iff in H as [_ H]. by apply IH.
Qed.

Lemma forall_chars_rstrip (p : ascii -> bool) (s : string) :
  Py.forall_chars p s = true -> Py.forall_chars p (Py.rstrip s) = true.
Proof.
  induction s as [|c s IH]; [done|]. rewrite rstrip_cons. cbn [Py.forall_chars].
  intros H. apply andb_true_iff in H as [Hc H]. specialize (IH H).
  destruct (Py.rstrip s) as [|a r].
  - destruct (Py.isspace_char c); [done|]. cbn [Py.forall_chars]. by rewrite Hc.
  - cbn [Py.forall_chars] in *. by rewrite Hc, IH.
Qed.

Lemma forall_chars_strip (p : ascii -> bool) (s : string) :
  Py.forall_chars p s = true -> Py.forall_chars p (Py.strip s) = true.
Proof. intros H. unfold Py.strip. by apply forall_chars_lstrip, forall_chars_rstrip. Qed.

End KeyPhraseProperties.

(** X25: the mined keywords of a job description are distinct and in
    lower case, whatever the case of the description. *)
Theorem job_keywords_are_lower_case (job_description : string) :
  NoDup (CVAnalyzer._extract_job_keywords job_description) /\
  forall keyword, keyword ∈ CVAnalyzer._extract_job_keywords job_description ->
                  Py.lower keyword = keyword.
Proof. split; [apply job_keywords_NoDup | intros k; apply job_keywords_lower]. Qed.

(** X26: the pattern for acronyms in capitals, [\b[A-Z]{2,10}\b], finds
    nothing in a lower-cased text: in the skill match, where the
    description is lower-cased before the keywords are mined, it never
    yields a keyword. *)
Theorem acronym_pattern_finds_nothing_in_lowered_text (job_description : string) :
  let acronyms := Re.cat [Re.WordB; Re.Rep 2 10 (Re.Chr Py.isupper_char); Re.WordB] in
  In acronyms CVAnalyzer.tech_patterns /\
  Re.findall0 acronyms (Py.lower job_description) = [].
Proof.
  intros acronyms. split; [by left|].
  unfold Re.findall0, Re.finditer, Re.start_of. cbn [Re.finditer_from Re.before Re.rest Re.pos].
  subst acronyms. by rewrite search_at_acronym_none by apply no_upper_in_lower.
Qed.

(** X27: [extract_key_phrases] returns at most ten phrases; each of them is
    trimmed, has two to five words and contains none of the characters
    that end a sentence ('.', '!' and '?'). *)
Theorem key_phrases_are_clean (text : string) :
  (length (NLPService.extract_key_phrases text) <= 10)%nat /\
  Forall (fun phrase =>
            Py.strip phrase = phrase /\
            (2 <= length (Py.split phrase) <= 5)%nat /\
            Py.forall_chars (fun a => negb (Re.one_of ".!?" a)) phrase = true)
         (NLPService.extract_key_phrases text).
Proof.
  unfold NLPService.extract_key_phrases. split.
  - rewrite length_take. lia.
  - apply Forall_take, Forall_forall. intros phrase H.
    apply list_elem_of_In, in_flat_map in H as (sentence & Hs & H).
    cbv zeta in H.
    destruct (Nat.leb_spec 2 (length (Py.split (Py.strip sentence)))) as [L2|]; [|done].
    destruct (Nat.leb_spec (length (Py.split (Py.strip sentence))) 5) as [L5|]; [|done].
    destruct H as [<- | []]. rewrite strip_idem. split; [done|]. split; [lia|].
    apply forall_chars_strip.
    pose proof (re_split_pieces_clean text) as F.
    by apply (proj1 (List.Forall_forall _ _) F).
Qed.

(** ** Instances for the matcher and the year span *)

(** The instance of X28 on the skill "java". *)
Lemma is_skill_mentioned_whole_word_witness :
  Py.isascii "I use Java daily" = true /\ Py.isascii "java" = true /\
  Re.word_edged "java" /\
  (NLPService._is_skill_mentioned "I use Java daily" "java" = true <->
   exists pre mid post, "I use Java daily" = pre +:+ mid +:+ post /\
     Py.lower mid = Py.lower "java" /\
     Re.is_word (Re.last_char None pre) = false /\
     Re.is_word (Re.first_char post) = false).
Proof.
  assert (H : Re.word_edged "java") by (split; reflexivity).
  split; [reflexivity|]. split; [reflexivity|]. split; [exact H|].
  exact (is_skill_mentioned_whole_word "I use Java daily" "java" eq_refl eq_refl H).
Defined.

(** The instance of X29 on a text with two dates. *)
Lemma year_span_is_0_or_1_witness :
  CVParser.explicit_years "Software Engineer 2015 - 2020" = [] /\
  ((CVParser._calculate_experience_years "Software Engineer 2015 - 2020" == 0)%Q \/
   (CVParser._calculate_experience_years "Software Engineer 2015 - 2020" == 1)%Q).
Proof.
  assert (H : CVParser.explicit_years "Software Engineer 2015 - 2020" = [])
    by (vm_compute; reflexivity).
  split; [exact H|]. exact (year_span_is_0_or_1 _ H).
Defined.
